(** * droidrun phone chat: command interpretation and action dispatch

    A shallow embedding of [chat-phone.py] (the interactive loop) and
    [test-command.py] (the single-command harness), and the properties of
    the app resolver, the reply classifier and the action executor.

    Python strings are sequences of Unicode code points, the device backend
    ([AdbTools]) is a deterministic collaborator that may raise on any call,
    and every [print] and every device call of the dispatch code is recorded,
    in program order, in one event log. *)

From Stdlib Require Import List NArith ZArith Bool Lia String Ascii.
Import ListNotations.

Set Implicit Arguments.

(** ** Python strings and the built-ins the scripts use *)

Module Py.

(** A [str] is the list of its code points. *)
Definition str := list N.

(** UTF-8 decoding, used only to write the literals of the source:
    [need] continuation bytes are still expected, [acc] holds the bits read. *)
Fixpoint utf8 (bs : list N) (need : nat) (acc : N) : str :=
  match bs with
  | [] => []
  | b :: bs' =>
      match need with
      | O =>
          if (b <? 0x80)%N then b :: utf8 bs' 0 0%N
          else if (b <? 0xE0)%N then utf8 bs' 1 (b - 0xC0)%N
          else if (b <? 0xF0)%N then utf8 bs' 2 (b - 0xE0)%N
          else utf8 bs' 3 (b - 0xF0)%N
      | S O => (acc * 64 + (b - 0x80))%N :: utf8 bs' 0 0%N
      | S n => utf8 bs' n (acc * 64 + (b - 0x80))%N
      end
  end.

(** The literal written between quotes in the source. *)
Definition u (s : string) : str :=
  utf8 (map N_of_ascii (list_ascii_of_string s)) 0 0%N.

(** [a == b] on strings. *)
Fixpoint eqb (a b : str) : bool :=
  match a, b with
  | [], [] => true
  | c :: a', d :: b' => (c =? d)%N && eqb a' b'
  | _, _ => false
  end.

(** [s.startswith(p)]. *)
Fixpoint startswith (s p : str) {struct p} : bool :=
  match p with
  | [] => true
  | c :: p' =>
      match s with
      | [] => false
      | d :: s' => (d =? c)%N && startswith s' p'
      end
  end.

(** [sub in s]: [sub] occurs in [s] as a contiguous run. *)
Fixpoint str_in (sub s : str) : bool :=
  startswith s sub ||
  match s with
  | [] => false
  | _ :: s' => str_in sub s'
  end.

(** [x in xs] for a collection of strings. *)
Definition mem (x : str) (xs : list str) : bool := existsb (eqb x) xs.

(** [c] lies in the run of code points from [fst r] to [snd r]. *)
Definition covers (c : N) (r : N * N) : bool :=
  ((fst r <=? c) && (c <=? snd r))%N.

(** The case tables of CPython 3.11 (Unicode 14.0) from U+0080 on.

    [lower_runs]: every code point of the run from [first] to [last] has
    one code point as its lower case, which lies as far from [image] as
    the code point lies from [first].  An entry reads
    [(first, last, image)]. *)
Definition lower_runs : list (N * N * N) :=
  [
     (0xC0, 0xD6, 0xE0); (0xD8, 0xDE, 0xF8);
     (0x178, 0x178, 0xFF); (0x181, 0x181, 0x253);
     (0x186, 0x186, 0x254); (0x187, 0x187, 0x188);
     (0x189, 0x18A, 0x256); (0x18B, 0x18B, 0x18C);
     (0x18E, 0x18E, 0x1DD); (0x18F, 0x18F, 0x259);
     (0x190, 0x190, 0x25B); (0x191, 0x191, 0x192);
     (0x193, 0x193, 0x260); (0x194, 0x194, 0x263);
     (0x196, 0x196, 0x269); (0x197, 0x197, 0x268);
     (0x198, 0x198, 0x199); (0x19C, 0x19C, 0x26F);
     (0x19D, 0x19D, 0x272); (0x19F, 0x19F, 0x275);
     (0x1A6, 0x1A6, 0x280); (0x1A7, 0x1A7, 0x1A8);
     (0x1A9, 0x1A9, 0x283); (0x1AC, 0x1AC, 0x1AD);
     (0x1AE, 0x1AE, 0x288); (0x1AF, 0x1AF, 0x1B0);
     (0x1B1, 0x1B2, 0x28A); (0x1B7, 0x1B7, 0x292);
     (0x1B8, 0x1B8, 0x1B9); (0x1BC, 0x1BC, 0x1BD);
     (0x1C4, 0x1C4, 0x1C6); (0x1C5, 0x1C5, 0x1C6);
     (0x1C7, 0x1C7, 0x1C9); (0x1C8, 0x1C8, 0x1C9);
     (0x1CA, 0x1CA, 0x1CC); (0x1F1, 0x1F1, 0x1F3);
     (0x1F6, 0x1F6, 0x195); (0x1F7, 0x1F7, 0x1BF);
     (0x220, 0x220, 0x19E); (0x23A, 0x23A, 0x2C65);
     (0x23B, 0x23B, 0x23C); (0x23D, 0x23D, 0x19A);
     (0x23E, 0x23E, 0x2C66); (0x241, 0x241, 0x242);
     (0x243, 0x243, 0x180); (0x244, 0x244, 0x289);
     (0x245, 0x245, 0x28C); (0x376, 0x376, 0x377);
     (0x37F, 0x37F, 0x3F3); (0x386, 0x386, 0x3AC);
     (0x388, 0x38A, 0x3AD); (0x38C, 0x38C, 0x3CC);
     (0x38E, 0x38F, 0x3CD); (0x391, 0x3A1, 0x3B1);
     (0x3A3, 0x3AB, 0x3C3); (0x3CF, 0x3CF, 0x3D7);
     (0x3F4, 0x3F4, 0x3B8); (0x3F7, 0x3F7, 0x3F8);
     (0x3F9, 0x3F9, 0x3F2); (0x3FA, 0x3FA, 0x3FB);
     (0x3FD, 0x3FF, 0x37B); (0x400, 0x40F, 0x450);
     (0x410, 0x42F, 0x430); (0x4C0, 0x4C0, 0x4CF);
     (0x531, 0x556, 0x561); (0x10A0, 0x10C5, 0x2D00);
     (0x10C7, 0x10C7, 0x2D27); (0x10CD, 0x10CD, 0x2D2D);
     (0x13A0, 0x13EF, 0xAB70); (0x13F0, 0x13F5, 0x13F8);
     (0x1C90, 0x1CBA, 0x10D0); (0x1CBD, 0x1CBF, 0x10FD);
     (0x1E9E, 0x1E9E, 0xDF); (0x1F08, 0x1F0F, 0x1F00);
     (0x1F18, 0x1F1D, 0x1F10); (0x1F28, 0x1F2F, 0x1F20);
     (0x1F38, 0x1F3F, 0x1F30); (0x1F48, 0x1F4D, 0x1F40);
     (0x1F59, 0x1F59, 0x1F51); (0x1F5B, 0x1F5B, 0x1F53);
     (0x1F5D, 0x1F5D, 0x1F55); (0x1F5F, 0x1F5F, 0x1F57);
     (0x1F68, 0x1F6F, 0x1F60); (0x1F88, 0x1F8F, 0x1F80);
     (0x1F98, 0x1F9F, 0x1F90); (0x1FA8, 0x1FAF, 0x1FA0);
     (0x1FB8, 0x1FB9, 0x1FB0); (0x1FBA, 0x1FBB, 0x1F70);
     (0x1FBC, 0x1FBC, 0x1FB3); (0x1FC8, 0x1FCB, 0x1F72);
     (0x1FCC, 0x1FCC, 0x1FC3); (0x1FD8, 0x1FD9, 0x1FD0);
     (0x1FDA, 0x1FDB, 0x1F76); (0x1FE8, 0x1FE9, 0x1FE0);
     (0x1FEA, 0x1FEB, 0x1F7A); (0x1FEC, 0x1FEC, 0x1FE5);
     (0x1FF8, 0x1FF9, 0x1F78); (0x1FFA, 0x1FFB, 0x1F7C);
     (0x1FFC, 0x1FFC, 0x1FF3); (0x2126, 0x2126, 0x3C9);
     (0x212A, 0x212A, 0x6B); (0x212B, 0x212B, 0xE5);
     (0x2132, 0x2132, 0x214E); (0x2160, 0x216F, 0x2170);
     (0x2183, 0x2183, 0x2184); (0x24B6, 0x24CF, 0x24D0);
     (0x2C00, 0x2C2F, 0x2C30); (0x2C60, 0x2C60, 0x2C61);
     (0x2C62, 0x2C62, 0x26B); (0x2C63, 0x2C63, 0x1D7D);
     (0x2C64, 0x2C64, 0x27D); (0x2C6D, 0x2C6D, 0x251);
     (0x2C6E, 0x2C6E, 0x271); (0x2C6F, 0x2C6F, 0x250);
     (0x2C70, 0x2C70, 0x252); (0x2C72, 0x2C72, 0x2C73);
     (0x2C75, 0x2C75, 0x2C76); (0x2C7E, 0x2C7F, 0x23F);
     (0x2CF2, 0x2CF2, 0x2CF3); (0xA77D, 0xA77D, 0x1D79);
     (0xA78B, 0xA78B, 0xA78C); (0xA78D, 0xA78D, 0x265);
     (0xA7AA, 0xA7AA, 0x266); (0xA7AB, 0xA7AB, 0x25C);
     (0xA7AC, 0xA7AC, 0x261); (0xA7AD, 0xA7AD, 0x26C);
     (0xA7AE, 0xA7AE, 0x26A); (0xA7B0, 0xA7B0, 0x29E);
     (0xA7B1, 0xA7B1, 0x287); (0xA7B2, 0xA7B2, 0x29D);
     (0xA7B3, 0xA7B3, 0xAB53); (0xA7C4, 0xA7C4, 0xA794);
     (0xA7C5, 0xA7C5, 0x282); (0xA7C6, 0xA7C6, 0x1D8E);
     (0xA7D0, 0xA7D0, 0xA7D1); (0xA7F5, 0xA7F5, 0xA7F6);
     (0xFF21, 0xFF3A, 0xFF41); (0x10400, 0x10427, 0x10428);
     (0x104B0, 0x104D3, 0x104D8); (0x10570, 0x1057A, 0x10597);
     (0x1057C, 0x1058A, 0x105A3); (0x1058C, 0x10592, 0x105B3);
     (0x10594, 0x10595, 0x105BB); (0x10C80, 0x10CB2, 0x10CC0);
     (0x118A0, 0x118BF, 0x118C0); (0x16E40, 0x16E5F, 0x16E60);
     (0x1E900, 0x1E921, 0x1E922)]%N.

(** [lower_pairs]: in the run from [first] to [last] capital and small
    letters alternate, so every second code point, counted from [first],
    has the next code point as its lower case. *)
Definition lower_pairs : list (N * N) :=
  [
     (0x100, 0x12E); (0x132, 0x136); (0x139, 0x147); (0x14A, 0x176);
     (0x179, 0x17D); (0x182, 0x184); (0x1A0, 0x1A4); (0x1B3, 0x1B5);
     (0x1CB, 0x1DB); (0x1DE, 0x1EE); (0x1F2, 0x1F4); (0x1F8, 0x21E);
     (0x222, 0x232); (0x246, 0x24E); (0x370, 0x372); (0x3D8, 0x3EE);
     (0x460, 0x480); (0x48A, 0x4BE); (0x4C1, 0x4CD); (0x4D0, 0x52E);
     (0x1E00, 0x1E94); (0x1EA0, 0x1EFE); (0x2C67, 0x2C6B); (0x2C80, 0x2CE2);
     (0x2CEB, 0x2CED); (0xA640, 0xA66C); (0xA680, 0xA69A); (0xA722, 0xA72E);
     (0xA732, 0xA76E); (0xA779, 0xA77B); (0xA77E, 0xA786); (0xA790, 0xA792);
     (0xA796, 0xA7A8); (0xA7B4, 0xA7C2); (0xA7C7, 0xA7C9); (0xA7D6, 0xA7D8)]%N.

(** The cased code points: the letters in lower case, upper case or title
    case. *)
Definition cased_runs : list (N * N) :=
  [
     (0xAA, 0xAA); (0xB5, 0xB5); (0xBA, 0xBA); (0xC0, 0xD6);
     (0xD8, 0xF6); (0xF8, 0x1BA); (0x1BC, 0x1BF); (0x1C4, 0x293);
     (0x295, 0x2B8); (0x2C0, 0x2C1); (0x2E0, 0x2E4); (0x345, 0x345);
     (0x370, 0x373); (0x376, 0x377); (0x37A, 0x37D); (0x37F, 0x37F);
     (0x386, 0x386); (0x388, 0x38A); (0x38C, 0x38C); (0x38E, 0x3A1);
     (0x3A3, 0x3F5); (0x3F7, 0x481); (0x48A, 0x52F); (0x531, 0x556);
     (0x560, 0x588); (0x10A0, 0x10C5); (0x10C7, 0x10C7); (0x10CD, 0x10CD);
     (0x10D0, 0x10FA); (0x10FD, 0x10FF); (0x13A0, 0x13F5); (0x13F8, 0x13FD);
     (0x1C80, 0x1C88); (0x1C90, 0x1CBA); (0x1CBD, 0x1CBF); (0x1D00, 0x1DBF);
     (0x1E00, 0x1F15); (0x1F18, 0x1F1D); (0x1F20, 0x1F45); (0x1F48, 0x1F4D);
     (0x1F50, 0x1F57); (0x1F59, 0x1F59); (0x1F5B, 0x1F5B); (0x1F5D, 0x1F5D);
     (0x1F5F, 0x1F7D); (0x1F80, 0x1FB4); (0x1FB6, 0x1FBC); (0x1FBE, 0x1FBE);
     (0x1FC2, 0x1FC4); (0x1FC6, 0x1FCC); (0x1FD0, 0x1FD3); (0x1FD6, 0x1FDB);
     (0x1FE0, 0x1FEC); (0x1FF2, 0x1FF4); (0x1FF6, 0x1FFC); (0x2071, 0x2071);
     (0x207F, 0x207F); (0x2090, 0x209C); (0x2102, 0x2102); (0x2107, 0x2107);
     (0x210A, 0x2113); (0x2115, 0x2115); (0x2119, 0x211D); (0x2124, 0x2124);
     (0x2126, 0x2126); (0x2128, 0x2128); (0x212A, 0x212D); (0x212F, 0x2134);
     (0x2139, 0x2139); (0x213C, 0x213F); (0x2145, 0x2149); (0x214E, 0x214E);
     (0x2160, 0x217F); (0x2183, 0x2184); (0x24B6, 0x24E9); (0x2C00, 0x2CE4);
     (0x2CEB, 0x2CEE); (0x2CF2, 0x2CF3); (0x2D00, 0x2D25); (0x2D27, 0x2D27);
     (0x2D2D, 0x2D2D); (0xA640, 0xA66D); (0xA680, 0xA69D); (0xA722, 0xA787);
     (0xA78B, 0xA78E); (0xA790, 0xA7CA); (0xA7D0, 0xA7D1); (0xA7D3, 0xA7D3);
     (0xA7D5, 0xA7D9); (0xA7F5, 0xA7F6); (0xA7F8, 0xA7FA); (0xAB30, 0xAB5A);
     (0xAB5C, 0xAB68); (0xAB70, 0xABBF); (0xFB00, 0xFB06); (0xFB13, 0xFB17);
     (0xFF21, 0xFF3A); (0xFF41, 0xFF5A); (0x10400, 0x1044F); (0x104B0, 0x104D3);
     (0x104D8, 0x104FB); (0x10570, 0x1057A); (0x1057C, 0x1058A); (0x1058C, 0x10592);
     (0x10594, 0x10595); (0x10597, 0x105A1); (0x105A3, 0x105B1); (0x105B3, 0x105B9);
     (0x105BB, 0x105BC); (0x10780, 0x10780); (0x10783, 0x10785); (0x10787, 0x107B0);
     (0x107B2, 0x107BA); (0x10C80, 0x10CB2); (0x10CC0, 0x10CF2); (0x118A0, 0x118DF);
     (0x16E40, 0x16E7F); (0x1D400, 0x1D454); (0x1D456, 0x1D49C); (0x1D49E, 0x1D49F);
     (0x1D4A2, 0x1D4A2); (0x1D4A5, 0x1D4A6); (0x1D4A9, 0x1D4AC); (0x1D4AE, 0x1D4B9);
     (0x1D4BB, 0x1D4BB); (0x1D4BD, 0x1D4C3); (0x1D4C5, 0x1D505); (0x1D507, 0x1D50A);
     (0x1D50D, 0x1D514); (0x1D516, 0x1D51C); (0x1D51E, 0x1D539); (0x1D53B, 0x1D53E);
     (0x1D540, 0x1D544); (0x1D546, 0x1D546); (0x1D54A, 0x1D550); (0x1D552, 0x1D6A5);
     (0x1D6A8, 0x1D6C0); (0x1D6C2, 0x1D6DA); (0x1D6DC, 0x1D6FA); (0x1D6FC, 0x1D714);
     (0x1D716, 0x1D734); (0x1D736, 0x1D74E); (0x1D750, 0x1D76E); (0x1D770, 0x1D788);
     (0x1D78A, 0x1D7A8); (0x1D7AA, 0x1D7C2); (0x1D7C4, 0x1D7CB); (0x1DF00, 0x1DF09);
     (0x1DF0B, 0x1DF1E); (0x1E900, 0x1E943); (0x1F130, 0x1F149); (0x1F150, 0x1F169);
     (0x1F170, 0x1F189)]%N.

(** The case-ignorable code points: marks, format controls, modifier
    letters and symbols, and the punctuation that may stand inside a
    word. *)
Definition case_ignorable_runs : list (N * N) :=
  [
     (0xA8, 0xA8); (0xAD, 0xAD); (0xAF, 0xAF); (0xB4, 0xB4);
     (0xB7, 0xB8); (0x2B0, 0x36F); (0x374, 0x375); (0x37A, 0x37A);
     (0x384, 0x385); (0x387, 0x387); (0x483, 0x489); (0x559, 0x559);
     (0x55F, 0x55F); (0x591, 0x5BD); (0x5BF, 0x5BF); (0x5C1, 0x5C2);
     (0x5C4, 0x5C5); (0x5C7, 0x5C7); (0x5F4, 0x5F4); (0x600, 0x605);
     (0x610, 0x61A); (0x61C, 0x61C); (0x640, 0x640); (0x64B, 0x65F);
     (0x670, 0x670); (0x6D6, 0x6DD); (0x6DF, 0x6E8); (0x6EA, 0x6ED);
     (0x70F, 0x70F); (0x711, 0x711); (0x730, 0x74A); (0x7A6, 0x7B0);
     (0x7EB, 0x7F5); (0x7FA, 0x7FA); (0x7FD, 0x7FD); (0x816, 0x82D);
     (0x859, 0x85B); (0x888, 0x888); (0x890, 0x891); (0x898, 0x89F);
     (0x8C9, 0x902); (0x93A, 0x93A); (0x93C, 0x93C); (0x941, 0x948);
     (0x94D, 0x94D); (0x951, 0x957); (0x962, 0x963); (0x971, 0x971);
     (0x981, 0x981); (0x9BC, 0x9BC); (0x9C1, 0x9C4); (0x9CD, 0x9CD);
     (0x9E2, 0x9E3); (0x9FE, 0x9FE); (0xA01, 0xA02); (0xA3C, 0xA3C);
     (0xA41, 0xA42); (0xA47, 0xA48); (0xA4B, 0xA4D); (0xA51, 0xA51);
     (0xA70, 0xA71); (0xA75, 0xA75); (0xA81, 0xA82); (0xABC, 0xABC);
     (0xAC1, 0xAC5); (0xAC7, 0xAC8); (0xACD, 0xACD); (0xAE2, 0xAE3);
     (0xAFA, 0xAFF); (0xB01, 0xB01); (0xB3C, 0xB3C); (0xB3F, 0xB3F);
     (0xB41, 0xB44); (0xB4D, 0xB4D); (0xB55, 0xB56); (0xB62, 0xB63);
     (0xB82, 0xB82); (0xBC0, 0xBC0); (0xBCD, 0xBCD); (0xC00, 0xC00);
     (0xC04, 0xC04); (0xC3C, 0xC3C); (0xC3E, 0xC40); (0xC46, 0xC48);
     (0xC4A, 0xC4D); (0xC55, 0xC56); (0xC62, 0xC63); (0xC81, 0xC81);
     (0xCBC, 0xCBC); (0xCBF, 0xCBF); (0xCC6, 0xCC6); (0xCCC, 0xCCD);
     (0xCE2, 0xCE3); (0xD00, 0xD01); (0xD3B, 0xD3C); (0xD41, 0xD44);
     (0xD4D, 0xD4D); (0xD62, 0xD63); (0xD81, 0xD81); (0xDCA, 0xDCA);
     (0xDD2, 0xDD4); (0xDD6, 0xDD6); (0xE31, 0xE31); (0xE34, 0xE3A);
     (0xE46, 0xE4E); (0xEB1, 0xEB1); (0xEB4, 0xEBC); (0xEC6, 0xEC6);
     (0xEC8, 0xECD); (0xF18, 0xF19); (0xF35, 0xF35); (0xF37, 0xF37);
     (0xF39, 0xF39); (0xF71, 0xF7E); (0xF80, 0xF84); (0xF86, 0xF87);
     (0xF8D, 0xF97); (0xF99, 0xFBC); (0xFC6, 0xFC6); (0x102D, 0x1030);
     (0x1032, 0x1037); (0x1039, 0x103A); (0x103D, 0x103E); (0x1058, 0x1059);
     (0x105E, 0x1060); (0x1071, 0x1074); (0x1082, 0x1082); (0x1085, 0x1086);
     (0x108D, 0x108D); (0x109D, 0x109D); (0x10FC, 0x10FC); (0x135D, 0x135F);
     (0x1712, 0x1714); (0x1732, 0x1733); (0x1752, 0x1753); (0x1772, 0x1773);
     (0x17B4, 0x17B5); (0x17B7, 0x17BD); (0x17C6, 0x17C6); (0x17C9, 0x17D3);
     (0x17D7, 0x17D7); (0x17DD, 0x17DD); (0x180B, 0x180F); (0x1843, 0x1843);
     (0x1885, 0x1886); (0x18A9, 0x18A9); (0x1920, 0x1922); (0x1927, 0x1928);
     (0x1932, 0x1932); (0x1939, 0x193B); (0x1A17, 0x1A18); (0x1A1B, 0x1A1B);
     (0x1A56, 0x1A56); (0x1A58, 0x1A5E); (0x1A60, 0x1A60); (0x1A62, 0x1A62);
     (0x1A65, 0x1A6C); (0x1A73, 0x1A7C); (0x1A7F, 0x1A7F); (0x1AA7, 0x1AA7);
     (0x1AB0, 0x1ACE); (0x1B00, 0x1B03); (0x1B34, 0x1B34); (0x1B36, 0x1B3A);
     (0x1B3C, 0x1B3C); (0x1B42, 0x1B42); (0x1B6B, 0x1B73); (0x1B80, 0x1B81);
     (0x1BA2, 0x1BA5); (0x1BA8, 0x1BA9); (0x1BAB, 0x1BAD); (0x1BE6, 0x1BE6);
     (0x1BE8, 0x1BE9); (0x1BED, 0x1BED); (0x1BEF, 0x1BF1); (0x1C2C, 0x1C33);
     (0x1C36, 0x1C37); (0x1C78, 0x1C7D); (0x1CD0, 0x1CD2); (0x1CD4, 0x1CE0);
     (0x1CE2, 0x1CE8); (0x1CED, 0x1CED); (0x1CF4, 0x1CF4); (0x1CF8, 0x1CF9);
     (0x1D2C, 0x1D6A); (0x1D78, 0x1D78); (0x1D9B, 0x1DFF); (0x1FBD, 0x1FBD);
     (0x1FBF, 0x1FC1); (0x1FCD, 0x1FCF); (0x1FDD, 0x1FDF); (0x1FED, 0x1FEF);
     (0x1FFD, 0x1FFE); (0x200B, 0x200F); (0x2018, 0x2019); (0x2024, 0x2024);
     (0x2027, 0x2027); (0x202A, 0x202E); (0x2060, 0x2064); (0x2066, 0x206F);
     (0x2071, 0x2071); (0x207F, 0x207F); (0x2090, 0x209C); (0x20D0, 0x20F0);
     (0x2C7C, 0x2C7D); (0x2CEF, 0x2CF1); (0x2D6F, 0x2D6F); (0x2D7F, 0x2D7F);
     (0x2DE0, 0x2DFF); (0x2E2F, 0x2E2F); (0x3005, 0x3005); (0x302A, 0x302D);
     (0x3031, 0x3035); (0x303B, 0x303B); (0x3099, 0x309E); (0x30FC, 0x30FE);
     (0xA015, 0xA015); (0xA4F8, 0xA4FD); (0xA60C, 0xA60C); (0xA66F, 0xA672);
     (0xA674, 0xA67D); (0xA67F, 0xA67F); (0xA69C, 0xA69F); (0xA6F0, 0xA6F1);
     (0xA700, 0xA721); (0xA770, 0xA770); (0xA788, 0xA78A); (0xA7F2, 0xA7F4);
     (0xA7F8, 0xA7F9); (0xA802, 0xA802); (0xA806, 0xA806); (0xA80B, 0xA80B);
     (0xA825, 0xA826); (0xA82C, 0xA82C); (0xA8C4, 0xA8C5); (0xA8E0, 0xA8F1);
     (0xA8FF, 0xA8FF); (0xA926, 0xA92D); (0xA947, 0xA951); (0xA980, 0xA982);
     (0xA9B3, 0xA9B3); (0xA9B6, 0xA9B9); (0xA9BC, 0xA9BD); (0xA9CF, 0xA9CF);
     (0xA9E5, 0xA9E6); (0xAA29, 0xAA2E); (0xAA31, 0xAA32); (0xAA35, 0xAA36);
     (0xAA43, 0xAA43); (0xAA4C, 0xAA4C); (0xAA70, 0xAA70); (0xAA7C, 0xAA7C);
     (0xAAB0, 0xAAB0); (0xAAB2, 0xAAB4); (0xAAB7, 0xAAB8); (0xAABE, 0xAABF);
     (0xAAC1, 0xAAC1); (0xAADD, 0xAADD); (0xAAEC, 0xAAED); (0xAAF3, 0xAAF4);
     (0xAAF6, 0xAAF6); (0xAB5B, 0xAB5F); (0xAB69, 0xAB6B); (0xABE5, 0xABE5);
     (0xABE8, 0xABE8); (0xABED, 0xABED); (0xFB1E, 0xFB1E); (0xFBB2, 0xFBC2);
     (0xFE00, 0xFE0F); (0xFE13, 0xFE13); (0xFE20, 0xFE2F); (0xFE52, 0xFE52);
     (0xFE55, 0xFE55); (0xFEFF, 0xFEFF); (0xFF07, 0xFF07); (0xFF0E, 0xFF0E);
     (0xFF1A, 0xFF1A); (0xFF3E, 0xFF3E); (0xFF40, 0xFF40); (0xFF70, 0xFF70);
     (0xFF9E, 0xFF9F); (0xFFE3, 0xFFE3); (0xFFF9, 0xFFFB); (0x101FD, 0x101FD);
     (0x102E0, 0x102E0); (0x10376, 0x1037A); (0x10780, 0x10785); (0x10787, 0x107B0);
     (0x107B2, 0x107BA); (0x10A01, 0x10A03); (0x10A05, 0x10A06); (0x10A0C, 0x10A0F);
     (0x10A38, 0x10A3A); (0x10A3F, 0x10A3F); (0x10AE5, 0x10AE6); (0x10D24, 0x10D27);
     (0x10EAB, 0x10EAC); (0x10F46, 0x10F50); (0x10F82, 0x10F85); (0x11001, 0x11001);
     (0x11038, 0x11046); (0x11070, 0x11070); (0x11073, 0x11074); (0x1107F, 0x11081);
     (0x110B3, 0x110B6); (0x110B9, 0x110BA); (0x110BD, 0x110BD); (0x110C2, 0x110C2);
     (0x110CD, 0x110CD); (0x11100, 0x11102); (0x11127, 0x1112B); (0x1112D, 0x11134);
     (0x11173, 0x11173); (0x11180, 0x11181); (0x111B6, 0x111BE); (0x111C9, 0x111CC);
     (0x111CF, 0x111CF); (0x1122F, 0x11231); (0x11234, 0x11234); (0x11236, 0x11237);
     (0x1123E, 0x1123E); (0x112DF, 0x112DF); (0x112E3, 0x112EA); (0x11300, 0x11301);
     (0x1133B, 0x1133C); (0x11340, 0x11340); (0x11366, 0x1136C); (0x11370, 0x11374);
     (0x11438, 0x1143F); (0x11442, 0x11444); (0x11446, 0x11446); (0x1145E, 0x1145E);
     (0x114B3, 0x114B8); (0x114BA, 0x114BA); (0x114BF, 0x114C0); (0x114C2, 0x114C3);
     (0x115B2, 0x115B5); (0x115BC, 0x115BD); (0x115BF, 0x115C0); (0x115DC, 0x115DD);
     (0x11633, 0x1163A); (0x1163D, 0x1163D); (0x1163F, 0x11640); (0x116AB, 0x116AB);
     (0x116AD, 0x116AD); (0x116B0, 0x116B5); (0x116B7, 0x116B7); (0x1171D, 0x1171F);
     (0x11722, 0x11725); (0x11727, 0x1172B); (0x1182F, 0x11837); (0x11839, 0x1183A);
     (0x1193B, 0x1193C); (0x1193E, 0x1193E); (0x11943, 0x11943); (0x119D4, 0x119D7);
     (0x119DA, 0x119DB); (0x119E0, 0x119E0); (0x11A01, 0x11A0A); (0x11A33, 0x11A38);
     (0x11A3B, 0x11A3E); (0x11A47, 0x11A47); (0x11A51, 0x11A56); (0x11A59, 0x11A5B);
     (0x11A8A, 0x11A96); (0x11A98, 0x11A99); (0x11C30, 0x11C36); (0x11C38, 0x11C3D);
     (0x11C3F, 0x11C3F); (0x11C92, 0x11CA7); (0x11CAA, 0x11CB0); (0x11CB2, 0x11CB3);
     (0x11CB5, 0x11CB6); (0x11D31, 0x11D36); (0x11D3A, 0x11D3A); (0x11D3C, 0x11D3D);
     (0x11D3F, 0x11D45); (0x11D47, 0x11D47); (0x11D90, 0x11D91); (0x11D95, 0x11D95);
     (0x11D97, 0x11D97); (0x11EF3, 0x11EF4); (0x13430, 0x13438); (0x16AF0, 0x16AF4);
     (0x16B30, 0x16B36); (0x16B40, 0x16B43); (0x16F4F, 0x16F4F); (0x16F8F, 0x16F9F);
     (0x16FE0, 0x16FE1); (0x16FE3, 0x16FE4); (0x1AFF0, 0x1AFF3); (0x1AFF5, 0x1AFFB);
     (0x1AFFD, 0x1AFFE); (0x1BC9D, 0x1BC9E); (0x1BCA0, 0x1BCA3); (0x1CF00, 0x1CF2D);
     (0x1CF30, 0x1CF46); (0x1D167, 0x1D169); (0x1D173, 0x1D182); (0x1D185, 0x1D18B);
     (0x1D1AA, 0x1D1AD); (0x1D242, 0x1D244); (0x1DA00, 0x1DA36); (0x1DA3B, 0x1DA6C);
     (0x1DA75, 0x1DA75); (0x1DA84, 0x1DA84); (0x1DA9B, 0x1DA9F); (0x1DAA1, 0x1DAAF);
     (0x1E000, 0x1E006); (0x1E008, 0x1E018); (0x1E01B, 0x1E021); (0x1E023, 0x1E024);
     (0x1E026, 0x1E02A); (0x1E130, 0x1E13D); (0x1E2AE, 0x1E2AE); (0x1E2EC, 0x1E2EF);
     (0x1E8D0, 0x1E8D6); (0x1E944, 0x1E94B); (0x1F3FB, 0x1F3FF); (0xE0001, 0xE0001);
     (0xE0020, 0xE007F); (0xE0100, 0xE01EF)]%N.

(** The lower case of one code point that is not capital sigma.  U+0130 is
    the one code point whose lower case is two code points long; a code
    point in no table is its own lower case. *)
Definition lower_cp (c : N) : str :=
  if (c <? 0x80)%N
  then (if ((0x41 <=? c) && (c <=? 0x5A))%N then [c + 32]%N else [c])
  else if (c =? 0x130)%N then [0x69; 0x307]%N
  else match find (fun r => covers c (fst r)) lower_runs with
       | Some (first, _, image) => [image + (c - first)]%N
       | None =>
           if existsb (fun r => covers c r && N.even (c - fst r)) lower_pairs
           then [c + 1]%N
           else [c]
       end.

Definition is_cased (c : N) : bool :=
  if (c <? 0x80)%N
  then (((0x41 <=? c) && (c <=? 0x5A)) || ((0x61 <=? c) && (c <=? 0x7A)))%N
  else existsb (covers c) cased_runs.

Definition is_case_ignorable (c : N) : bool :=
  if (c <? 0x80)%N
  then ((c =? 0x27) || (c =? 0x2E) || (c =? 0x3A) || (c =? 0x5E)
        || (c =? 0x60))%N
  else existsb (covers c) case_ignorable_runs.

(** Capital sigma (U+03A3) becomes final small sigma (U+03C2) when a cased
    letter stands before it and none after it, case-ignorable code points
    skipped on both sides; it becomes small sigma (U+03C3) otherwise.
    [no_letter_follows] is the test on what follows. *)
Fixpoint no_letter_follows (s : str) : bool :=
  match s with
  | [] => true
  | c :: s' =>
      if is_case_ignorable c then no_letter_follows s' else negb (is_cased c)
  end.

(** [s.lower()], read from the left: [after_letter] tells whether the
    last code point read that is not case-ignorable is cased. *)
Fixpoint lower_from (after_letter : bool) (s : str) : str :=
  match s with
  | [] => []
  | c :: s' =>
      (if (c =? 0x3A3)%N
       then [if after_letter && no_letter_follows s' then 0x3C2 else 0x3C3]%N
       else lower_cp c)
      ++ lower_from (if is_case_ignorable c then after_letter else is_cased c)
           s'
  end.

(** [s.lower()]. *)
Definition lower (s : str) : str := lower_from false s.

(** The code points [str.strip()] and [str.split()] treat as white space. *)
Definition isspace (c : N) : bool :=
  (((0x09 <=? c) && (c <=? 0x0D)) || ((0x1C <=? c) && (c <=? 0x20))
   || (c =? 0x85) || (c =? 0xA0) || (c =? 0x1680)
   || ((0x2000 <=? c) && (c <=? 0x200A))
   || (c =? 0x2028) || (c =? 0x2029) || (c =? 0x202F) || (c =? 0x205F)
   || (c =? 0x3000))%N.

(** [s.lstrip()]. *)
Fixpoint lstrip (s : str) : str :=
  match s with
  | [] => []
  | c :: s' => if isspace c then lstrip s' else s
  end.

(** [s.strip()]. *)
Definition strip (s : str) : str := rev (lstrip (rev (lstrip s))).

(** [s.split()]: the maximal runs of non-space code points.  [cur] is the run
    being read, in reverse. *)
Fixpoint split_ws_from (s : str) (cur : str) : list str :=
  match s with
  | [] => match cur with [] => [] | _ => [rev cur] end
  | c :: s' =>
      if isspace c
      then match cur with
           | [] => split_ws_from s' []
           | _ => rev cur :: split_ws_from s' []
           end
      else split_ws_from s' (c :: cur)
  end.

Definition split_ws (s : str) : list str := split_ws_from s [].

(** [s.split(" ", 1)[1] if " " in s else ""]: what follows the first space. *)
Fixpoint after_space (s : str) : str :=
  match s with
  | [] => []
  | c :: s' => if (c =? 0x20)%N then s' else after_space s'
  end.

(** [s.split('\n')[0]]: what precedes the first line feed. *)
Fixpoint first_line (s : str) : str :=
  match s with
  | [] => []
  | c :: s' => if (c =? 0x0A)%N then [] else c :: first_line s'
  end.

(** The decimal digits of Unicode 14.0, which [int] reads like the ASCII
    ones: they come in runs that start at a zero and count from 0 to 9
    every ten code points. *)
Definition decimal_runs : list (N * N) :=
  [
     (0x30, 0x39); (0x660, 0x669); (0x6F0, 0x6F9); (0x7C0, 0x7C9);
     (0x966, 0x96F); (0x9E6, 0x9EF); (0xA66, 0xA6F); (0xAE6, 0xAEF);
     (0xB66, 0xB6F); (0xBE6, 0xBEF); (0xC66, 0xC6F); (0xCE6, 0xCEF);
     (0xD66, 0xD6F); (0xDE6, 0xDEF); (0xE50, 0xE59); (0xED0, 0xED9);
     (0xF20, 0xF29); (0x1040, 0x1049); (0x1090, 0x1099); (0x17E0, 0x17E9);
     (0x1810, 0x1819); (0x1946, 0x194F); (0x19D0, 0x19D9); (0x1A80, 0x1A89);
     (0x1A90, 0x1A99); (0x1B50, 0x1B59); (0x1BB0, 0x1BB9); (0x1C40, 0x1C49);
     (0x1C50, 0x1C59); (0xA620, 0xA629); (0xA8D0, 0xA8D9); (0xA900, 0xA909);
     (0xA9D0, 0xA9D9); (0xA9F0, 0xA9F9); (0xAA50, 0xAA59); (0xABF0, 0xABF9);
     (0xFF10, 0xFF19); (0x104A0, 0x104A9); (0x10D30, 0x10D39); (0x11066, 0x1106F);
     (0x110F0, 0x110F9); (0x11136, 0x1113F); (0x111D0, 0x111D9); (0x112F0, 0x112F9);
     (0x11450, 0x11459); (0x114D0, 0x114D9); (0x11650, 0x11659); (0x116C0, 0x116C9);
     (0x11730, 0x11739); (0x118E0, 0x118E9); (0x11950, 0x11959); (0x11C50, 0x11C59);
     (0x11D50, 0x11D59); (0x11DA0, 0x11DA9); (0x16A60, 0x16A69); (0x16AC0, 0x16AC9);
     (0x16B50, 0x16B59); (0x1D7CE, 0x1D7FF); (0x1E140, 0x1E149); (0x1E2F0, 0x1E2F9);
     (0x1E950, 0x1E959); (0x1FBF0, 0x1FBF9)]%N.

Definition decimal (c : N) : option N :=
  match find (covers c) decimal_runs with
  | Some (zero, _) => Some ((c - zero) mod 10)%N
  | None => None
  end.

(** What [int] makes of a string that is not all ASCII before it reads
    it: white space becomes a space and a decimal digit its ASCII digit;
    at any other code point from U+007F on the string ends, in a question
    mark. *)
Fixpoint to_ascii (s : str) : str :=
  match s with
  | [] => []
  | c :: s' =>
      if (c <? 0x7F)%N then c :: to_ascii s'
      else if isspace c then 0x20%N :: to_ascii s'
      else match decimal c with
           | Some d => (0x30 + d)%N :: to_ascii s'
           | None => [0x3F%N]
           end
  end.

(** The white space [int] skips at both ends of what it reads: that of
    the C locale, which unlike [isspace] leaves out U+001C to U+001F. *)
Definition is_c_space (c : N) : bool :=
  (((0x09 <=? c) && (c <=? 0x0D)) || (c =? 0x20))%N.

Fixpoint skip_c_space (s : str) : str :=
  match s with
  | [] => []
  | c :: s' => if is_c_space c then skip_c_space s' else s
  end.

Definition is_ascii_digit (c : N) : bool := ((0x30 <=? c) && (c <=? 0x39))%N.

(** The digits of [int(s)]: ASCII decimal digits, with single underscores
    allowed between two digits.  [acc] is the value read so far and
    [after_digit] tells whether the previous code point was a digit. *)
Fixpoint digits (s : str) (acc : Z) (after_digit : bool) : option Z :=
  match s with
  | [] => if after_digit then Some acc else None
  | c :: s' =>
      if ((0x30 <=? c) && (c <=? 0x39))%N
      then digits s' (10 * acc + Z.of_N (c - 0x30)) true
      else if ((c =? 0x5F)%N && after_digit)
           then match s' with
                | d :: _ =>
                    if ((0x30 <=? d) && (d <=? 0x39))%N then digits s' acc false
                    else None
                | [] => None
                end
           else None
  end.

(** The most digits [int] converts, [sys.get_int_max_str_digits()]: 4300
    unless the interpreter is told otherwise.  A longer numeral raises
    [ValueError]. *)
Definition max_str_digits : N := 4300.

(** [int(s)] in base 10: [None] stands for [ValueError].  White space
    around the numeral is skipped, one sign is accepted, and the digits,
    underscores apart, are counted against [max_str_digits]. *)
Definition int (s : str) : option Z :=
  let read := if forallb (fun c => (c <? 0x80)%N) s then s else to_ascii s in
  match rev (skip_c_space (rev (skip_c_space read))) with
  | [] => None
  | c :: t =>
      let numeral := if ((c =? 0x2D) || (c =? 0x2B))%N then t else c :: t in
      let count := N.of_nat (List.length (filter is_ascii_digit numeral)) in
      if (max_str_digits <? count)%N
      then None
      else if (c =? 0x2D)%N then option_map Z.opp (digits numeral 0 false)
      else digits numeral 0 false
  end.

(** The exceptions the scripts meet.  [IndexError] and [ValueError] are the
    two the dispatch code names; [DeviceError] stands for any other subclass
    of [Exception] raised by a collaborator. *)
Inductive exn := IndexError | ValueError | DeviceError.

(** The outcome of an expression that may raise. *)
Inductive res (A : Type) :=
| Ret (a : A)
| Raise (e : exn).
Arguments Ret {A} a.
Arguments Raise {A} e.

(** [l[k]] with Python's negative indexing. *)
Definition getitem {A} (l : list A) (k : Z) : res A :=
  let n := Z.of_nat (List.length l) in
  let i := if (k <? 0)%Z then (n + k)%Z else k in
  if ((i <? 0) || (n <=? i))%Z then Raise IndexError
  else match nth_error l (Z.to_nat i) with
       | Some a => Ret a
       | None => Raise IndexError
       end.

(** [d[key]] / [key in d] for a dict kept in insertion order. *)
Fixpoint dict_get {V} (d : list (str * V)) (key : str) : option V :=
  match d with
  | [] => None
  | (k, v) :: d' => if eqb key k then Some v else dict_get d' key
  end.

End Py.
Import Py.

(** ** The device backend and the effects of the scripts *)

(** The element dicts of a snapshot.  A key may be missing, and the scripts
    read every key with [e.get(key, default)]. *)
Module UiElement.
Record t := {
  index : option Z;
  text : option str;
  className : option str;
  resourceId : option str;
  contentDescription : option str;
  x : option Z;
  y : option Z
}.
End UiElement.

(** [field.get(key, default)]. *)
Definition get {A} (field : option A) (default : A) : A :=
  match field with
  | Some v => v
  | None => default
  end.

(** The tuple returned by [tools.get_state()]. *)
Module Snapshot.
Record t := {
  ui_xml : str;
  current_app : str;
  elements : list UiElement.t;
  memory : str
}.
End Snapshot.

(** The calls the scripts make on [AdbTools], with their arguments. *)
Inductive call :=
| get_state
| take_screenshot
| tap (index : Z)
| back
| press_key (keycode : Z)
| input_text (text : str)
| input_text_at (text : str) (index : Z) (clear : bool)
| swipe (x1 y1 x2 y2 duration_ms : Z)
| start_app (package : str).

(** What a run of a script does, in program order: calls on the device,
    lines printed, and the settle delays [asyncio.sleep]. *)
Inductive event (msg : Type) :=
| Call (c : call)
| Print (m : msg)
| Sleep (seconds : Z).
Arguments Call {msg} c.
Arguments Print {msg} m.
Arguments Sleep {msg} seconds.

(** The device as a deterministic collaborator: given the calls made so far,
    [raises] tells whether the next call raises, and [state_at] is the
    snapshot a [get_state] made now would return. *)
Record device := {
  raises : list call -> call -> option exn;
  state_at : list call -> Snapshot.t
}.

Section Effects.

Variable msg : Type.
Variable dev : device.

(** The calls of a log, oldest first. *)
Definition calls_of (log : list (event msg)) : list call :=
  flat_map (fun ev => match ev with Call c => [c] | _ => [] end) log.

(** A computation reads and extends the log and returns or raises. *)
Definition M (A : Type) := list (event msg) -> res A * list (event msg).

Definition ret {A} (a : A) : M A := fun log => (Ret a, log).

Definition raise {A} (e : exn) : M A := fun log => (Raise e, log).

Definition bind {A B} (m : M A) (k : A -> M B) : M B :=
  fun log =>
    match m log with
    | (Ret a, log') => k a log'
    | (Raise e, log') => (Raise e, log')
    end.

(** [print(...)]. *)
Definition print (m : msg) : M unit := fun log => (Ret tt, log ++ [Print m]).

(** [await asyncio.sleep(seconds)]. *)
Definition sleep (seconds : Z) : M unit :=
  fun log => (Ret tt, log ++ [Sleep seconds]).

(** [await tools.<c>(...)]: the call is issued, then it returns or raises. *)
Definition invoke (c : call) : M unit :=
  fun log =>
    match raises dev (calls_of log) c with
    | Some e => (Raise e, log ++ [Call c])
    | None => (Ret tt, log ++ [Call c])
    end.

(** [ui_xml, current_app, elements, memory = await tools.get_state()]. *)
Definition fetch_state : M Snapshot.t :=
  fun log =>
    match raises dev (calls_of log) get_state with
    | Some e => (Raise e, log ++ [Call get_state])
    | None => (Ret (state_at dev (calls_of log)), log ++ [Call get_state])
    end.

(** [try: body / except <caught>: handler]. *)
Definition try_except {A} (body : M A) (caught : exn -> bool)
    (handler : exn -> M A) : M A :=
  fun log =>
    match body log with
    | (Ret a, log') => (Ret a, log')
    | (Raise e, log') => if caught e then handler e log' else (Raise e, log')
    end.

(** [int(reply.split()[1])]: [IndexError] when the reply has no second word,
    [ValueError] when that word is not an integer. *)
Definition int_arg (reply : str) : M Z :=
  match nth_error (split_ws reply) 1 with
  | None => raise IndexError
  | Some word =>
      match int word with
      | None => raise ValueError
      | Some k => ret k
      end
  end.

End Effects.

Arguments ret {msg A} a.
Arguments raise {msg A} e.
Arguments bind {msg A B} m k.
Arguments print {msg} m.
Arguments sleep {msg} seconds.
Arguments int_arg {msg} reply.

Declare Scope py_scope.
Delimit Scope py_scope with py.
Notation "x <- m ;; k" := (bind m (fun x => k))
  (at level 100, m at next level, right associativity) : py_scope.
Notation "m ;; k" := (bind m (fun _ => k))
  (at level 100, right associativity) : py_scope.
Open Scope py_scope.

(** [except (IndexError, ValueError)]. *)
Definition index_or_value_error (e : exn) : bool :=
  match e with
  | IndexError | ValueError => true
  | DeviceError => false
  end.

(** [except Exception]. *)
Definition any_exception (e : exn) : bool := true.

Arguments calls_of {msg} log.
Arguments invoke {msg} dev c.
Arguments fetch_state {msg} dev.
Arguments try_except {msg A} body caught handler.

(** ** chat-phone.py: the interactive loop *)

Module ChatPhone.

(** The name to package mapping, in the order the dict literal lists it. *)
Definition APP_PACKAGES : list (str * str) := Eval vm_compute in [
    (u "tiktok", u "com.ss.android.ugc.trill");
    (u "tik tok", u "com.ss.android.ugc.trill");
    (u "facebook", u "com.facebook.katana");
    (u "fb", u "com.facebook.katana");
    (u "instagram", u "com.instagram.android");
    (u "insta", u "com.instagram.android");
    (u "zalo", u "com.zing.zalo");
    (u "messenger", u "com.facebook.orca");
    (u "whatsapp", u "com.whatsapp");
    (u "telegram", u "org.telegram.messenger");
    (u "twitter", u "com.twitter.android");
    (u "x", u "com.twitter.android");
    (u "threads", u "com.instagram.barcelona");
    (u "snapchat", u "com.snapchat.android");
    (u "youtube", u "com.google.android.youtube");
    (u "yt", u "com.google.android.youtube");
    (u "youtube music", u "com.google.android.apps.youtube.music");
    (u "gmail", u "com.google.android.gm");
    (u "chrome", u "com.android.chrome");
    (u "maps", u "com.google.android.apps.maps");
    (u "google maps", u "com.google.android.apps.maps");
    (u "photos", u "com.google.android.apps.photos");
    (u "google photos", u "com.google.android.apps.photos");
    (u "drive", u "com.google.android.apps.docs");
    (u "google drive", u "com.google.android.apps.docs");
    (u "calendar", u "com.google.android.calendar");
    (u "keep", u "com.google.android.keep");
    (u "settings", u "com.android.settings");
    (u "cài đặt", u "com.android.settings");
    (u "camera", u "com.android.camera");
    (u "máy ảnh", u "com.android.camera");
    (u "phone", u "com.android.dialer");
    (u "điện thoại", u "com.android.dialer");
    (u "messages", u "com.android.messaging");
    (u "tin nhắn", u "com.android.messaging");
    (u "contacts", u "com.android.contacts");
    (u "danh bạ", u "com.android.contacts");
    (u "calculator", u "com.android.calculator2");
    (u "máy tính", u "com.android.calculator2");
    (u "clock", u "com.android.deskclock");
    (u "đồng hồ", u "com.android.deskclock");
    (u "files", u "com.android.documentsui");
    (u "shopee", u "com.shopee.vn");
    (u "lazada", u "com.lazada.android");
    (u "grab", u "com.grabtaxi.passenger");
    (u "gojek", u "com.gojek.app");
    (u "momo", u "com.mservice.momotransfer");
    (u "vnpay", u "com.vnpay.merchant");
    (u "vcb", u "com.VCB");
    (u "vietcombank", u "com.VCB");
    (u "techcombank", u "vn.com.techcombank.bb.app");
    (u "binance", u "com.binance.dev");
    (u "spotify", u "com.spotify.music");
    (u "netflix", u "com.netflix.mediaclient");
    (u "disney", u "com.disney.disneyplus");
    (u "notion", u "notion.id");
    (u "slack", u "com.Slack");
    (u "zoom", u "us.zoom.videomeetings");
    (u "teams", u "com.microsoft.teams")
  ].

(** The module globals the dispatch code reads. *)
Record session := {
  SCREEN_WIDTH : Z;
  SCREEN_HEIGHT : Z;
  INSTALLED_PACKAGES : list str
}.

(** [not INSTALLED_PACKAGES or pkg in INSTALLED_PACKAGES].  The set is kept
    as the list of its members, in the order a [for] loop visits them. *)
Definition installed_or_unknown (installed : list str) (pkg : str) : bool :=
  match installed with
  | [] => true
  | _ => mem pkg installed
  end.

Definition find_app_package (installed : list str) (app_name : str)
    : option str :=
  let app_name_lower := strip (lower app_name) in
  let direct :=
    match dict_get APP_PACKAGES app_name_lower with
    | Some pkg => if installed_or_unknown installed pkg then Some pkg else None
    | None => None
    end in
  match direct with
  | Some pkg => Some pkg
  | None =>
      match find (fun '(name, pkg) =>
                    (str_in app_name_lower name || str_in name app_name_lower)
                    && installed_or_unknown installed pkg) APP_PACKAGES with
      | Some (_, pkg) => Some pkg
      | None => find (fun pkg => str_in app_name_lower (lower pkg)) installed
      end
  end.

(** The lines the loop prints, one constructor per [print] of the source. *)
Inductive message :=
| Bye                                   (* Bye! *)
| VisionOn                              (* Vision: ON *)
| VisionOff                             (* Vision: OFF *)
| NoResponse                            (* (No response - try again or rephrase) *)
| ApiErrorNotice                        (* API Error: {e} *)
| Blank                                 (* print() *)
| Action (reply : str)                  (* Action: {reply} *)
| Conversation (reply : str)            (* {reply} *)
| AlreadyIn (app_name package : str)    (* Already in {app_name} ({package}) *)
| Opened (app_name package : str)       (* Opened {app_name} ({package}) *)
| FailedToOpen (app_name : str) (e : exn) (* Failed to open {app_name}: {e} *)
| OpenedLiteral (app_name : str)        (* Opened {app_name} *)
| AppNotFound (app_name : str)          (* App '{app_name}' not found *)
| Tapped (index : Z)                    (* Tapped element {index} *)
| InvalidTap                            (* Invalid tap command *)
| PressedBack                           (* Pressed back *)
| PressedHome                           (* Pressed home *)
| Typed (text : str)                    (* Typed: {text} *)
| SwipedUp                              (* Swiped up *)
| SwipedDown                            (* Swiped down *)
| SwipedLeft                            (* Swiped left *)
| SwipedRight                           (* Swiped right *)
| UnknownSwipeDirection                 (* Unknown swipe direction *)
| LongPressed (index : Z)               (* Long pressed element {index} *)
| ElementNotFound (index : Z)           (* Element {index} not found *)
| InvalidLongPress                      (* Invalid long_press command *)
| NoSearchKeyword                       (* No search keyword provided *)
| SearchingFor (keyword : str)          (* Searching for: {keyword} *)
| OpenedSearch                          (* Opened search *)
| SearchButtonNotFound                  (* Search button not found *)
| Selected (text : str)                 (* Selected: {se.get('text', '')} *)
| TappedSearchButton                    (* Tapped search button *)
| SearchFailed (e : exn)                (* Search failed: {e} *)
| TappedVideo (video_num idx : Z)       (* Tapped video #{video_num} (index {idx}) *)
| VideoNotFound (video_num video_count : Z)
                                        (* Video #{video_num} not found (only {video_count} videos visible) *)
| InvalidTapVideo                       (* Invalid tap_video command. Use: tap_video <number> *)
| NoTabName                             (* No tab name provided *)
| SelectedTab (text : str)              (* Selected tab: {text} *)
| TabNotFound (tab_name : str)          (* Tab '{tab_name}' not found *)
| OpenedComments                        (* Opened comments *)
| CommentButtonNotFound                 (* Comment button not found *)
| ClosedComments                        (* Closed comments *)
| ClosedCommentsBack.                   (* Closed comments (back) *)

Definition action_keywords : list str := Eval vm_compute in
  [u "open_app"; u "start_app"; u "tap"; u "tap_video"; u "back"; u "home";
   u "input_text"; u "swipe"; u "scroll"; u "long_press"; u "search";
   u "select_tab"; u "open_comments"; u "close_comments"].

(** [any(reply.lower().startswith(kw) for kw in action_keywords)]. *)
Definition is_action (reply : str) : bool :=
  existsb (startswith (lower reply)) action_keywords.

Section Dispatch.

Variable dev : device.
Variable ss : session.

(** The [open_app] / [start_app] branch. *)
Definition do_open_app (current_app reply : str) : M message unit :=
  let app_name := after_space reply in
  match find_app_package (INSTALLED_PACKAGES ss) app_name with
  | Some ((_ :: _) as package) =>
      if str_in package current_app
      then print (AlreadyIn app_name package)
      else try_except
             (invoke dev (start_app package) ;; print (Opened app_name package))
             any_exception
             (fun e => print (FailedToOpen app_name e))
  | _ =>
      try_except
        (invoke dev (start_app app_name) ;; print (OpenedLiteral app_name))
        any_exception
        (fun _ => print (AppNotFound app_name))
  end.

(** The [tap] branch. *)
Definition do_tap (reply : str) : M message unit :=
  try_except
    (index <- int_arg reply ;;
     invoke dev (tap index) ;;
     print (Tapped index))
    index_or_value_error
    (fun _ => print InvalidTap).

(** The [swipe] / [scroll] branch. *)
Definition do_swipe (reply_lower : str) : M message unit :=
  let cx := (SCREEN_WIDTH ss / 2)%Z in
  let cy := (SCREEN_HEIGHT ss / 2)%Z in
  let distance := (SCREEN_HEIGHT ss / 3)%Z in
  if str_in (u "up") reply_lower then
    invoke dev (swipe cx (cy + distance) cx (cy - distance) 300) ;;
    print SwipedUp
  else if str_in (u "down") reply_lower then
    invoke dev (swipe cx (cy - distance) cx (cy + distance) 300) ;;
    print SwipedDown
  else if str_in (u "left") reply_lower then
    invoke dev (swipe (cx + distance) cy (cx - distance) cy 300) ;;
    print SwipedLeft
  else if str_in (u "right") reply_lower then
    invoke dev (swipe (cx - distance) cy (cx + distance) cy 300) ;;
    print SwipedRight
  else print UnknownSwipeDirection.

(** The [long_press] branch. *)
Definition do_long_press (elements : list UiElement.t) (reply : str) : M message unit :=
  try_except
    (index <- int_arg reply ;;
     if (index <? Z.of_nat (List.length elements))%Z then
       match getitem elements index with
       | Raise e => raise e
       | Ret elem =>
           let x := get (UiElement.x elem) (SCREEN_WIDTH ss / 2)%Z in
           let y := get (UiElement.y elem) (SCREEN_HEIGHT ss / 2)%Z in
           invoke dev (swipe x y x y 1500) ;;
           print (LongPressed index)
       end
     else print (ElementNotFound index))
    index_or_value_error
    (fun _ => print InvalidLongPress).

(** Search, step 1: tap the first search button or icon; the result is
    [search_tapped]. *)
Fixpoint search_open (elements : list UiElement.t) : M message bool :=
  match elements with
  | [] => ret false
  | e :: rest =>
      let text := lower (get (UiElement.text e) []) in
      let cls := lower (get (UiElement.className e) []) in
      let idx := get (UiElement.index e) 0%Z in
      if (str_in (u "tìm kiếm") text || str_in (u "search") text)
         && (str_in (u "image") cls || str_in (u "button") cls)
      then invoke dev (tap idx) ;; print OpenedSearch ;; sleep 1 ;; ret true
      else search_open rest
  end.

(** Search, step 4: tap the first suggestion that shows the keyword; the
    result is [suggestion_found]. *)
Fixpoint search_suggestion (keyword : str) (elements : list UiElement.t)
    : M message bool :=
  match elements with
  | [] => ret false
  | se :: rest =>
      let se_text := lower (get (UiElement.text se) []) in
      let se_idx := get (UiElement.index se) 0%Z in
      if str_in (lower keyword) se_text
         && str_in (u "textlayout") (lower (get (UiElement.className se) []))
      then invoke dev (tap se_idx) ;;
           print (Selected (get (UiElement.text se) [])) ;;
           ret true
      else search_suggestion keyword rest
  end.

(** Search, step 4 fallback: tap the first search button. *)
Fixpoint search_submit (elements : list UiElement.t) : M message unit :=
  match elements with
  | [] => ret tt
  | se :: rest =>
      if str_in (u "tìm kiếm") (lower (get (UiElement.text se) []))
         && str_in (u "button") (lower (get (UiElement.className se) []))
      then invoke dev (tap (get (UiElement.index se) 0%Z)) ;;
           print TappedSearchButton
      else search_submit rest
  end.

(** Search, step 3: type the keyword into the first [EditText], then run
    step 4 on a fresh snapshot. *)
Fixpoint search_type (keyword : str) (elements : list UiElement.t) : M message unit :=
  match elements with
  | [] => ret tt
  | e :: rest =>
      let cls := lower (get (UiElement.className e) []) in
      let idx := get (UiElement.index e) 0%Z in
      if str_in (u "edittext") cls then
        invoke dev (input_text_at keyword idx true) ;;
        print (Typed keyword) ;;
        sleep 1 ;;
        state <- fetch_state dev ;;
        suggestion_found <- search_suggestion keyword (Snapshot.elements state) ;;
        if suggestion_found then ret tt else search_submit (Snapshot.elements state)
      else search_type keyword rest
  end.

(** The [search] branch. *)
Definition do_search (elements : list UiElement.t) (reply : str) : M message unit :=
  let keyword := after_space reply in
  match keyword with
  | [] => print NoSearchKeyword
  | _ =>
      print (SearchingFor keyword) ;;
      try_except
        (search_tapped <- search_open elements ;;
         if search_tapped then
           state <- fetch_state dev ;;
           search_type keyword (Snapshot.elements state)
         else print SearchButtonNotFound)
        any_exception
        (fun e => print (SearchFailed e))
  end.

(** The loop of the [tap_video] branch; the result is
    [(tapped, video_count)]. *)
Fixpoint tap_video_scan (video_num video_count : Z)
    (elements : list UiElement.t) : M message (bool * Z) :=
  match elements with
  | [] => ret (false, video_count)
  | e :: rest =>
      let resource_id := get (UiElement.resourceId e) [] in
      let cls := get (UiElement.className e) [] in
      if str_in (u "sq") resource_id && str_in (u "FrameLayout") cls then
        let video_count := (video_count + 1)%Z in
        if (video_count =? video_num)%Z then
          let idx := get (UiElement.index e) 0%Z in
          invoke dev (tap idx) ;;
          print (TappedVideo video_num idx) ;;
          ret (true, video_count)
        else tap_video_scan video_num video_count rest
      else tap_video_scan video_num video_count rest
  end.

(** The [tap_video] branch. *)
Definition do_tap_video (elements : list UiElement.t) (reply : str) : M message unit :=
  try_except
    (video_num <- int_arg reply ;;
     r <- tap_video_scan video_num 0 elements ;;
     let '(tapped, video_count) := r in
     if tapped then ret tt else print (VideoNotFound video_num video_count))
    index_or_value_error
    (fun _ => print InvalidTapVideo).

(** The loop of the [select_tab] branch; the result is [tab_found]. *)
Fixpoint select_tab_scan (tab_name : str) (elements : list UiElement.t)
    : M message bool :=
  match elements with
  | [] => ret false
  | e :: rest =>
      let text := get (UiElement.text e) [] in
      let cls := get (UiElement.className e) [] in
      if eqb (lower text) (lower tab_name)
         && (str_in (u "FrameLayout") cls || str_in (u "TextView") cls)
      then invoke dev (tap (get (UiElement.index e) 0%Z)) ;;
           print (SelectedTab text) ;;
           ret true
      else select_tab_scan tab_name rest
  end.

(** The [select_tab] branch. *)
Definition do_select_tab (elements : list UiElement.t) (reply : str) : M message unit :=
  let tab_name := after_space reply in
  match tab_name with
  | [] => print NoTabName
  | _ =>
      tab_found <- select_tab_scan tab_name elements ;;
      if tab_found then ret tt else print (TabNotFound tab_name)
  end.

(** [e.get('contentDescription', '') or e.get('text', '')]. *)
Definition description (e : UiElement.t) : str :=
  match get (UiElement.contentDescription e) [] with
  | [] => get (UiElement.text e) []
  | desc => desc
  end.

(** Tap the first element whose description satisfies [wanted], print
    [done]; the result tells whether one was found. *)
Fixpoint tap_first (wanted : str -> bool) (done : message)
    (elements : list UiElement.t) : M message bool :=
  match elements with
  | [] => ret false
  | e :: rest =>
      if wanted (description e)
      then invoke dev (tap (get (UiElement.index e) 0%Z)) ;;
           print done ;;
           ret true
      else tap_first wanted done rest
  end.

(** The [open_comments] branch. *)
Definition do_open_comments (elements : list UiElement.t) : M message unit :=
  comment_found <-
    tap_first (fun desc => str_in (u "bình luận") (lower desc)
                           && str_in (u "đọc") (lower desc))
              OpenedComments elements ;;
  comment_found <-
    (if comment_found then ret true
     else tap_first (fun desc => str_in (u "comment") (lower desc)
                                 || str_in (u "bình luận") (lower desc))
                    OpenedComments elements) ;;
  if comment_found then ret tt else print CommentButtonNotFound.

(** The [close_comments] branch. *)
Definition do_close_comments (elements : list UiElement.t) : M message unit :=
  close_found <-
    tap_first (fun desc => str_in (u "đóng") (lower desc)
                           || str_in (u "close") (lower desc))
              ClosedComments elements ;;
  if close_found then ret tt
  else invoke dev back ;; print ClosedCommentsBack.

(** One reply, classified and executed: the body of the loop from the
    [action_keywords] test to the end of the [if is_action] statement. *)
Definition dispatch (state : Snapshot.t) (reply : str) : M message unit :=
  if is_action reply then
    print (Action reply) ;;
    let reply_lower := lower reply in
    if startswith reply_lower (u "open_app")
       || startswith reply_lower (u "start_app")
    then do_open_app (Snapshot.current_app state) reply
    else if startswith reply_lower (u "tap") then do_tap reply
    else if eqb reply_lower (u "back") then
      invoke dev back ;; print PressedBack
    else if eqb reply_lower (u "home") then
      invoke dev (press_key 3) ;; print PressedHome
    else if startswith reply_lower (u "input_text") then
      let text := after_space reply in
      invoke dev (input_text text) ;; print (Typed text)
    else if startswith reply_lower (u "swipe")
            || startswith reply_lower (u "scroll")
    then do_swipe reply_lower
    else if startswith reply_lower (u "long_press")
    then do_long_press (Snapshot.elements state) reply
    else if startswith reply_lower (u "search")
    then do_search (Snapshot.elements state) reply
    else if startswith reply_lower (u "tap_video")
    then do_tap_video (Snapshot.elements state) reply
    else if startswith reply_lower (u "select_tab")
    then do_select_tab (Snapshot.elements state) reply
    else if eqb reply_lower (u "open_comments")
    then do_open_comments (Snapshot.elements state)
    else if eqb reply_lower (u "close_comments")
    then do_close_comments (Snapshot.elements state)
    else ret tt
  else print (Conversation reply).

End Dispatch.

(** What the model returns for one prompt: no text, a text, or a raised
    error of the API call. *)
Inductive answer := NoText | Text (t : str) | ApiError.

(** The [while True] loop of [main], run on the lines the user will type
    (the end of the list is the end of input), each paired with what the
    model answers if that turn reaches it.  A computation that ends in
    [Raise] is an exception leaving [main]: the remaining lines are never
    read. *)
Fixpoint main_loop (dev : device) (ss : session) (vision_mode : bool)
    (inputs : list (str * answer)) : M message unit :=
  match inputs with
  | [] => print Bye
  | (line, response) :: rest =>
      let goal := strip line in
      match goal with
      | [] => main_loop dev ss vision_mode rest
      | _ =>
          if eqb (lower goal) (u "quit") then print Bye
          else if eqb (lower goal) (u "vision on") then
            print VisionOn ;; main_loop dev ss true rest
          else if eqb (lower goal) (u "vision off") then
            print VisionOff ;; main_loop dev ss false rest
          else
            state <- fetch_state dev ;;
            (if vision_mode then invoke dev take_screenshot else ret tt) ;;
            match response with
            | ApiError =>
                print ApiErrorNotice ;; print Blank ;;
                main_loop dev ss vision_mode rest
            | NoText =>
                print NoResponse ;; print Blank ;;
                main_loop dev ss vision_mode rest
            | Text t =>
                let reply := first_line (strip t) in
                dispatch dev ss state reply ;;
                print Blank ;;
                main_loop dev ss vision_mode rest
            end
      end
  end.

End ChatPhone.

(** ** test-command.py: the single-command harness *)

Module TestCommand.

Definition SCREEN_WIDTH : Z := 1080.
Definition SCREEN_HEIGHT : Z := 2400.

Definition APP_PACKAGES : list (str * str) := Eval vm_compute in [
    (u "tiktok", u "com.ss.android.ugc.trill");
    (u "facebook", u "com.facebook.katana");
    (u "zalo", u "com.zing.zalo");
    (u "settings", u "com.android.settings");
    (u "youtube", u "com.google.android.youtube")
  ].

Definition find_app_package (app_name : str) : option str :=
  let app_name_lower := strip (lower app_name) in
  match dict_get APP_PACKAGES app_name_lower with
  | Some pkg => Some pkg
  | None =>
      match find (fun '(name, pkg) =>
                    str_in app_name_lower name || str_in name app_name_lower)
                 APP_PACKAGES with
      | Some (_, pkg) => Some pkg
      | None => None
      end
  end.

(** The lines the harness prints, one constructor per [print]. *)
Inductive message :=
| CurrentApp (current_app : str)        (* Current app: {current_app} *)
| ElementCount (n : nat)                (* Elements: {len(elements)} *)
| Sending                               (* Sending to Gemini... *)
| EmptyResponse                         (* Empty response from Gemini *)
| GeminiReply (reply : str)             (* Gemini reply: {reply} *)
| Opening (app_name package : str)      (* Opening {app_name} ({package})... *)
| DoneResult                            (* Done: {result} *)
| AppNotFound (app_name : str)          (* App not found: {app_name} *)
| Tapping (index : Z)                   (* Tapping element {index}... *)
| Done                                  (* Done *)
| PressedBack                           (* Pressed back *)
| PressedHome                           (* Pressed home *)
| SwipedUp                              (* Swiped up *)
| SwipedDown                            (* Swiped down *)
| NoKeyword                             (* No keyword provided *)
| Response (reply : str)                (* Response: {reply} *)
| SearchingFor (keyword : str)          (* Searching for: {keyword} *)
| OpenedSearch                          (* Opened search *)
| SearchButtonNotFound                  (* Search button not found *)
| Typed (keyword : str)                 (* Typed: {keyword} *)
| Selected (text : str)                 (* Selected: {se.get('text', '')} *)
| TappedSearchButton.                   (* Tapped search button *)

Section Harness.

Variable dev : device.

(** [do_search], step 1: the result is [search_tapped]. *)
Fixpoint search_open (elements : list UiElement.t) : M message bool :=
  match elements with
  | [] => ret false
  | e :: rest =>
      let text := lower (get (UiElement.text e) []) in
      let cls := lower (get (UiElement.className e) []) in
      let idx := get (UiElement.index e) 0%Z in
      if (str_in (u "tìm kiếm") text || str_in (u "search") text)
         && (str_in (u "image") cls || str_in (u "button") cls)
      then invoke dev (tap idx) ;; print OpenedSearch ;; sleep 1 ;; ret true
      else search_open rest
  end.

(** [do_search], step 4: the result tells whether the function returned
    from inside the loop. *)
Fixpoint search_suggestion (keyword : str) (elements : list UiElement.t)
    : M message bool :=
  match elements with
  | [] => ret false
  | se :: rest =>
      let se_text := lower (get (UiElement.text se) []) in
      let se_idx := get (UiElement.index se) 0%Z in
      if str_in (lower keyword) se_text
         && str_in (u "textlayout") (lower (get (UiElement.className se) []))
      then invoke dev (tap se_idx) ;;
           print (Selected (get (UiElement.text se) [])) ;;
           ret true
      else search_suggestion keyword rest
  end.

(** [do_search], the fallback loop of step 4. *)
Fixpoint search_submit (elements : list UiElement.t) : M message unit :=
  match elements with
  | [] => ret tt
  | se :: rest =>
      if str_in (u "tìm kiếm") (lower (get (UiElement.text se) []))
         && str_in (u "button") (lower (get (UiElement.className se) []))
      then invoke dev (tap (get (UiElement.index se) 0%Z)) ;;
           print TappedSearchButton
      else search_submit rest
  end.

(** [do_search], step 3. *)
Fixpoint search_type (keyword : str) (elements : list UiElement.t)
    : M message unit :=
  match elements with
  | [] => ret tt
  | e :: rest =>
      let cls := lower (get (UiElement.className e) []) in
      let idx := get (UiElement.index e) 0%Z in
      if str_in (u "edittext") cls then
        invoke dev (input_text_at keyword idx true) ;;
        print (Typed keyword) ;;
        sleep 1 ;;
        state <- fetch_state dev ;;
        returned <- search_suggestion keyword (Snapshot.elements state) ;;
        if returned then ret tt else search_submit (Snapshot.elements state)
      else search_type keyword rest
  end.

Definition do_search (keyword : str) (elements : list UiElement.t)
    : M message unit :=
  print (SearchingFor keyword) ;;
  search_tapped <- search_open elements ;;
  if search_tapped then
    state <- fetch_state dev ;;
    search_type keyword (Snapshot.elements state)
  else print SearchButtonNotFound.

(** The reply executed: [main] from [reply_lower = reply.lower()] on. *)
Definition dispatch (state : Snapshot.t) (reply : str) : M message unit :=
  let reply_lower := lower reply in
  if startswith reply_lower (u "open_app") then
    let app_name := after_space reply in
    match find_app_package app_name with
    | Some ((_ :: _) as package) =>
        print (Opening app_name package) ;;
        invoke dev (start_app package) ;;
        print DoneResult
    | _ => print (AppNotFound app_name)
    end
  else if startswith reply_lower (u "tap") then
    index <- int_arg reply ;;
    print (Tapping index) ;;
    invoke dev (tap index) ;;
    print Done
  else if eqb reply_lower (u "back") then
    invoke dev back ;; print PressedBack
  else if eqb reply_lower (u "home") then
    invoke dev (press_key 3) ;; print PressedHome
  else if str_in (u "swipe") reply_lower then
    let cx := (SCREEN_WIDTH / 2)%Z in
    let cy := (SCREEN_HEIGHT / 2)%Z in
    let dist := (SCREEN_HEIGHT / 3)%Z in
    if str_in (u "up") reply_lower then
      invoke dev (swipe cx (cy + dist) cx (cy - dist) 300) ;; print SwipedUp
    else if str_in (u "down") reply_lower then
      invoke dev (swipe cx (cy - dist) cx (cy + dist) 300) ;; print SwipedDown
    else ret tt
  else if startswith reply_lower (u "search") then
    let keyword := after_space reply in
    match keyword with
    | [] => print NoKeyword
    | _ => do_search keyword (Snapshot.elements state)
    end
  else print (Response reply).

(** [main] from the first [get_state] on, given what the model answers.
    The model call is not guarded: an API error leaves [main]. *)
Definition main (response : ChatPhone.answer) : M message unit :=
  state <- fetch_state dev ;;
  print (CurrentApp (Snapshot.current_app state)) ;;
  print (ElementCount (List.length (Snapshot.elements state))) ;;
  print Sending ;;
  match response with
  | ChatPhone.ApiError => raise DeviceError
  | ChatPhone.NoText => print EmptyResponse
  | ChatPhone.Text t =>
      let reply := first_line (strip t) in
      print (GeminiReply reply) ;;
      dispatch state reply
  end.

End Harness.

End TestCommand.

(** ** Scripted collaborators *)

(** A device that never raises and answers the n-th [get_state] with the
    n-th snapshot of [screens] (the last one again once they run out). *)
Definition empty_screen : Snapshot.t :=
  {| Snapshot.ui_xml := []; Snapshot.current_app := [];
     Snapshot.elements := []; Snapshot.memory := [] |}.

Definition is_get_state (c : call) : bool :=
  match c with
  | get_state => true
  | _ => false
  end.

Definition scripted (screens : list Snapshot.t) : device :=
  {| raises := fun _ _ => None;
     state_at := fun history =>
       nth (List.length (filter is_get_state history)) screens
           (last screens empty_screen) |}.

(** The same device, except that every call satisfying [broken] raises. *)
Definition faulty (broken : call -> bool) (screens : list Snapshot.t) : device :=
  {| raises := fun _ c => if broken c then Some DeviceError else None;
     state_at := state_at (scripted screens) |}.

(** A device never raises. *)
Definition reliable (dev : device) : Prop :=
  forall history c, raises dev history c = None.

(** An element carrying the keys given. *)
Definition element (index : Z) (text className : string) : UiElement.t :=
  {| UiElement.index := Some index;
     UiElement.text := Some (u text);
     UiElement.className := Some (u className);
     UiElement.resourceId := None;
     UiElement.contentDescription := None;
     UiElement.x := None;
     UiElement.y := None |}.

Definition screen (current_app : string) (elements : list UiElement.t)
    : Snapshot.t :=
  {| Snapshot.ui_xml := []; Snapshot.current_app := u current_app;
     Snapshot.elements := elements; Snapshot.memory := [] |}.

Definition default_session (installed : list str) : ChatPhone.session :=
  {| ChatPhone.SCREEN_WIDTH := 1080;
     ChatPhone.SCREEN_HEIGHT := 2400;
     ChatPhone.INSTALLED_PACKAGES := installed |}.

(** An element that also carries its coordinates. *)
Definition element_at (index : Z) (text className : string) (x y : Z)
    : UiElement.t :=
  {| UiElement.index := Some index;
     UiElement.text := Some (u text);
     UiElement.className := Some (u className);
     UiElement.resourceId := None;
     UiElement.contentDescription := None;
     UiElement.x := Some x;
     UiElement.y := Some y |}.

(** A video thumbnail of a results grid. *)
Definition thumbnail (index : Z) : UiElement.t :=
  {| UiElement.index := Some index;
     UiElement.text := None;
     UiElement.className := Some (u "android.widget.FrameLayout");
     UiElement.resourceId := Some (u "com.ss.android.ugc.trill:id/sq1");
     UiElement.contentDescription := None;
     UiElement.x := None;
     UiElement.y := None |}.

(** A device on which only [back] raises. *)
Definition back_is_broken (c : call) : bool :=
  match c with
  | back => true
  | _ => false
  end.

(** A device on which every call but [get_state] raises. *)
Definition only_get_state_works (c : call) : bool := negb (is_get_state c).

(** The three screens of a scripted search: a feed with a search icon, the
    search page with its edit field, and the suggestions under the field,
    with or without one that shows the keyword. *)
Definition feed_screen : Snapshot.t :=
  screen "com.ss.android.ugc.trill"
         [element 3 "For You" "android.widget.TextView";
          element 7 "Search" "android.widget.ImageView"].

Definition field_screen : Snapshot.t :=
  screen "com.ss.android.ugc.trill"
         [element 2 "Back" "android.widget.ImageView";
          element 9 "" "android.widget.EditText"].


Definition no_suggestion_screen : Snapshot.t :=
  screen "com.ss.android.ugc.trill"
         [element 9 "cats" "android.widget.EditText";
          element 5 "Tìm kiếm" "android.widget.Button"].

(** The suggestions page of a phone set to English, like [feed_screen]:
    nothing shows the keyword, and the button next to the field reads
    Search. *)
Definition english_results_screen : Snapshot.t :=
  screen "com.ss.android.ugc.trill"
         [element 9 "cats" "android.widget.EditText";
          element 5 "Search" "android.widget.Button"].

(** A results grid: a back arrow carrying index 1 and two thumbnails. *)
Definition grid_screen : Snapshot.t :=
  screen "com.ss.android.ugc.trill"
         [element 1 "Back" "android.widget.ImageView";
          thumbnail 11;
          thumbnail 12].

(** Two elements whose [index] fields differ from their positions. *)
Definition two_buttons : Snapshot.t :=
  screen "com.android.settings"
         [element_at 5 "Wi-Fi" "android.widget.TextView" 100 200;
          element_at 9 "Bluetooth" "android.widget.TextView" 300 400].

(** ** The search flow, round by round *)



(** Text contains the keyword and the class is a text layout. *)
Definition is_suggestion (keyword : str) (e : UiElement.t) : bool :=
  str_in (lower keyword) (lower (get (UiElement.text e) []))
  && str_in (u "textlayout") (lower (get (UiElement.className e) [])).


(** A search button as the specification words it: a button that carries
    a search label, in either of the two languages of the first round. *)
Definition is_search_button (e : UiElement.t) : bool :=
  let text := lower (get (UiElement.text e) []) in
  (str_in (u "tìm kiếm") text || str_in (u "search") text)
  && str_in (u "button") (lower (get (UiElement.className e) [])).







(** ** The other finders of the executor *)

(** The thumbnail heuristic of the [tap_video] branch. *)
Definition is_thumbnail (e : UiElement.t) : bool :=
  str_in (u "sq") (get (UiElement.resourceId e) [])
  && str_in (u "FrameLayout") (get (UiElement.className e) []).

(** The test of the [select_tab] branch: the text is the tab name, up to
    case, and the class is a frame or a label. *)
Definition is_tab (tab_name : str) (e : UiElement.t) : bool :=
  eqb (lower (get (UiElement.text e) [])) (lower tab_name)
  && (str_in (u "FrameLayout") (get (UiElement.className e) [])
      || str_in (u "TextView") (get (UiElement.className e) [])).

(** The three tests of the comment branches, on an element's description. *)
Definition reads_comments (e : UiElement.t) : bool :=
  str_in (u "bình luận") (lower (ChatPhone.description e))
  && str_in (u "đọc") (lower (ChatPhone.description e)).

Definition mentions_comments (e : UiElement.t) : bool :=
  str_in (u "comment") (lower (ChatPhone.description e))
  || str_in (u "bình luận") (lower (ChatPhone.description e)).

Definition closes_comments (e : UiElement.t) : bool :=
  str_in (u "đóng") (lower (ChatPhone.description e))
  || str_in (u "close") (lower (ChatPhone.description e)).

(** An element described by its [contentDescription] only. *)
Definition described (index : Z) (contentDescription className : string)
    : UiElement.t :=
  {| UiElement.index := Some index;
     UiElement.text := None;
     UiElement.className := Some (u className);
     UiElement.resourceId := None;
     UiElement.contentDescription := Some (u contentDescription);
     UiElement.x := None;
     UiElement.y := None |}.

(** A video page: a comment counter, then the button that reads the
    comments, and a close control. *)
Definition video_screen : Snapshot.t :=
  screen "com.ss.android.ugc.trill"
         [described 21 "128 comments" "android.widget.TextView";
          described 22 "Đọc hoặc thêm bình luận" "android.widget.Button";
          described 23 "Đóng" "android.widget.ImageView"].


(** The same tabs and a suggestions page on a phone set to Russian. *)
Definition russian_tabs_screen : Snapshot.t :=
  screen "com.ss.android.ugc.trill"
         [element 40 "Топ" "android.widget.TextView";
          element 41 "Видео" "android.widget.TextView"].

Definition russian_suggestion_screen : Snapshot.t :=
  screen "com.ss.android.ugc.trill"
         [element 9 "КОТ" "android.widget.EditText";
          element 5 "Tìm kiếm" "android.widget.Button";
          element 4 "кот видео" "com.lynx.tasm.behavior.ui.text.FlattenUIText$TextLayoutView"].

(** A device on which every call raises the given exception. *)
Definition raising (e : exn) : device :=
  {| raises := fun _ _ => Some e;
     state_at := fun _ => empty_screen |}.

(** A computation returns, whatever the log it starts from. *)
Definition returns {msg A : Type} (m : M msg A) : Prop :=
  forall log, exists a log', m log = (Ret a, log').

(** ** Start-up: screen size and installed packages *)

(** [s.split(sep)] for a non-empty separator: the pieces between the
    occurrences of [sep], found from left to right without overlap.  [cur]
    is the piece being read, in reverse, and [skip] counts the code points
    of a separator just found that are still to be passed over. *)
Fixpoint split_from (sep s cur : str) (skip : nat) : list str :=
  match s with
  | [] => [rev cur]
  | c :: s' =>
      match skip with
      | S k => split_from sep s' cur k
      | O =>
          if startswith s sep
          then rev cur :: split_from sep s' [] (List.length sep - 1)
          else split_from sep s' (c :: cur) 0
      end
  end.

Definition split (sep s : str) : list str := split_from sep s [] 0.

(** The size both scripts read off the output of [wm size]:
    [None] when the output has no [Physical size:] marker; otherwise
    [width, height = map(int, size_str.split("x"))] on what follows the
    last marker, which raises [ValueError] unless there are exactly two
    pieces and both are integers. *)
Definition parse_size (size_output : str) : option (res (Z * Z)) :=
  if str_in (u "Physical size:") size_output then
    let size_str := strip (last (split (u "Physical size:") size_output) []) in
    Some match map int (split (u "x") size_str) with
         | [Some width; Some height] => Ret (width, height)
         | _ => Raise ValueError
         end
  else None.

(** The lines [main] of chat-phone.py prints while it starts. *)
Inductive startup_message :=
| Connected                             (* Connected to device *)
| ScreenSize (width height : Z)         (* Screen: {SCREEN_WIDTH}x{SCREEN_HEIGHT} *)
| LoadingApps                           (* Loading installed apps... *)
| FoundApps (n : nat).                  (* Found {len(INSTALLED_PACKAGES)} apps *)

(** The globals before [main] runs. *)
Definition initial_session : ChatPhone.session :=
  {| ChatPhone.SCREEN_WIDTH := 1080;
     ChatPhone.SCREEN_HEIGHT := 2400;
     ChatPhone.INSTALLED_PACKAGES := [] |}.

(** The [try] block that queries the screen size, given what
    [tools.device.shell("wm size")] returns or raises: any exception is
    swallowed and leaves the globals as they were. *)
Definition query_screen_size (shell : res str) (ss : ChatPhone.session)
    : ChatPhone.session * list startup_message :=
  match shell with
  | Ret size_output =>
      match parse_size size_output with
      | Some (Ret (width, height)) =>
          ({| ChatPhone.SCREEN_WIDTH := width;
              ChatPhone.SCREEN_HEIGHT := height;
              ChatPhone.INSTALLED_PACKAGES := ChatPhone.INSTALLED_PACKAGES ss |},
           [ScreenSize width height])
      | _ => (ss, [])
      end
  | Raise _ => (ss, [])
  end.

Definition str_eq_dec : forall a b : str, {a = b} + {a <> b} :=
  list_eq_dec N.eq_dec.

(** [load_installed_packages], given what [tools.list_packages] returns
    or raises: the global becomes [set(packages)], here the listing
    without its repetitions, and stays as it was when the call raises. *)
Definition load_installed_packages (listing : res (list str))
    (ss : ChatPhone.session) : ChatPhone.session :=
  match listing with
  | Ret packages =>
      {| ChatPhone.SCREEN_WIDTH := ChatPhone.SCREEN_WIDTH ss;
         ChatPhone.SCREEN_HEIGHT := ChatPhone.SCREEN_HEIGHT ss;
         ChatPhone.INSTALLED_PACKAGES := nodup str_eq_dec packages |}
  | Raise _ => ss
  end.

(** [main] of chat-phone.py from the connection to the first prompt. *)
Definition startup (shell : res str) (listing : res (list str))
    : ChatPhone.session * list startup_message :=
  let '(sized, lines) := query_screen_size shell initial_session in
  let ss := load_installed_packages listing sized in
  (ss, [Connected] ++ lines
       ++ [LoadingApps;
           FoundApps (List.length (ChatPhone.INSTALLED_PACKAGES ss))]).

(** The size test-features.py works with: the same parse, unguarded, and
    1080 x 2400 when the marker is missing. *)
Definition features_screen_size (size_output : str) : res (Z * Z) :=
  match parse_size size_output with
  | Some size => size
  | None => Ret (1080, 2400)%Z
  end.

(** ASCII decimal digits, and strings made of them. *)
Definition is_digit (c : N) : bool := ((0x30 <=? c) && (c <=? 0x39))%N.

Definition all_digits (s : str) : bool := forallb is_digit s.

(** White space only. *)
Definition blank (s : str) : bool := forallb isspace s.

(** [s.rstrip()], the second half of [strip]. *)
Definition rstrip (s : str) : str := rev (lstrip (rev s)).

(** [p] holds of every code point below [n]. *)
Fixpoint all_below (p : N -> bool) (n : nat) : bool :=
  match n with
  | O => true
  | S k => p (N.of_nat k) && all_below p k
  end.

(** The [n] code points from [first] on, and those of a run of the case
    tables. *)
Fixpoint upto (first : N) (n : nat) : list N :=
  match n with
  | O => []
  | S k => first :: upto (first + 1)%N k
  end.

Definition run_points (r : N * N) : list N :=
  upto (fst r) (N.to_nat (snd r - fst r + 1)).

(** A code point that [lower] leaves alone wherever it stands. *)
Definition is_lower_fixed (c : N) : bool :=
  negb (c =? 0x3A3)%N && eqb (lower_cp c) [c].

(** The runs that hold every code point with a lower case of its own. *)
Definition lower_domain : list (N * N) :=
  (0x41, 0x5A)%N :: (0x130, 0x130)%N :: map fst lower_runs ++ lower_pairs.

(** The lower case of a code point is made of code points that [lower]
    leaves alone. *)
Definition lower_tables_closed : bool :=
  forallb
    (fun r => forallb (fun c => forallb is_lower_fixed (lower_cp c))
                (run_points r))
    lower_domain.

(** A code point that is its own lower case and plays no part in the case
    of a sigma next to it: white space is of this kind. *)
Definition is_caseless (c : N) : bool :=
  is_lower_fixed c && negb (is_cased c) && negb (is_case_ignorable c).

(** A line the session sends to the model: not blank, and none of the
    three words the loop answers itself. *)
Definition is_request (line : str) : bool :=
  let goal := strip line in
  negb (eqb goal [])
  && negb (eqb (lower goal) (u "quit"))
  && negb (eqb (lower goal) (u "vision on"))
  && negb (eqb (lower goal) (u "vision off")).

(** An answer of two lines, neither of them a command. *)
Definition two_line_answer : str :=
  u "Hello there." ++ 10%N :: u "How can I help?".

(** ** Bounds on what a computation asks of the device *)

(** At most [n] calls, none of them a screenshot. *)
Definition within (n : nat) (calls : list call) : Prop :=
  (List.length calls <= n)%nat /\ ~ In take_screenshot calls.

(** Whatever the device does, the computation only appends to the log,
    and what it appends holds at most [n] calls, none a screenshot. *)
Definition emits {msg A : Type} (n : nat) (m : M msg A) : Prop :=
  forall log, exists evs,
    snd (m log) = log ++ evs /\ within n (calls_of evs).

(** The same for a scanning loop that tells whether it found its element:
    it makes at most one call, and none at all when it answers no. *)
Definition scans {msg : Type} (m : M msg bool) : Prop :=
  forall log,
    m log = (Ret false, log)
    \/ (fst (m log) <> Ret false
        /\ exists evs, snd (m log) = log ++ evs /\ within 1 (calls_of evs)).

(** ** Strings *)

Section StringFacts.

Lemma eqb_eq (a b : str) : eqb a b = true <-> a = b.
Proof.
  revert b; induction a as [|c a IH]; intros [|d b]; simpl; split;
    try congruence; try reflexivity.
  - intros H; apply andb_true_iff in H as [H1 H2].
    apply N.eqb_eq in H1; apply IH in H2; congruence.
  - intros H; injection H as -> ->.
    rewrite N.eqb_refl; simpl; apply IH; reflexivity.
Qed.

Lemma eqb_refl (a : str) : eqb a a = true.
Proof. apply eqb_eq; reflexivity. Qed.

Lemma mem_In (x : str) (xs : list str) : mem x xs = true <-> In x xs.
Proof.
  unfold mem; rewrite existsb_exists; split.
  - intros (y & Hy & E); apply eqb_eq in E; subst; assumption.
  - intros H; exists x; split; [assumption | apply eqb_refl].
Qed.

Lemma startswith_prefix (s p : str) :
  startswith s p = true <-> exists t, s = p ++ t.
Proof.
  revert s; induction p as [|c p IH]; intros s; simpl.
  - split; [intros _; exists s; reflexivity | intros _; reflexivity].
  - destruct s as [|d s]; split.
    + discriminate.
    + intros (t & E); discriminate.
    + intros H; apply andb_true_iff in H as [H1 H2].
      apply N.eqb_eq in H1; apply IH in H2 as (t & ->).
      exists t; subst; reflexivity.
    + intros (t & E); injection E as -> ->.
      rewrite N.eqb_refl; simpl; apply IH; exists t; reflexivity.
Qed.

Lemma str_in_empty (s : str) : str_in [] s = true.
Proof. destruct s; reflexivity. Qed.

End StringFacts.

(** [lower] beyond ASCII: Cyrillic and Greek capitals, sigma at the end of
    a word and on its own, and the dotted capital I. *)
Example lower_reads_every_script :
  lower (u "КОТ Σ ΟΔΟΣ İ") = u "кот σ οδος " ++ [0x69; 0x307]%N.
Proof. vm_compute; reflexivity. Qed.

(** [int] reads the decimal digits of any script, and does not take the
    separators U+001C to U+001F for white space. *)
Example int_reads_unicode_digits :
  int (u "٣") = Some 3%Z
  /\ int (u "-١٢") = Some (-12)%Z
  /\ int (u " 12 ") = Some 12%Z
  /\ int [0x1C; 0x31]%N = None.
Proof. vm_compute; repeat split; reflexivity. Qed.

(** A numeral of 4300 digits is read, one of 4301 is not. *)
Example int_refuses_long_numerals :
  int (repeat 0x30%N 4300) = Some 0%Z
  /\ int (repeat 0x30%N 4301) = None
  /\ int (0x2D%N :: repeat 0x39%N 4301) = None.
Proof. vm_compute; repeat split; reflexivity. Qed.

(** Membership in a list of literals, by evaluation. *)
Ltac in_literals :=
  vm_compute; repeat (first [left; reflexivity | right]).

(** ** The reply classifier *)

Lemma keyword_is_action (reply kw : str) :
  In kw ChatPhone.action_keywords ->
  startswith (lower reply) kw = true ->
  ChatPhone.is_action reply = true.
Proof.
  intros Hin Hkw; unfold ChatPhone.is_action.
  apply existsb_exists; exists kw; split; assumption.
Qed.

Lemma no_keyword_is_no_action (reply : str) :
  (forall kw, In kw ChatPhone.action_keywords ->
              startswith (lower reply) kw = false) ->
  ChatPhone.is_action reply = false.
Proof.
  intros H; unfold ChatPhone.is_action.
  destruct (existsb _ _) eqn:E; [|reflexivity].
  apply existsb_exists in E as (kw & Hin & Hkw).
  rewrite (H kw Hin) in Hkw; discriminate.
Qed.

(** The reply handed to the executor, when its lower-cased text starts
    with none of the action keywords, is not dispatched: no device call is
    made, and the reply is printed as it is, as the assistant's
    conversational answer. *)
Lemma unrecognized_reply_is_conversation
    (dev : device) (ss : ChatPhone.session) (state : Snapshot.t)
    (reply : str) (log : list (event ChatPhone.message)) :
  (forall kw, In kw ChatPhone.action_keywords ->
              startswith (lower reply) kw = false) ->
  ChatPhone.dispatch dev ss state reply log
    = (Ret tt, log ++ [Print (ChatPhone.Conversation reply)])
  /\ calls_of (snd (ChatPhone.dispatch dev ss state reply log)) = calls_of log.
Proof.
  intros H; apply no_keyword_is_no_action in H.
  unfold ChatPhone.dispatch; rewrite H; unfold print; simpl.
  split; [reflexivity|].
  unfold calls_of; rewrite flat_map_app; simpl; apply app_nil_r.
Qed.

Lemma unrecognized_reply_is_conversation_witness :
  ChatPhone.dispatch (scripted []) (default_session []) (screen "" [])
                     (u "Hello, how can I help?") []
    = (Ret tt, [Print (ChatPhone.Conversation (u "Hello, how can I help?"))])
  /\ calls_of (snd (ChatPhone.dispatch (scripted []) (default_session [])
                      (screen "" []) (u "Hello, how can I help?") [])) = [].
Proof.
  apply (@unrecognized_reply_is_conversation
           (scripted []) (default_session []) (screen "" [])
           (u "Hello, how can I help?") []).
  intros kw Hin; vm_compute in Hin.
  repeat (destruct Hin as [<- | Hin]; [reflexivity|]); destruct Hin.
Defined.

(** ** The app resolver *)

(** Every key of the registry is already lower-case and trimmed, and the
    dict maps it to the package listed with it. *)
Lemma registry_key_exact (key pkg : str) :
  In (key, pkg) ChatPhone.APP_PACKAGES ->
  strip (lower key) = key /\ dict_get ChatPhone.APP_PACKAGES key = Some pkg.
Proof.
  assert (H : forallb (fun '(k, p) =>
                eqb (strip (lower k)) k
                && match dict_get ChatPhone.APP_PACKAGES k with
                   | Some p' => eqb p' p
                   | None => false
                   end) ChatPhone.APP_PACKAGES = true) by (vm_compute; reflexivity).
  intros Hin; rewrite forallb_forall in H; specialize (H _ Hin).
  cbv beta iota in H; apply andb_true_iff in H as [H1 H2].
  apply eqb_eq in H1; split; [assumption|].
  destruct (dict_get _ _) as [p'|]; [|discriminate H2].
  apply eqb_eq in H2; congruence.
Qed.

Lemma installed_or_unknown_spec (installed : list str) (pkg : str) :
  ChatPhone.installed_or_unknown installed pkg = true
  <-> installed = [] \/ In pkg installed.
Proof.
  unfold ChatPhone.installed_or_unknown; destruct installed as [|p l].
  - split; auto.
  - rewrite mem_In; split; [auto | intros [H|H]; [discriminate | assumption]].
Qed.

(** Whatever the partial-match and installed-package steps return is an
    installed package, once the installed set is known. *)
Lemma fallback_steps_return_installed
    (installed : list str) (q r : str) :
  installed <> [] ->
  match find (fun '(name, pkg) =>
                (str_in q name || str_in name q)
                && ChatPhone.installed_or_unknown installed pkg)
             ChatPhone.APP_PACKAGES with
  | Some (_, pkg) => Some pkg
  | None => find (fun pkg => str_in q (lower pkg)) installed
  end = Some r ->
  In r installed.
Proof.
  intros Hne.
  destruct (find _ ChatPhone.APP_PACKAGES) as [[name pkg]|] eqn:E.
  - intros [= <-]; apply find_some in E as [_ E].
    apply andb_true_iff in E as [_ E].
    apply installed_or_unknown_spec in E as [E|E]; [contradiction | assumption].
  - intros E'; apply find_some in E' as [E' _]; assumption.
Qed.

(** C4 (amended).  For every key of the registry, the resolver returns the
    mapped package when the installed set is empty or contains it.  When the
    installed set is non-empty and lacks that package, the exact match is
    skipped and the resolver goes on to the substring steps: it returns the
    package of the first registry entry, in order, whose name contains or is
    contained in the key and whose package is installed, else the first
    installed package whose lower-cased identifier contains the key, else
    nothing; any package returned then is an installed one, never the mapped
    one. *)
Theorem resolve_exact_key (installed : list str) (key pkg : str) :
  In (key, pkg) ChatPhone.APP_PACKAGES ->
  ((installed = [] \/ In pkg installed) ->
   ChatPhone.find_app_package installed key = Some pkg)
  /\ (installed <> [] -> ~ In pkg installed ->
      ChatPhone.find_app_package installed key
        = match find (fun '(name, p) =>
                        (str_in key name || str_in name key) && mem p installed)
                     ChatPhone.APP_PACKAGES with
          | Some (_, p) => Some p
          | None => find (fun p => str_in key (lower p)) installed
          end
      /\ forall r, ChatPhone.find_app_package installed key = Some r ->
                   In r installed /\ r <> pkg).
Proof.
  intros Hin; destruct (registry_key_exact Hin) as [Hnorm Hget].
  unfold ChatPhone.find_app_package; rewrite Hnorm, Hget; split.
  - intros Hok; apply installed_or_unknown_spec in Hok; rewrite Hok; reflexivity.
  - intros Hne Hout.
    assert (Hno : ChatPhone.installed_or_unknown installed pkg = false).
    { destruct (ChatPhone.installed_or_unknown installed pkg) eqn:E; [|reflexivity].
      apply installed_or_unknown_spec in E as [E|E]; contradiction. }
    rewrite Hno; split.
    + destruct installed as [|p0 l]; [contradiction | reflexivity].
    + intros r Hr; apply fallback_steps_return_installed in Hr; [|assumption].
      split; [assumption | intros ->; contradiction].
Qed.

Lemma resolve_exact_key_witness :
  ChatPhone.find_app_package [] (u "zalo") = Some (u "com.zing.zalo")
  /\ ChatPhone.find_app_package [u "com.whatsapp"] (u "zalo") = None.
Proof.
  assert (Hin : In (u "zalo", u "com.zing.zalo") ChatPhone.APP_PACKAGES)
    by in_literals.
  split.
  - apply (proj1 (@resolve_exact_key [] (u "zalo") (u "com.zing.zalo") Hin)).
    left; reflexivity.
  - rewrite (proj1 (proj2 (@resolve_exact_key [u "com.whatsapp"] (u "zalo")
                             (u "com.zing.zalo") Hin)
                          ltac:(discriminate)
                          ltac:(intros [H|[]]; vm_compute in H; discriminate))).
    vm_compute; reflexivity.
Defined.

(** C4, as stated, fails: with only YouTube Music installed, the key
    [youtube] is a registry key whose package is not installed, the
    installed set is not empty, and the resolver still returns a package. *)
Lemma resolve_exact_key_counterexample :
  In (u "youtube", u "com.google.android.youtube") ChatPhone.APP_PACKAGES
  /\ [u "com.google.android.apps.youtube.music"] <> []
  /\ ~ In (u "com.google.android.youtube")
          [u "com.google.android.apps.youtube.music"]
  /\ ChatPhone.find_app_package [u "com.google.android.apps.youtube.music"]
                                (u "youtube")
     = Some (u "com.google.android.apps.youtube.music").
Proof.
  split; [in_literals|].
  split; [discriminate|].
  split; [intros [H|[]]; vm_compute in H; discriminate|].
  vm_compute; reflexivity.
Qed.

(** The harness has no installed set: an exact key always resolves. *)
Lemma harness_resolve_exact_key (key pkg : str) :
  In (key, pkg) TestCommand.APP_PACKAGES ->
  TestCommand.find_app_package key = Some pkg.
Proof.
  intros Hin; vm_compute in Hin.
  repeat (destruct Hin as [[= <- <-] | Hin]; [vm_compute; reflexivity|]).
  destruct Hin.
Qed.

(** C9.  An empty or blank app name (the argument of a bare [open_app]
    reply) is a substring of every registry name, so the partial-match step
    stops at the first entry, [tiktok], and returns its package whenever the
    installed set is empty or contains it. *)
Theorem empty_query_resolves_to_tiktok (installed : list str) (app_name : str) :
  strip (lower app_name) = [] ->
  installed = [] \/ In (u "com.ss.android.ugc.trill") installed ->
  after_space (u "open_app") = []
  /\ hd_error ChatPhone.APP_PACKAGES
     = Some (u "tiktok", u "com.ss.android.ugc.trill")
  /\ (forall name pkg, In (name, pkg) ChatPhone.APP_PACKAGES ->
                       str_in (strip (lower app_name)) name = true)
  /\ ChatPhone.find_app_package installed app_name
     = Some (u "com.ss.android.ugc.trill").
Proof.
  intros Hblank Hok; split; [reflexivity|]; split; [reflexivity|].
  split; [intros name pkg _; rewrite Hblank; apply str_in_empty|].
  apply installed_or_unknown_spec in Hok.
  unfold ChatPhone.find_app_package; rewrite Hblank.
  change (dict_get ChatPhone.APP_PACKAGES []) with (@None str).
  change ChatPhone.APP_PACKAGES
    with ((u "tiktok", u "com.ss.android.ugc.trill") :: tl ChatPhone.APP_PACKAGES).
  cbv beta iota; unfold find at 1.
  rewrite str_in_empty, Hok; reflexivity.
Qed.

Lemma empty_query_resolves_to_tiktok_witness :
  ChatPhone.find_app_package [u "com.whatsapp"; u "com.ss.android.ugc.trill"]
                             (u "   ")
  = Some (u "com.ss.android.ugc.trill").
Proof.
  apply (@empty_query_resolves_to_tiktok
           [u "com.whatsapp"; u "com.ss.android.ugc.trill"] (u "   ")
           eq_refl).
  right; in_literals.
Defined.

(** ** The executor *)

Lemma calls_of_app {msg : Type} (l1 l2 : list (event msg)) :
  calls_of (l1 ++ l2) = calls_of l1 ++ calls_of l2.
Proof. unfold calls_of; apply flat_map_app. Qed.

(** C7.  When the [open_app] (or [start_app]) argument resolves to a
    package that occurs in the current app identifier, the turn only prints
    the echo of the reply and the already-open report: [start_app] is not
    called, and no other device call is made. *)
Theorem open_app_already_open
    (dev : device) (ss : ChatPhone.session) (state : Snapshot.t)
    (reply package : str) (log : list (event ChatPhone.message)) :
  startswith (lower reply) (u "open_app") = true
  \/ startswith (lower reply) (u "start_app") = true ->
  ChatPhone.find_app_package (ChatPhone.INSTALLED_PACKAGES ss)
                             (after_space reply) = Some package ->
  package <> [] ->
  str_in package (Snapshot.current_app state) = true ->
  ChatPhone.dispatch dev ss state reply log
    = (Ret tt, log ++ [Print (ChatPhone.Action reply);
                       Print (ChatPhone.AlreadyIn (after_space reply) package)])
  /\ calls_of (snd (ChatPhone.dispatch dev ss state reply log)) = calls_of log.
Proof.
  intros Hkw Hfind Hne Hin.
  assert (Hact : ChatPhone.is_action reply = true).
  { destruct Hkw as [H|H];
      [apply keyword_is_action with (kw := u "open_app")
      |apply keyword_is_action with (kw := u "start_app")];
      solve [assumption | in_literals]. }
  assert (Hbranch : startswith (lower reply) (u "open_app")
                    || startswith (lower reply) (u "start_app") = true)
    by (apply orb_true_iff; assumption).
  assert (E : ChatPhone.dispatch dev ss state reply log
              = (Ret tt, log ++ [Print (ChatPhone.Action reply);
                                 Print (ChatPhone.AlreadyIn (after_space reply)
                                                            package)])).
  { unfold ChatPhone.dispatch; rewrite Hact; unfold bind at 1, print at 1.
    rewrite Hbranch; unfold ChatPhone.do_open_app; rewrite Hfind.
    destruct package as [|c package]; [contradiction Hne; reflexivity|].
    rewrite Hin; unfold print; rewrite <- app_assoc; reflexivity. }
  rewrite E; split; [reflexivity|].
  simpl; rewrite calls_of_app; simpl; apply app_nil_r.
Qed.

Lemma open_app_already_open_witness :
  ChatPhone.dispatch (scripted []) (default_session [])
                     (screen "com.ss.android.ugc.trill" [])
                     (u "open_app TikTok") []
  = (Ret tt, [Print (ChatPhone.Action (u "open_app TikTok"));
              Print (ChatPhone.AlreadyIn (u "TikTok")
                                         (u "com.ss.android.ugc.trill"))]).
Proof.
  apply (@open_app_already_open
           (scripted []) (default_session [])
           (screen "com.ss.android.ugc.trill" [])
           (u "open_app TikTok") (u "com.ss.android.ugc.trill") []).
  - left; reflexivity.
  - reflexivity.
  - discriminate.
  - reflexivity.
Defined.

Lemma invoke_reliable {msg : Type} (dev : device) (c : call)
    (log : list (event msg)) :
  reliable dev -> invoke dev c log = (Ret tt, log ++ [Call c]).
Proof. intros H; unfold invoke; rewrite H; reflexivity. Qed.

Lemma fetch_state_reliable {msg : Type} (dev : device) (log : list (event msg)) :
  reliable dev ->
  fetch_state dev log
  = (Ret (state_at dev (calls_of log)), log ++ [Call get_state]).
Proof. intros H; unfold fetch_state; rewrite H; reflexivity. Qed.

Lemma scripted_reliable (screens : list Snapshot.t) : reliable (scripted screens).
Proof. intros history c; reflexivity. Qed.

(** Replace a test on a string with a known prefix by its value. *)
Ltac decide_prefix_tests :=
  repeat match goal with
         | |- context [startswith (?p ++ ?t) ?q] =>
             let b := eval vm_compute in (startswith p q) in
             change (startswith (p ++ t) q) with b
         | |- context [eqb (?p ++ ?t) ?q] =>
             change (eqb (p ++ t) q) with false
         end.

(** A reply that starts with [tap_video] is executed by the [tap] branch,
    which comes first in the [elif] chain. *)
Lemma tap_video_runs_tap_branch
    (dev : device) (ss : ChatPhone.session) (state : Snapshot.t)
    (reply : str) (log : list (event ChatPhone.message)) :
  startswith (lower reply) (u "tap_video") = true ->
  ChatPhone.dispatch dev ss state reply log
  = ChatPhone.do_tap dev reply (log ++ [Print (ChatPhone.Action reply)]).
Proof.
  intros H.
  assert (Hact : ChatPhone.is_action reply = true)
    by (apply keyword_is_action with (kw := u "tap_video");
        [in_literals | assumption]).
  apply startswith_prefix in H as (t & Ht).
  unfold ChatPhone.dispatch; rewrite Hact, Ht.
  unfold bind at 1, print at 1.
  decide_prefix_tests; reflexivity.
Qed.

(** A reply that starts with [long_press] reaches the [long_press] branch. *)
Lemma long_press_runs_its_branch
    (dev : device) (ss : ChatPhone.session) (state : Snapshot.t)
    (reply : str) (log : list (event ChatPhone.message)) :
  startswith (lower reply) (u "long_press") = true ->
  ChatPhone.dispatch dev ss state reply log
  = ChatPhone.do_long_press dev ss (Snapshot.elements state) reply
      (log ++ [Print (ChatPhone.Action reply)]).
Proof.
  intros H.
  assert (Hact : ChatPhone.is_action reply = true)
    by (apply keyword_is_action with (kw := u "long_press");
        [in_literals | assumption]).
  apply startswith_prefix in H as (t & Ht).
  unfold ChatPhone.dispatch; rewrite Hact, Ht.
  unfold bind at 1, print at 1.
  decide_prefix_tests; reflexivity.
Qed.

(** Python's indexing, case by case. *)
Lemma getitem_raises_iff {A : Type} (l : list A) (k : Z) :
  (k < - Z.of_nat (List.length l) \/ Z.of_nat (List.length l) <= k)%Z ->
  getitem l k = Raise IndexError.
Proof.
  intros H; unfold getitem.
  destruct (k <? 0)%Z eqn:Ek;
    [apply Z.ltb_lt in Ek | apply Z.ltb_ge in Ek];
    match goal with
    | |- (if ?c then _ else _) = _ => assert (Hc : c = true)
    end;
    try (apply orb_true_iff; rewrite Z.ltb_lt, Z.leb_le; lia);
    rewrite Hc; reflexivity.
Qed.

Lemma getitem_position {A : Type} (l : list A) (k : Z) :
  (- Z.of_nat (List.length l) <= k < Z.of_nat (List.length l))%Z ->
  exists a,
    nth_error l (Z.to_nat (k mod Z.of_nat (List.length l))) = Some a
    /\ getitem l k = Ret a.
Proof.
  intros H; unfold getitem.
  set (n := Z.of_nat (List.length l)) in *.
  set (i := if (k <? 0)%Z then (n + k)%Z else k).
  assert (Hi : (0 <= i < n)%Z /\ (k mod n = i)%Z).
  { subst i; destruct (k <? 0)%Z eqn:Ek;
      [apply Z.ltb_lt in Ek | apply Z.ltb_ge in Ek]; split; try lia.
    - symmetry; apply Z.mod_unique with (q := (-1)%Z); lia.
    - apply Z.mod_small; lia. }
  destruct Hi as [Hi Hmod]; rewrite Hmod.
  assert (Hc : ((i <? 0) || (n <=? i))%Z = false).
  { apply orb_false_iff; rewrite Z.ltb_ge, Z.leb_gt; lia. }
  rewrite Hc.
  destruct (nth_error l (Z.to_nat i)) as [a|] eqn:E.
  - exists a; split; reflexivity.
  - apply nth_error_None in E; subst n; lia.
Qed.

(** C10.  For a reply [long_press k] the guard [index < len(elements)] lets
    every negative [k] through.  When [-len <= k < 0] the element at
    sequence position [len + k] is long-pressed, at its own coordinates
    (the screen centre for a coordinate it lacks), whatever its [index]
    field says; the element-not-found report is printed exactly when
    [k >= len]. *)
Theorem long_press_negative_index
    (dev : device) (ss : ChatPhone.session) (state : Snapshot.t)
    (reply word : str) (k : Z) (log : list (event ChatPhone.message)) :
  reliable dev ->
  startswith (lower reply) (u "long_press") = true ->
  nth_error (split_ws reply) 1 = Some word ->
  int word = Some k ->
  let elements := Snapshot.elements state in
  let n := Z.of_nat (List.length elements) in
  ((k < 0)%Z -> (- k <= n)%Z ->
   exists elem,
     nth_error elements (Z.to_nat (n + k)) = Some elem
     /\ let x := get (UiElement.x elem) (ChatPhone.SCREEN_WIDTH ss / 2)%Z in
        let y := get (UiElement.y elem) (ChatPhone.SCREEN_HEIGHT ss / 2)%Z in
        ChatPhone.dispatch dev ss state reply log
        = (Ret tt, log ++ [Print (ChatPhone.Action reply);
                           Call (swipe x y x y 1500);
                           Print (ChatPhone.LongPressed k)]))
  /\ ((n <= k)%Z <->
      ChatPhone.dispatch dev ss state reply log
      = (Ret tt, log ++ [Print (ChatPhone.Action reply);
                         Print (ChatPhone.ElementNotFound k)])).
Proof.
  intros Hdev Hkw Hword Hint elements n.
  rewrite (long_press_runs_its_branch dev ss state reply log Hkw).
  fold elements.
  unfold ChatPhone.do_long_press, try_except, int_arg.
  rewrite Hword, Hint; unfold bind, ret; fold n.
  split.
  - intros Hneg Hlen.
    assert (Hlt : (k <? n)%Z = true) by (apply Z.ltb_lt; lia).
    rewrite Hlt.
    destruct (@getitem_position _ elements k) as (elem & Hnth & Hget);
      [fold n; lia|].
    fold n in Hnth.
    replace (k mod n)%Z with (n + k)%Z in Hnth
      by (apply Z.mod_unique with (q := (-1)%Z); lia).
    exists elem; split; [assumption|].
    rewrite Hget; cbv zeta; unfold print.
    rewrite invoke_reliable by assumption.
    repeat rewrite <- app_assoc; reflexivity.
  - split.
    + intros Hge.
      assert (Hlt : (k <? n)%Z = false) by (apply Z.ltb_ge; lia).
      rewrite Hlt; unfold print; rewrite <- app_assoc; reflexivity.
    + intros E; destruct (k <? n)%Z eqn:Hlt;
        [exfalso | apply Z.ltb_ge in Hlt; assumption].
      apply Z.ltb_lt in Hlt.
      destruct (Z_lt_ge_dec k (- n)) as [Hlow|Hlow].
      * rewrite getitem_raises_iff in E by (fold n; lia).
        unfold raise, index_or_value_error, print in E.
        rewrite <- app_assoc in E; injection E as E.
        apply app_inv_head in E; discriminate.
      * destruct (@getitem_position _ elements k) as (elem & _ & Hget);
          [fold n; lia|].
        rewrite Hget in E; unfold print in E.
        rewrite invoke_reliable in E by assumption.
        repeat rewrite <- app_assoc in E; injection E as E.
        apply app_inv_head in E; discriminate.
Qed.

(** ** The search flow *)


Section SearchLoops.

Variable dev : device.
Hypothesis Hdev : reliable dev.







End SearchLoops.

(** Bring a log built by successive appends to the form [log ++ [...]]. *)
Ltac flatten_log := repeat rewrite <- app_assoc; cbn [app].

Section SearchRounds.

Variable dev : device.
Hypothesis Hdev : reliable dev.




End SearchRounds.

(** A reply that starts with [search] reaches the [search] branch. *)
Lemma search_runs_its_branch
    (dev : device) (ss : ChatPhone.session) (state : Snapshot.t)
    (reply : str) (log : list (event ChatPhone.message)) :
  startswith (lower reply) (u "search") = true ->
  ChatPhone.dispatch dev ss state reply log
  = ChatPhone.do_search dev (Snapshot.elements state) reply
      (log ++ [Print (ChatPhone.Action reply)]).
Proof.
  intros H.
  assert (Hact : ChatPhone.is_action reply = true)
    by (apply keyword_is_action with (kw := u "search");
        [in_literals | assumption]).
  apply startswith_prefix in H as (t & Ht).
  unfold ChatPhone.dispatch; rewrite Hact, Ht.
  unfold bind at 1, print at 1.
  decide_prefix_tests; reflexivity.
Qed.



(** A suggestion is recognized whatever the case of the keyword, in
    every script. *)
Example search_suggestion_ignores_cyrillic_case :
  ChatPhone.dispatch (scripted [field_screen; russian_suggestion_screen])
                     (default_session []) feed_screen (u "search КОТ") []
  = (Ret tt,
     [Print (ChatPhone.Action (u "search КОТ"));
      Print (ChatPhone.SearchingFor (u "КОТ"));
      Call (tap 7); Print ChatPhone.OpenedSearch; Sleep 1; Call get_state;
      Call (input_text_at (u "КОТ") 9 true); Print (ChatPhone.Typed (u "КОТ"));
      Sleep 1; Call get_state;
      Call (tap 4); Print (ChatPhone.Selected (u "кот видео"))]).
Proof. vm_compute; reflexivity. Qed.

(** Without the suggestion the same script ends on the submit button. *)
Example search_falls_back_to_submit :
  ChatPhone.dispatch (scripted [field_screen; no_suggestion_screen])
                     (default_session []) feed_screen (u "search cats") []
  = (Ret tt,
     [Print (ChatPhone.Action (u "search cats"));
      Print (ChatPhone.SearchingFor (u "cats"));
      Call (tap 7); Print ChatPhone.OpenedSearch; Sleep 1; Call get_state;
      Call (input_text_at (u "cats") 9 true); Print (ChatPhone.Typed (u "cats"));
      Sleep 1; Call get_state;
      Call (tap 5); Print ChatPhone.TappedSearchButton]).
Proof. vm_compute; reflexivity. Qed.

(** C3.  The rounds come in the order claimed, but the last one misses a
    search button that is there.  On a phone set to English the first round
    finds the search icon by its label Search; on the last snapshot no
    suggestion shows the keyword and the button labelled Search, which is a
    search button in the words of the first round, is the one to tap.  Both
    scripts stop after the second re-fetch without tapping it: their last
    loop looks for the Vietnamese label alone. *)
Theorem search_misses_the_english_button :
  find (is_suggestion (u "cats")) (Snapshot.elements english_results_screen)
  = None
  /\ find is_search_button (Snapshot.elements english_results_screen)
     = Some (element 5 "Search" "android.widget.Button")
  /\ ChatPhone.dispatch (scripted [field_screen; english_results_screen])
                        (default_session []) feed_screen (u "search cats") []
     = (Ret tt,
        [Print (ChatPhone.Action (u "search cats"));
         Print (ChatPhone.SearchingFor (u "cats"));
         Call (tap 7); Print ChatPhone.OpenedSearch; Sleep 1; Call get_state;
         Call (input_text_at (u "cats") 9 true);
         Print (ChatPhone.Typed (u "cats"));
         Sleep 1; Call get_state])
  /\ TestCommand.do_search (scripted [field_screen; english_results_screen])
                           (u "cats") (Snapshot.elements feed_screen) []
     = (Ret tt,
        [Print (TestCommand.SearchingFor (u "cats"));
         Call (tap 7); Print TestCommand.OpenedSearch; Sleep 1; Call get_state;
         Call (input_text_at (u "cats") 9 true);
         Print (TestCommand.Typed (u "cats"));
         Sleep 1; Call get_state]).
Proof.
  split; [vm_compute; reflexivity|].
  split; [vm_compute; reflexivity|].
  split; vm_compute; reflexivity.
Qed.

Lemma long_press_negative_index_witness :
  ChatPhone.dispatch (scripted []) (default_session []) two_buttons
                     (u "long_press -1") []
  = (Ret tt,
     [Print (ChatPhone.Action (u "long_press -1"));
      Call (swipe 300 400 300 400 1500);
      Print (ChatPhone.LongPressed (-1))]).
Proof.
  destruct (@long_press_negative_index
              (scripted []) (default_session []) two_buttons
              (u "long_press -1") (u "-1") (-1)%Z []
              (scripted_reliable _) eq_refl eq_refl eq_refl) as [H _].
  destruct (H eq_refl ltac:(discriminate)) as (elem & Hnth & E).
  injection Hnth as <-; exact E.
Defined.

(** ** Replies the executor mishandles *)

(** C1.  On a results grid whose thumbnails carry the indices 11 and 12,
    the reply [tap_video 1] is taken by the [tap] branch: the element with
    index 1 is tapped, not the first thumbnail.  The [tap_video] branch,
    run on the same reply, would tap index 11. *)
Theorem tap_video_is_shadowed_by_tap :
  startswith (lower (u "tap_video 1")) (u "tap_video") = true
  /\ ChatPhone.dispatch (scripted []) (default_session []) grid_screen
                        (u "tap_video 1") []
     = (Ret tt, [Print (ChatPhone.Action (u "tap_video 1"));
                 Call (tap 1); Print (ChatPhone.Tapped 1)])
  /\ ChatPhone.do_tap_video (scripted []) (Snapshot.elements grid_screen)
                            (u "tap_video 1") []
     = (Ret tt, [Call (tap 11); Print (ChatPhone.TappedVideo 1 11)]).
Proof. repeat split; vm_compute; reflexivity. Qed.

(** In the interactive loop a malformed or missing argument of [tap] is
    reported as an invalid command, and no device call is made. *)
Lemma chat_malformed_tap_is_reported
    (dev : device) (ss : ChatPhone.session) (state : Snapshot.t)
    (reply : str) (log : list (event ChatPhone.message)) :
  startswith (lower reply) (u "tap") = true ->
  (forall word, nth_error (split_ws reply) 1 = Some word -> int word = None) ->
  ChatPhone.dispatch dev ss state reply log
  = (Ret tt, log ++ [Print (ChatPhone.Action reply);
                     Print ChatPhone.InvalidTap]).
Proof.
  intros Hkw Hbad.
  assert (Hact : ChatPhone.is_action reply = true)
    by (apply keyword_is_action with (kw := u "tap");
        [in_literals | assumption]).
  apply startswith_prefix in Hkw as (t & Ht).
  unfold ChatPhone.dispatch; rewrite Hact, Ht.
  unfold bind at 1, print at 1.
  decide_prefix_tests; cbv beta iota delta [orb].
  unfold ChatPhone.do_tap, try_except, bind at 1, int_arg.
  destruct (nth_error (split_ws reply) 1) as [word|] eqn:E.
  - rewrite (Hbad word eq_refl).
    unfold raise, index_or_value_error, print; flatten_log; reflexivity.
  - unfold raise, index_or_value_error, print; flatten_log; reflexivity.
Qed.

(** The same holds for [long_press]. *)
Lemma chat_malformed_long_press_is_reported
    (dev : device) (ss : ChatPhone.session) (state : Snapshot.t)
    (reply : str) (log : list (event ChatPhone.message)) :
  startswith (lower reply) (u "long_press") = true ->
  (forall word, nth_error (split_ws reply) 1 = Some word -> int word = None) ->
  ChatPhone.dispatch dev ss state reply log
  = (Ret tt, log ++ [Print (ChatPhone.Action reply);
                     Print ChatPhone.InvalidLongPress]).
Proof.
  intros Hkw Hbad.
  rewrite (long_press_runs_its_branch dev ss state reply log Hkw).
  unfold ChatPhone.do_long_press, try_except, bind at 1, int_arg.
  destruct (nth_error (split_ws reply) 1) as [word|] eqn:E.
  - rewrite (Hbad word eq_refl).
    unfold raise, index_or_value_error, print; flatten_log; reflexivity.
  - unfold raise, index_or_value_error, print; flatten_log; reflexivity.
Qed.

(** C5.  The harness does not guard [int(reply.split()[1])]: on the reply
    [tap abc] the [ValueError] leaves [dispatch], and so [main], with no
    invalid-command notice printed; a bare [tap] leaves it with
    [IndexError], and [tap_video abc], taken by the same branch, with
    [ValueError].  The interactive loop prints the notice on the same
    reply. *)
Theorem harness_malformed_tap_raises :
  TestCommand.dispatch (scripted []) feed_screen (u "tap abc") []
  = (Raise ValueError, [])
  /\ TestCommand.dispatch (scripted []) feed_screen (u "tap") []
     = (Raise IndexError, [])
  /\ TestCommand.dispatch (scripted []) feed_screen (u "tap_video abc") []
     = (Raise ValueError, [])
  /\ TestCommand.main (scripted [feed_screen]) (ChatPhone.Text (u "tap abc")) []
     = (Raise ValueError,
        [Call get_state;
         Print (TestCommand.CurrentApp (u "com.ss.android.ugc.trill"));
         Print (TestCommand.ElementCount 2);
         Print TestCommand.Sending;
         Print (TestCommand.GeminiReply (u "tap abc"))])
  /\ ChatPhone.dispatch (scripted []) (default_session []) feed_screen
                        (u "tap abc") []
     = (Ret tt, [Print (ChatPhone.Action (u "tap abc"));
                 Print ChatPhone.InvalidTap]).
Proof. repeat split; vm_compute; reflexivity. Qed.

(** C2.  Only the [open_app] and [search] branches guard their device
    calls.  When [back] raises, the exception leaves [dispatch] and the
    loop: nothing is printed for it and the next line of input is never
    read, whereas on a working device the same session goes on to its end.
    The same happens in the [home], [input_text], [swipe] and [tap]
    branches (the [tap] guard names only [IndexError] and [ValueError]),
    while a failing [start_app] is caught and reported. *)
Theorem device_fault_leaves_main_loop :
  ChatPhone.main_loop (faulty back_is_broken [feed_screen])
                      (default_session []) false
                      [(u "go back", ChatPhone.Text (u "back"));
                       (u "what is this?", ChatPhone.Text (u "A video feed."))] []
  = (Raise DeviceError,
     [Call get_state; Print (ChatPhone.Action (u "back")); Call back])
  /\ ChatPhone.main_loop (scripted [feed_screen])
                         (default_session []) false
                         [(u "go back", ChatPhone.Text (u "back"));
                          (u "what is this?", ChatPhone.Text (u "A video feed."))] []
     = (Ret tt,
        [Call get_state; Print (ChatPhone.Action (u "back")); Call back;
         Print ChatPhone.PressedBack; Print ChatPhone.Blank;
         Call get_state; Print (ChatPhone.Conversation (u "A video feed."));
         Print ChatPhone.Blank; Print ChatPhone.Bye])
  /\ ChatPhone.dispatch (faulty only_get_state_works []) (default_session [])
                        feed_screen (u "home") []
     = (Raise DeviceError,
        [Print (ChatPhone.Action (u "home")); Call (press_key 3)])
  /\ ChatPhone.dispatch (faulty only_get_state_works []) (default_session [])
                        feed_screen (u "input_text hello") []
     = (Raise DeviceError,
        [Print (ChatPhone.Action (u "input_text hello"));
         Call (input_text (u "hello"))])
  /\ ChatPhone.dispatch (faulty only_get_state_works []) (default_session [])
                        feed_screen (u "swipe up") []
     = (Raise DeviceError,
        [Print (ChatPhone.Action (u "swipe up"));
         Call (swipe 540 2000 540 400 300)])
  /\ ChatPhone.dispatch (faulty only_get_state_works []) (default_session [])
                        feed_screen (u "tap 3") []
     = (Raise DeviceError,
        [Print (ChatPhone.Action (u "tap 3")); Call (tap 3)])
  /\ ChatPhone.dispatch (faulty only_get_state_works []) (default_session [])
                        feed_screen (u "open_app zalo") []
     = (Ret tt,
        [Print (ChatPhone.Action (u "open_app zalo"));
         Call (start_app (u "com.zing.zalo"));
         Print (ChatPhone.FailedToOpen (u "zalo") DeviceError)]).
Proof. repeat split; vm_compute; reflexivity. Qed.

(** Whatever the device and the session, a [back] that raises is not
    handled by [dispatch]. *)
Lemma back_fault_is_not_caught
    (dev : device) (ss : ChatPhone.session) (state : Snapshot.t)
    (log : list (event ChatPhone.message)) (e : exn) :
  raises dev (calls_of log) back = Some e ->
  ChatPhone.dispatch dev ss state (u "back") log
  = (Raise e, log ++ [Print (ChatPhone.Action (u "back")); Call back]).
Proof.
  intros H.
  change (ChatPhone.dispatch dev ss state (u "back") log)
    with (bind (print (ChatPhone.Action (u "back")))
               (fun _ => bind (invoke dev back)
                              (fun _ => print ChatPhone.PressedBack)) log).
  unfold bind, print, invoke.
  rewrite calls_of_app; cbn [calls_of flat_map app]; rewrite app_nil_r, H.
  flatten_log; reflexivity.
Qed.

(** The horizontal swipes of any session: the distance from the centre is
    a third of the screen height. *)
Lemma swipe_left_distance
    (dev : device) (ss : ChatPhone.session) (state : Snapshot.t)
    (log : list (event ChatPhone.message)) :
  reliable dev ->
  let cx := (ChatPhone.SCREEN_WIDTH ss / 2)%Z in
  let cy := (ChatPhone.SCREEN_HEIGHT ss / 2)%Z in
  let distance := (ChatPhone.SCREEN_HEIGHT ss / 3)%Z in
  ChatPhone.dispatch dev ss state (u "swipe left") log
  = (Ret tt, log ++ [Print (ChatPhone.Action (u "swipe left"));
                     Call (swipe (cx + distance) cy (cx - distance) cy 300);
                     Print ChatPhone.SwipedLeft]).
Proof.
  intros Hdev cx cy distance.
  change (ChatPhone.dispatch dev ss state (u "swipe left") log)
    with (bind (print (ChatPhone.Action (u "swipe left")))
               (fun _ => bind (invoke dev (swipe (cx + distance) cy
                                                 (cx - distance) cy 300))
                              (fun _ => print ChatPhone.SwipedLeft)) log).
  unfold bind, print; rewrite (invoke_reliable _ _ Hdev).
  flatten_log; reflexivity.
Qed.

(** C6.  On the default 1080 x 2400 screen, [swipe up] issues one gesture
    from (540, 2000) to (540, 400) over 300 ms and [swipe down] the reverse;
    an unknown direction is only reported.  [swipe left] and [swipe right]
    also move 800 from the centre, a third of the height and not the 360
    that a third of the width would give: they run from x = 1340 to
    x = -260 and back, outside the 1080 columns of the screen. *)
Theorem swipe_geometry_default_screen :
  ChatPhone.dispatch (scripted []) (default_session []) feed_screen
                     (u "swipe up") []
  = (Ret tt, [Print (ChatPhone.Action (u "swipe up"));
              Call (swipe 540 2000 540 400 300); Print ChatPhone.SwipedUp])
  /\ ChatPhone.dispatch (scripted []) (default_session []) feed_screen
                        (u "swipe down") []
     = (Ret tt, [Print (ChatPhone.Action (u "swipe down"));
                 Call (swipe 540 400 540 2000 300); Print ChatPhone.SwipedDown])
  /\ ChatPhone.dispatch (scripted []) (default_session []) feed_screen
                        (u "swipe left") []
     = (Ret tt, [Print (ChatPhone.Action (u "swipe left"));
                 Call (swipe 1340 1200 (-260) 1200 300);
                 Print ChatPhone.SwipedLeft])
  /\ ChatPhone.dispatch (scripted []) (default_session []) feed_screen
                        (u "swipe right") []
     = (Ret tt, [Print (ChatPhone.Action (u "swipe right"));
                 Call (swipe (-260) 1200 1340 1200 300);
                 Print ChatPhone.SwipedRight])
  /\ ChatPhone.dispatch (scripted []) (default_session []) feed_screen
                        (u "swipe around") []
     = (Ret tt, [Print (ChatPhone.Action (u "swipe around"));
                 Print ChatPhone.UnknownSwipeDirection])
  /\ (ChatPhone.SCREEN_WIDTH (default_session []) / 3 = 360)%Z
  /\ (ChatPhone.SCREEN_HEIGHT (default_session []) / 3 = 800)%Z.
Proof. repeat split; vm_compute; reflexivity. Qed.

(** ** Further properties of the app resolver *)

Lemma dict_get_In {V : Type} (d : list (str * V)) (key : str) (v : V) :
  dict_get d key = Some v -> In (key, v) d.
Proof.
  induction d as [|[k w] d IH]; simpl; [discriminate|].
  destruct (eqb key k) eqn:E.
  - intros [= <-]; apply eqb_eq in E; subst; left; reflexivity.
  - intros H; right; apply IH; assumption.
Qed.

Lemma startswith_refl (s : str) : startswith s s = true.
Proof. apply startswith_prefix; exists []; symmetry; apply app_nil_r. Qed.

Lemma str_in_refl (s : str) : str_in s s = true.
Proof. destruct s; simpl; [reflexivity|]; rewrite N.eqb_refl, startswith_refl; reflexivity. Qed.

(** Once the installed set is known (non-empty), the resolver answers
    with installed packages only, whichever of its three steps answers. *)
Theorem resolver_returns_installed (installed : list str) (app_name r : str) :
  installed <> [] ->
  ChatPhone.find_app_package installed app_name = Some r ->
  In r installed.
Proof.
  intros Hne; unfold ChatPhone.find_app_package.
  destruct (dict_get ChatPhone.APP_PACKAGES (strip (lower app_name))) as [pkg|].
  - destruct (ChatPhone.installed_or_unknown installed pkg) eqn:E.
    + intros [= <-]; apply installed_or_unknown_spec in E as [E|E];
        [contradiction | assumption].
    + apply fallback_steps_return_installed; assumption.
  - apply fallback_steps_return_installed; assumption.
Qed.

Lemma resolver_returns_installed_witness :
  In (u "com.google.android.apps.youtube.music")
     [u "com.whatsapp"; u "com.google.android.apps.youtube.music"].
Proof.
  apply (@resolver_returns_installed
           [u "com.whatsapp"; u "com.google.android.apps.youtube.music"]
           (u "YouTube")).
  - discriminate.
  - vm_compute; reflexivity.
Defined.

(** When the installed set is empty (the listing failed or was empty), the
    resolver only consults the registry: what it returns is the package of
    a registry entry whose name contains, or is contained in, the
    normalised query, and it returns nothing exactly when no registry name
    is in that relation with the query. *)
Theorem resolver_without_installed_set (app_name : str) :
  let q := strip (lower app_name) in
  (forall r, ChatPhone.find_app_package [] app_name = Some r ->
             exists name, In (name, r) ChatPhone.APP_PACKAGES
                          /\ str_in q name || str_in name q = true)
  /\ (ChatPhone.find_app_package [] app_name = None
      <-> forall name pkg, In (name, pkg) ChatPhone.APP_PACKAGES ->
                           str_in q name || str_in name q = false).
Proof.
  intros q; unfold ChatPhone.find_app_package; fold q.
  cbn [ChatPhone.installed_or_unknown].
  destruct (dict_get ChatPhone.APP_PACKAGES q) as [pkg|] eqn:Hget.
  - apply dict_get_In in Hget; split.
    + intros r [= <-]; exists q; split; [assumption|].
      rewrite str_in_refl; reflexivity.
    + split; [discriminate|].
      intros H; specialize (H _ _ Hget).
      rewrite str_in_refl in H; discriminate.
  - destruct (find _ ChatPhone.APP_PACKAGES) as [[name pkg]|] eqn:Hfind.
    + apply find_some in Hfind as [Hin Hm]; rewrite andb_true_r in Hm.
      split.
      * intros r [= <-]; exists name; split; assumption.
      * split; [discriminate|].
        intros H; rewrite (H _ _ Hin) in Hm; discriminate.
    + split; [discriminate|]; split; [|reflexivity].
      intros _ name pkg Hin.
      pose proof (find_none _ _ Hfind _ Hin) as Hm; cbv beta iota in Hm.
      rewrite andb_true_r in Hm; assumption.
Qed.

(** ** The guarded branches *)

(** A reply that starts with [open_app] or [start_app] reaches the
    [open_app] branch. *)
Lemma open_app_runs_its_branch
    (dev : device) (ss : ChatPhone.session) (state : Snapshot.t)
    (reply : str) (log : list (event ChatPhone.message)) :
  startswith (lower reply) (u "open_app") = true
  \/ startswith (lower reply) (u "start_app") = true ->
  ChatPhone.dispatch dev ss state reply log
  = ChatPhone.do_open_app dev ss (Snapshot.current_app state) reply
      (log ++ [Print (ChatPhone.Action reply)]).
Proof.
  intros Hkw.
  assert (Hact : ChatPhone.is_action reply = true).
  { destruct Hkw as [H|H];
      [apply keyword_is_action with (kw := u "open_app")
      |apply keyword_is_action with (kw := u "start_app")];
      solve [assumption | in_literals]. }
  assert (Hbranch : startswith (lower reply) (u "open_app")
                    || startswith (lower reply) (u "start_app") = true)
    by (apply orb_true_iff; assumption).
  unfold ChatPhone.dispatch; rewrite Hact; unfold bind at 1, print at 1.
  rewrite Hbranch; reflexivity.
Qed.

(** Whatever the device does, an [open_app] or [start_app] reply never
    lets an exception out: the turn returns, after the echo of the reply it
    makes either no device call or a single [start_app], and it always ends
    on a report. *)
Theorem open_app_never_raises
    (dev : device) (ss : ChatPhone.session) (state : Snapshot.t)
    (reply : str) (log : list (event ChatPhone.message)) :
  startswith (lower reply) (u "open_app") = true
  \/ startswith (lower reply) (u "start_app") = true ->
  exists (calls : list call) (report : ChatPhone.message),
    ChatPhone.dispatch dev ss state reply log
    = (Ret tt, log ++ Print (ChatPhone.Action reply)
                      :: map Call calls ++ [Print report])
    /\ (calls = [] \/ exists package, calls = [start_app package]).
Proof.
  intros Hkw; rewrite (open_app_runs_its_branch dev ss state reply log Hkw).
  unfold ChatPhone.do_open_app.
  destruct (ChatPhone.find_app_package _ _) as [[|c package]|].
  - unfold try_except, bind, invoke, print.
    destruct (raises dev _ _);
      exists [start_app (after_space reply)]; eexists;
      (split; [flatten_log; reflexivity | right; eexists; reflexivity]).
  - destruct (str_in _ _).
    + exists []; eexists; split; [|left; reflexivity].
      unfold print; flatten_log; reflexivity.
    + unfold try_except, bind, invoke, print.
      destruct (raises dev _ _);
        exists [start_app (c :: package)]; eexists;
        (split; [flatten_log; reflexivity | right; eexists; reflexivity]).
  - unfold try_except, bind, invoke, print.
    destruct (raises dev _ _);
      exists [start_app (after_space reply)]; eexists;
      (split; [flatten_log; reflexivity | right; eexists; reflexivity]).
Qed.

Lemma open_app_never_raises_witness :
  exists (calls : list call) (report : ChatPhone.message),
    ChatPhone.dispatch (raising DeviceError) (default_session []) feed_screen
                       (u "START_APP zalo") []
    = (Ret tt, [] ++ Print (ChatPhone.Action (u "START_APP zalo"))
                     :: map Call calls ++ [Print report])
    /\ (calls = [] \/ exists package, calls = [start_app package]).
Proof.
  apply (@open_app_never_raises
           (raising DeviceError) (default_session []) feed_screen
           (u "START_APP zalo") []).
  right; reflexivity.
Defined.

(** When the resolver finds nothing, the argument itself is launched as a
    package identifier, in its original casing; the app is reported as not
    found only if that launch raises. *)
Theorem open_app_unresolved_is_launched_literally
    (dev : device) (ss : ChatPhone.session) (state : Snapshot.t)
    (reply : str) (log : list (event ChatPhone.message)) :
  startswith (lower reply) (u "open_app") = true
  \/ startswith (lower reply) (u "start_app") = true ->
  ChatPhone.find_app_package (ChatPhone.INSTALLED_PACKAGES ss)
                             (after_space reply) = None ->
  let app_name := after_space reply in
  ChatPhone.dispatch dev ss state reply log
  = (Ret tt,
     log ++ [Print (ChatPhone.Action reply);
             Call (start_app app_name);
             Print (match raises dev (calls_of log) (start_app app_name) with
                    | None => ChatPhone.OpenedLiteral app_name
                    | Some _ => ChatPhone.AppNotFound app_name
                    end)]).
Proof.
  intros Hkw Hmiss app_name.
  rewrite (open_app_runs_its_branch dev ss state reply log Hkw).
  unfold ChatPhone.do_open_app; rewrite Hmiss; fold app_name.
  unfold try_except, bind, invoke, print.
  rewrite calls_of_app; cbn [calls_of flat_map app]; rewrite app_nil_r.
  destruct (raises dev (calls_of log) (start_app app_name));
    flatten_log; reflexivity.
Qed.

Lemma open_app_unresolved_is_launched_literally_witness :
  ChatPhone.dispatch (scripted []) (default_session []) feed_screen
                     (u "open_app org.Demo.App") []
  = (Ret tt,
     [Print (ChatPhone.Action (u "open_app org.Demo.App"));
      Call (start_app (u "org.Demo.App"));
      Print (ChatPhone.OpenedLiteral (u "org.Demo.App"))]).
Proof.
  apply (@open_app_unresolved_is_launched_literally
           (scripted []) (default_session []) feed_screen
           (u "open_app org.Demo.App") []).
  - left; reflexivity.
  - vm_compute; reflexivity.
Defined.

(** Whatever the device does, a [search] reply never lets an exception
    out: the whole flow runs under [except Exception]. *)
Theorem search_never_raises
    (dev : device) (ss : ChatPhone.session) (state : Snapshot.t)
    (reply : str) (log : list (event ChatPhone.message)) :
  startswith (lower reply) (u "search") = true ->
  fst (ChatPhone.dispatch dev ss state reply log) = Ret tt.
Proof.
  intros Hkw; rewrite (search_runs_its_branch dev ss state reply log Hkw).
  unfold ChatPhone.do_search.
  destruct (after_space reply) as [|c keyword]; [reflexivity|].
  unfold bind at 1, print at 1, try_except.
  match goal with
  | |- context [let (_, _) := ?body ?l in _] =>
      destruct (body l) as [[[]|e] log']
  end; reflexivity.
Qed.

Lemma search_never_raises_witness :
  fst (ChatPhone.dispatch (faulty only_get_state_works [field_screen])
                          (default_session []) feed_screen (u "search cats") [])
  = Ret tt.
Proof.
  apply (@search_never_raises
           (faulty only_get_state_works [field_screen])
           (default_session []) feed_screen (u "search cats") []).
  reflexivity.
Defined.

(** On a device where only [get_state] works, the failed tap ends the flow
    with a report, and nothing else is tried. *)
Example search_reports_a_failed_tap :
  ChatPhone.dispatch (faulty only_get_state_works [field_screen])
                     (default_session []) feed_screen (u "search cats") []
  = (Ret tt,
     [Print (ChatPhone.Action (u "search cats"));
      Print (ChatPhone.SearchingFor (u "cats"));
      Call (tap 7);
      Print (ChatPhone.SearchFailed DeviceError)]).
Proof. vm_compute; reflexivity. Qed.

(** ** The single-call branches *)

(** A reply that starts with [tap] reaches the [tap] branch. *)
Lemma tap_runs_its_branch
    (dev : device) (ss : ChatPhone.session) (state : Snapshot.t)
    (reply : str) (log : list (event ChatPhone.message)) :
  startswith (lower reply) (u "tap") = true ->
  ChatPhone.dispatch dev ss state reply log
  = ChatPhone.do_tap dev reply (log ++ [Print (ChatPhone.Action reply)]).
Proof.
  intros H.
  assert (Hact : ChatPhone.is_action reply = true)
    by (apply keyword_is_action with (kw := u "tap");
        [in_literals | assumption]).
  apply startswith_prefix in H as (t & Ht).
  unfold ChatPhone.dispatch; rewrite Hact, Ht.
  unfold bind at 1, print at 1.
  decide_prefix_tests; reflexivity.
Qed.

(** A well-formed [tap k] hands [k] to the device as it is: nothing is
    looked up in the snapshot and no bound is checked.  When the call
    returns, the tap is reported; when the device itself raises
    [IndexError] or [ValueError], the turn still returns, and reports an
    invalid command although the call was made. *)
Theorem tap_passes_the_index_to_the_device
    (dev : device) (ss : ChatPhone.session) (state : Snapshot.t)
    (reply word : str) (k : Z) (log : list (event ChatPhone.message)) :
  startswith (lower reply) (u "tap") = true ->
  nth_error (split_ws reply) 1 = Some word ->
  int word = Some k ->
  (raises dev (calls_of log) (tap k) = None ->
   ChatPhone.dispatch dev ss state reply log
   = (Ret tt, log ++ [Print (ChatPhone.Action reply); Call (tap k);
                      Print (ChatPhone.Tapped k)]))
  /\ (forall e, raises dev (calls_of log) (tap k) = Some e ->
                index_or_value_error e = true ->
                ChatPhone.dispatch dev ss state reply log
                = (Ret tt, log ++ [Print (ChatPhone.Action reply); Call (tap k);
                                   Print ChatPhone.InvalidTap])).
Proof.
  intros Hkw Hword Hint.
  rewrite (tap_runs_its_branch dev ss state reply log Hkw).
  unfold ChatPhone.do_tap, try_except, int_arg; rewrite Hword, Hint.
  unfold bind, ret, invoke, print.
  rewrite calls_of_app; cbn [calls_of flat_map app]; rewrite app_nil_r.
  split.
  - intros ->; flatten_log; reflexivity.
  - intros e -> ->; flatten_log; reflexivity.
Qed.

Lemma tap_passes_the_index_to_the_device_witness :
  ChatPhone.dispatch (scripted []) (default_session []) feed_screen
                     (u "Tap 42 please") []
  = (Ret tt, [Print (ChatPhone.Action (u "Tap 42 please")); Call (tap 42);
              Print (ChatPhone.Tapped 42)])
  /\ ChatPhone.dispatch (raising ValueError) (default_session []) feed_screen
                        (u "tap 3") []
     = (Ret tt, [Print (ChatPhone.Action (u "tap 3")); Call (tap 3);
                 Print ChatPhone.InvalidTap]).
Proof.
  split.
  - apply (proj1 (@tap_passes_the_index_to_the_device
                    (scripted []) (default_session []) feed_screen
                    (u "Tap 42 please") (u "42") 42%Z []
                    eq_refl eq_refl eq_refl)).
    reflexivity.
  - apply (proj2 (@tap_passes_the_index_to_the_device
                    (raising ValueError) (default_session []) feed_screen
                    (u "tap 3") (u "3") 3%Z []
                    eq_refl eq_refl eq_refl) ValueError);
      reflexivity.
Defined.

Lemma chat_malformed_tap_is_reported_witness :
  ChatPhone.dispatch (raising DeviceError) (default_session []) feed_screen
                     (u "tap the first video") []
  = (Ret tt, [Print (ChatPhone.Action (u "tap the first video"));
              Print ChatPhone.InvalidTap]).
Proof.
  apply (@chat_malformed_tap_is_reported
           (raising DeviceError) (default_session []) feed_screen
           (u "tap the first video") []).
  - reflexivity.
  - intros word [= <-]; reflexivity.
Defined.

Lemma chat_malformed_long_press_is_reported_witness :
  ChatPhone.dispatch (raising DeviceError) (default_session []) feed_screen
                     (u "long_press") []
  = (Ret tt, [Print (ChatPhone.Action (u "long_press"));
              Print ChatPhone.InvalidLongPress]).
Proof.
  apply (@chat_malformed_long_press_is_reported
           (raising DeviceError) (default_session []) feed_screen
           (u "long_press") []).
  - reflexivity.
  - intros word H; discriminate H.
Defined.

(** An index written in Arabic-Indic digits is an integer like any other,
    and a numeral too long for [int] is a malformed command. *)
Example tap_reads_unicode_digits :
  ChatPhone.dispatch (scripted []) (default_session []) feed_screen
                     (u "tap ٣") []
  = (Ret tt, [Print (ChatPhone.Action (u "tap ٣"));
              Call (tap 3); Print (ChatPhone.Tapped 3)]).
Proof. vm_compute; reflexivity. Qed.

Example tap_refuses_long_numerals :
  ChatPhone.dispatch (scripted []) (default_session []) feed_screen
                     (u "tap " ++ repeat 0x31%N 4301) []
  = (Ret tt, [Print (ChatPhone.Action (u "tap " ++ repeat 0x31%N 4301));
              Print ChatPhone.InvalidTap]).
Proof. vm_compute; reflexivity. Qed.


(** [back], [home], [open_comments] and [close_comments] are compared
    with the whole reply.  A reply that starts with one of them and goes on
    (a full stop, a trailing space, a second word) is classified as an
    action and echoed, but no branch runs: no device call is made and
    nothing else is printed. *)
Theorem keyword_with_a_tail_runs_nothing
    (dev : device) (ss : ChatPhone.session) (state : Snapshot.t)
    (reply kw : str) (log : list (event ChatPhone.message)) :
  In kw [u "back"; u "home"; u "open_comments"; u "close_comments"] ->
  startswith (lower reply) kw = true ->
  lower reply <> kw ->
  ChatPhone.dispatch dev ss state reply log
  = (Ret tt, log ++ [Print (ChatPhone.Action reply)]).
Proof.
  intros Hin Hkw Hne.
  assert (Hact : ChatPhone.is_action reply = true).
  { apply keyword_is_action with (kw := kw); [|assumption].
    vm_compute in Hin |- *; intuition. }
  apply startswith_prefix in Hkw as (t & Ht).
  destruct t as [|c t]; [rewrite app_nil_r in Ht; contradiction|].
  unfold ChatPhone.dispatch; rewrite Hact, Ht.
  unfold bind at 1, print at 1.
  cbn [In] in Hin.
  destruct Hin as [<-|[<-|[<-|[<-|[]]]]];
    decide_prefix_tests; reflexivity.
Qed.

Lemma keyword_with_a_tail_runs_nothing_witness :
  ChatPhone.dispatch (scripted []) (default_session []) feed_screen
                     (u "Back.") []
  = (Ret tt, [Print (ChatPhone.Action (u "Back."))]).
Proof.
  apply (@keyword_with_a_tail_runs_nothing
           (scripted []) (default_session []) feed_screen
           (u "Back.") (u "back") []).
  - left; reflexivity.
  - reflexivity.
  - discriminate.
Defined.

(** A reply that starts with [input_text] types what follows its first
    space, in the original casing and with its inner spaces (nothing when
    the reply has no space), and reports it. *)
Theorem input_text_types_the_rest
    (dev : device) (ss : ChatPhone.session) (state : Snapshot.t)
    (reply : str) (log : list (event ChatPhone.message)) :
  reliable dev ->
  startswith (lower reply) (u "input_text") = true ->
  ChatPhone.dispatch dev ss state reply log
  = (Ret tt, log ++ [Print (ChatPhone.Action reply);
                     Call (input_text (after_space reply));
                     Print (ChatPhone.Typed (after_space reply))])
  /\ forall text, after_space (u "input_text " ++ text) = text.
Proof.
  intros Hdev H; split; [|intros text; reflexivity].
  assert (Hact : ChatPhone.is_action reply = true)
    by (apply keyword_is_action with (kw := u "input_text");
        [in_literals | assumption]).
  apply startswith_prefix in H as (t & Ht).
  unfold ChatPhone.dispatch; rewrite Hact, Ht.
  unfold bind at 1, print at 1.
  decide_prefix_tests; cbv beta iota delta [orb].
  unfold bind, print; rewrite (invoke_reliable _ _ Hdev).
  flatten_log; reflexivity.
Qed.

Lemma input_text_types_the_rest_witness :
  ChatPhone.dispatch (scripted []) (default_session []) feed_screen
                     (u "INPUT_TEXT Xin chào  Hà Nội") []
  = (Ret tt, [Print (ChatPhone.Action (u "INPUT_TEXT Xin chào  Hà Nội"));
              Call (input_text (u "Xin chào  Hà Nội"));
              Print (ChatPhone.Typed (u "Xin chào  Hà Nội"))]).
Proof.
  pose proof (proj1 (@input_text_types_the_rest
                       (scripted []) (default_session []) feed_screen
                       (u "INPUT_TEXT Xin chào  Hà Nội") []
                       (scripted_reliable _) eq_refl)) as H.
  vm_compute in H |- *; exact H.
Defined.

(** A reply that starts with [swipe] or [scroll] reaches the gesture
    branch. *)
Lemma swipe_runs_its_branch
    (dev : device) (ss : ChatPhone.session) (state : Snapshot.t)
    (reply : str) (log : list (event ChatPhone.message)) :
  startswith (lower reply) (u "swipe") = true
  \/ startswith (lower reply) (u "scroll") = true ->
  ChatPhone.dispatch dev ss state reply log
  = ChatPhone.do_swipe dev ss (lower reply)
      (log ++ [Print (ChatPhone.Action reply)]).
Proof.
  intros [H|H].
  - assert (Hact : ChatPhone.is_action reply = true)
      by (apply keyword_is_action with (kw := u "swipe");
          [in_literals | assumption]).
    apply startswith_prefix in H as (t & Ht).
    unfold ChatPhone.dispatch; rewrite Hact, Ht.
    unfold bind at 1, print at 1.
    decide_prefix_tests; reflexivity.
  - assert (Hact : ChatPhone.is_action reply = true)
      by (apply keyword_is_action with (kw := u "scroll");
          [in_literals | assumption]).
    apply startswith_prefix in H as (t & Ht).
    unfold ChatPhone.dispatch; rewrite Hact, Ht.
    unfold bind at 1, print at 1.
    decide_prefix_tests; reflexivity.
Qed.

(** For every screen size, [swipe] and [scroll] replies are treated
    alike, and the direction is looked for anywhere in the reply, [up]
    first: a reply that contains [up] swipes up, from a third of the
    height below the centre to a third above it in 300 ms; one that
    contains [down] and not [up] makes the reverse gesture; one that names
    no direction is reported and makes no device call. *)
Theorem vertical_swipes_on_any_screen
    (dev : device) (ss : ChatPhone.session) (state : Snapshot.t)
    (reply : str) (log : list (event ChatPhone.message)) :
  reliable dev ->
  startswith (lower reply) (u "swipe") = true
  \/ startswith (lower reply) (u "scroll") = true ->
  let cx := (ChatPhone.SCREEN_WIDTH ss / 2)%Z in
  let cy := (ChatPhone.SCREEN_HEIGHT ss / 2)%Z in
  let distance := (ChatPhone.SCREEN_HEIGHT ss / 3)%Z in
  (str_in (u "up") (lower reply) = true ->
   ChatPhone.dispatch dev ss state reply log
   = (Ret tt, log ++ [Print (ChatPhone.Action reply);
                      Call (swipe cx (cy + distance) cx (cy - distance) 300);
                      Print ChatPhone.SwipedUp]))
  /\ (str_in (u "up") (lower reply) = false ->
      str_in (u "down") (lower reply) = true ->
      ChatPhone.dispatch dev ss state reply log
      = (Ret tt, log ++ [Print (ChatPhone.Action reply);
                         Call (swipe cx (cy - distance) cx (cy + distance) 300);
                         Print ChatPhone.SwipedDown]))
  /\ (str_in (u "up") (lower reply) = false ->
      str_in (u "down") (lower reply) = false ->
      str_in (u "left") (lower reply) = false ->
      str_in (u "right") (lower reply) = false ->
      ChatPhone.dispatch dev ss state reply log
      = (Ret tt, log ++ [Print (ChatPhone.Action reply);
                         Print ChatPhone.UnknownSwipeDirection])).
Proof.
  intros Hdev Hkw cx cy distance.
  rewrite (swipe_runs_its_branch dev ss state reply log Hkw).
  unfold ChatPhone.do_swipe; fold cx cy distance.
  repeat split.
  - intros ->; unfold bind, print; rewrite (invoke_reliable _ _ Hdev).
    flatten_log; reflexivity.
  - intros -> ->; unfold bind, print; rewrite (invoke_reliable _ _ Hdev).
    flatten_log; reflexivity.
  - intros -> -> -> ->; unfold print; flatten_log; reflexivity.
Qed.

Lemma vertical_swipes_on_any_screen_witness :
  ChatPhone.dispatch (scripted [])
                     {| ChatPhone.SCREEN_WIDTH := 720;
                        ChatPhone.SCREEN_HEIGHT := 1280;
                        ChatPhone.INSTALLED_PACKAGES := [] |}
                     feed_screen (u "Scroll down to the update") []
  = (Ret tt, [Print (ChatPhone.Action (u "Scroll down to the update"));
              Call (swipe 360 1066 360 214 300);
              Print ChatPhone.SwipedUp]).
Proof.
  apply (proj1 (@vertical_swipes_on_any_screen
                  (scripted [])
                  {| ChatPhone.SCREEN_WIDTH := 720;
                     ChatPhone.SCREEN_HEIGHT := 1280;
                     ChatPhone.INSTALLED_PACKAGES := [] |}
                  feed_screen (u "Scroll down to the update") []
                  (scripted_reliable _) (or_intror eq_refl))).
  reflexivity.
Defined.

(** ** The scanning branches *)

Section Scans.

Variable dev : device.
Hypothesis Hdev : reliable dev.

Lemma tap_first_find (wanted : str -> bool) (done : ChatPhone.message)
    (elements : list UiElement.t) (log : list (event ChatPhone.message)) :
  ChatPhone.tap_first dev wanted done elements log
  = match find (fun e => wanted (ChatPhone.description e)) elements with
    | Some e =>
        (Ret true, log ++ [Call (tap (get (UiElement.index e) 0%Z)); Print done])
    | None => (Ret false, log)
    end.
Proof.
  induction elements as [|e rest IH]; [reflexivity|].
  cbn [ChatPhone.tap_first find].
  destruct (wanted (ChatPhone.description e)); [|apply IH].
  unfold bind, print, ret; rewrite (invoke_reliable _ _ Hdev).
  flatten_log; reflexivity.
Qed.

Lemma select_tab_scan_find (tab_name : str) (elements : list UiElement.t)
    (log : list (event ChatPhone.message)) :
  ChatPhone.select_tab_scan dev tab_name elements log
  = match find (is_tab tab_name) elements with
    | Some e =>
        (Ret true,
         log ++ [Call (tap (get (UiElement.index e) 0%Z));
                 Print (ChatPhone.SelectedTab (get (UiElement.text e) []))])
    | None => (Ret false, log)
    end.
Proof.
  induction elements as [|e rest IH]; [reflexivity|].
  cbn [ChatPhone.select_tab_scan find]; unfold is_tab.
  match goal with
  | |- context [if ?c then _ else _] => destruct c
  end; [|apply IH].
  unfold bind, print, ret; rewrite (invoke_reliable _ _ Hdev).
  flatten_log; reflexivity.
Qed.

(** The counting loop of [tap_video], started with [video_count] matches
    already seen: it taps the thumbnail that brings the count to
    [video_num], if there is one, and otherwise counts them all. *)
Lemma tap_video_scan_nth (video_num : Z) (elements : list UiElement.t) :
  forall (video_count : Z) (log : list (event ChatPhone.message)),
  ChatPhone.tap_video_scan dev video_num video_count elements log
  = match (if (video_count <? video_num)%Z
           then nth_error (filter is_thumbnail elements)
                          (Z.to_nat (video_num - video_count - 1))
           else None) with
    | Some e =>
        (Ret (true, video_num),
         log ++ [Call (tap (get (UiElement.index e) 0%Z));
                 Print (ChatPhone.TappedVideo video_num
                                              (get (UiElement.index e) 0%Z))])
    | None =>
        (Ret (false,
              (video_count
               + Z.of_nat (List.length (filter is_thumbnail elements)))%Z),
         log)
    end.
Proof.
  induction elements as [|e rest IH]; intros video_count log.
  - cbn [ChatPhone.tap_video_scan filter List.length nth_error].
    rewrite Z.add_0_r.
    destruct (video_count <? video_num)%Z;
      [destruct (Z.to_nat _)|]; reflexivity.
  - cbn [ChatPhone.tap_video_scan filter]; fold (is_thumbnail e).
    destruct (is_thumbnail e); [|apply IH].
    destruct (video_count + 1 =? video_num)%Z eqn:E.
    + apply Z.eqb_eq in E.
      assert (Hlt : (video_count <? video_num)%Z = true)
        by (apply Z.ltb_lt; lia).
      rewrite Hlt.
      replace (Z.to_nat (video_num - video_count - 1)) with 0%nat by lia.
      cbn [nth_error]; unfold bind, print, ret.
      rewrite (invoke_reliable _ _ Hdev); subst video_num.
      flatten_log; reflexivity.
    + apply Z.eqb_neq in E; rewrite IH; cbn [List.length].
      replace (video_count + 1 + Z.of_nat (List.length (filter is_thumbnail rest)))%Z
        with (video_count
              + Z.of_nat (S (List.length (filter is_thumbnail rest))))%Z
        by lia.
      destruct (video_count <? video_num)%Z eqn:Hlt;
        [apply Z.ltb_lt in Hlt | apply Z.ltb_ge in Hlt].
      * assert (Hlt' : (video_count + 1 <? video_num)%Z = true)
          by (apply Z.ltb_lt; lia).
        rewrite Hlt'.
        replace (Z.to_nat (video_num - video_count - 1))
          with (S (Z.to_nat (video_num - (video_count + 1) - 1))) by lia.
        reflexivity.
      * assert (Hlt' : (video_count + 1 <? video_num)%Z = false)
          by (apply Z.ltb_ge; lia).
        rewrite Hlt'; reflexivity.
Qed.

End Scans.

(** The [tap_video] branch, as written: with [n] the number in the reply
    and the thumbnails taken in snapshot order, it taps the element-supplied
    index of the [n]-th thumbnail, counting from 1, and nothing else; when
    [n] is below 1 or above the number of thumbnails it makes no device
    call and reports how many thumbnails are visible. *)
Theorem tap_video_taps_the_nth_thumbnail
    (dev : device) (elements : list UiElement.t)
    (reply word : str) (n : Z) (log : list (event ChatPhone.message)) :
  reliable dev ->
  nth_error (split_ws reply) 1 = Some word ->
  int word = Some n ->
  let thumbnails := filter is_thumbnail elements in
  ChatPhone.do_tap_video dev elements reply log
  = (Ret tt,
     log ++ match (if (0 <? n)%Z
                   then nth_error thumbnails (Z.to_nat (n - 1))
                   else None) with
            | Some e =>
                [Call (tap (get (UiElement.index e) 0%Z));
                 Print (ChatPhone.TappedVideo n (get (UiElement.index e) 0%Z))]
            | None =>
                [Print (ChatPhone.VideoNotFound
                          n (Z.of_nat (List.length thumbnails)))]
            end).
Proof.
  intros Hdev Hword Hint thumbnails.
  unfold ChatPhone.do_tap_video, try_except, int_arg; rewrite Hword, Hint.
  unfold bind at 1, ret at 1, bind at 1.
  rewrite (tap_video_scan_nth Hdev); fold thumbnails.
  replace (n - 0 - 1)%Z with (n - 1)%Z by lia.
  destruct (if (0 <? n)%Z then nth_error thumbnails (Z.to_nat (n - 1)) else None).
  - reflexivity.
  - unfold print; cbn [Z.add]; reflexivity.
Qed.

Lemma tap_video_taps_the_nth_thumbnail_witness :
  ChatPhone.do_tap_video (scripted []) (Snapshot.elements grid_screen)
                         (u "tap_video 2") []
  = (Ret tt, [Call (tap 12); Print (ChatPhone.TappedVideo 2 12)]).
Proof.
  apply (@tap_video_taps_the_nth_thumbnail
           (scripted []) (Snapshot.elements grid_screen)
           (u "tap_video 2") (u "2") 2%Z []
           (scripted_reliable _) eq_refl eq_refl).
Defined.




(** The comparison ignores case in every script. *)
Example select_tab_ignores_cyrillic_case :
  ChatPhone.dispatch (scripted []) (default_session []) russian_tabs_screen
                     (u "select_tab ВИДЕО") []
  = (Ret tt, [Print (ChatPhone.Action (u "select_tab ВИДЕО"));
              Call (tap 41);
              Print (ChatPhone.SelectedTab (u "Видео"))]).
Proof. vm_compute; reflexivity. Qed.


(** Decide the tests of the [elif] chain on a reply whose lower-cased text
    is a known literal. *)
Ltac decide_literal_tests :=
  repeat match goal with
         | |- context [startswith (u ?a) (u ?b)] =>
             let v := eval vm_compute in (startswith (u a) (u b)) in
             change (startswith (u a) (u b)) with v
         | |- context [eqb (u ?a) (u ?b)] =>
             let v := eval vm_compute in (eqb (u a) (u b)) in
             change (eqb (u a) (u b)) with v
         end;
  cbv beta iota delta [orb].

Lemma open_comments_runs_its_branch
    (dev : device) (ss : ChatPhone.session) (state : Snapshot.t)
    (reply : str) (log : list (event ChatPhone.message)) :
  lower reply = u "open_comments" ->
  ChatPhone.dispatch dev ss state reply log
  = ChatPhone.do_open_comments dev (Snapshot.elements state)
      (log ++ [Print (ChatPhone.Action reply)]).
Proof.
  intros H; unfold ChatPhone.dispatch, ChatPhone.is_action; rewrite H.
  change (existsb (startswith (u "open_comments")) ChatPhone.action_keywords)
    with true.
  unfold bind at 1, print at 1.
  decide_literal_tests; reflexivity.
Qed.

Lemma close_comments_runs_its_branch
    (dev : device) (ss : ChatPhone.session) (state : Snapshot.t)
    (reply : str) (log : list (event ChatPhone.message)) :
  lower reply = u "close_comments" ->
  ChatPhone.dispatch dev ss state reply log
  = ChatPhone.do_close_comments dev (Snapshot.elements state)
      (log ++ [Print (ChatPhone.Action reply)]).
Proof.
  intros H; unfold ChatPhone.dispatch, ChatPhone.is_action; rewrite H.
  change (existsb (startswith (u "close_comments")) ChatPhone.action_keywords)
    with true.
  unfold bind at 1, print at 1.
  decide_literal_tests; reflexivity.
Qed.

(** [open_comments] makes at most one tap.  An element whose description
    (its [contentDescription], or its text when that is empty) has both the
    comments word and the read word is preferred, wherever it stands; only
    when there is none is the first element that merely mentions comments
    tapped; when there is none either, the failure is reported. *)
Theorem open_comments_prefers_the_read_button
    (dev : device) (ss : ChatPhone.session) (state : Snapshot.t)
    (reply : str) (log : list (event ChatPhone.message)) :
  reliable dev ->
  lower reply = u "open_comments" ->
  ChatPhone.dispatch dev ss state reply log
  = (Ret tt,
     log ++ Print (ChatPhone.Action reply)
            :: match find reads_comments (Snapshot.elements state) with
               | Some e =>
                   [Call (tap (get (UiElement.index e) 0%Z));
                    Print ChatPhone.OpenedComments]
               | None =>
                   match find mentions_comments (Snapshot.elements state) with
                   | Some e =>
                       [Call (tap (get (UiElement.index e) 0%Z));
                        Print ChatPhone.OpenedComments]
                   | None => [Print ChatPhone.CommentButtonNotFound]
                   end
               end).
Proof.
  intros Hdev H.
  rewrite (open_comments_runs_its_branch dev ss state reply log H).
  unfold ChatPhone.do_open_comments, bind.
  rewrite (tap_first_find Hdev).
  change (find (fun e => _) (Snapshot.elements state))
    with (find reads_comments (Snapshot.elements state)).
  destruct (find reads_comments _).
  - unfold ret; flatten_log; reflexivity.
  - rewrite (tap_first_find Hdev).
    change (find (fun e => _) (Snapshot.elements state))
      with (find mentions_comments (Snapshot.elements state)).
    destruct (find mentions_comments _);
      unfold ret, print; flatten_log; reflexivity.
Qed.

Lemma open_comments_prefers_the_read_button_witness :
  ChatPhone.dispatch (scripted []) (default_session []) video_screen
                     (u "open_comments") []
  = (Ret tt, [Print (ChatPhone.Action (u "open_comments"));
              Call (tap 22);
              Print ChatPhone.OpenedComments]).
Proof.
  apply (@open_comments_prefers_the_read_button
           (scripted []) (default_session []) video_screen
           (u "open_comments") []).
  - apply scripted_reliable.
  - reflexivity.
Defined.

(** [close_comments] always makes exactly one device call: a tap on the
    first element whose description has the close word, or, when the
    snapshot has none, [back]; either way the comments are reported
    closed. *)
Theorem close_comments_makes_one_call
    (dev : device) (ss : ChatPhone.session) (state : Snapshot.t)
    (reply : str) (log : list (event ChatPhone.message)) :
  reliable dev ->
  lower reply = u "close_comments" ->
  ChatPhone.dispatch dev ss state reply log
  = (Ret tt,
     log ++ Print (ChatPhone.Action reply)
            :: match find closes_comments (Snapshot.elements state) with
               | Some e =>
                   [Call (tap (get (UiElement.index e) 0%Z));
                    Print ChatPhone.ClosedComments]
               | None => [Call back; Print ChatPhone.ClosedCommentsBack]
               end).
Proof.
  intros Hdev H.
  rewrite (close_comments_runs_its_branch dev ss state reply log H).
  unfold ChatPhone.do_close_comments, bind.
  rewrite (tap_first_find Hdev).
  change (find (fun e => _) (Snapshot.elements state))
    with (find closes_comments (Snapshot.elements state)).
  destruct (find closes_comments _).
  - unfold ret; flatten_log; reflexivity.
  - rewrite (invoke_reliable _ _ Hdev); unfold print.
    flatten_log; reflexivity.
Qed.

Lemma close_comments_makes_one_call_witness :
  ChatPhone.dispatch (scripted []) (default_session []) feed_screen
                     (u "Close_Comments") []
  = (Ret tt, [Print (ChatPhone.Action (u "Close_Comments"));
              Call back;
              Print ChatPhone.ClosedCommentsBack]).
Proof.
  apply (@close_comments_makes_one_call
           (scripted []) (default_session []) feed_screen
           (u "Close_Comments") []).
  - apply scripted_reliable.
  - reflexivity.
Defined.

(** ** Sessions on a device that does not raise *)

Section Returns.

Variable msg : Type.

Lemma returns_ret {A : Type} (a : A) : returns (@ret msg A a).
Proof. intros log; exists a, log; reflexivity. Qed.

Lemma returns_print (m : msg) : returns (print m).
Proof. intros log; eexists; eexists; reflexivity. Qed.

Lemma returns_bind {A B : Type} (m : M msg A) (k : A -> M msg B) :
  returns m -> (forall a, returns (k a)) -> returns (bind m k).
Proof.
  intros Hm Hk log; destruct (Hm log) as (a & log' & E).
  destruct (Hk a log') as (b & log'' & E').
  exists b, log''; unfold bind; rewrite E; assumption.
Qed.

Lemma returns_invoke (dev : device) (c : call) :
  reliable dev -> returns (@invoke msg dev c).
Proof.
  intros Hdev log; eexists; eexists; apply invoke_reliable; assumption.
Qed.

(** A block under [except Exception] whose handler returns, returns. *)
Lemma returns_try_any {A : Type} (body : M msg A) (handler : exn -> M msg A) :
  (forall e, returns (handler e)) ->
  returns (try_except body any_exception handler).
Proof.
  intros Hh log; unfold try_except.
  destruct (body log) as [[a|e] log'].
  - exists a, log'; reflexivity.
  - apply Hh.
Qed.

(** A block that raises nothing but what its [except] clause names, and
    whose handler returns, returns. *)
Lemma returns_try_caught {A : Type} (body : M msg A) (caught : exn -> bool)
    (handler : exn -> M msg A) :
  (forall log, match fst (body log) with
               | Ret _ => True
               | Raise e => caught e = true
               end) ->
  (forall e, returns (handler e)) ->
  returns (try_except body caught handler).
Proof.
  intros Hb Hh log; unfold try_except; specialize (Hb log).
  destruct (body log) as [[a|e] log']; simpl in Hb.
  - exists a, log'; reflexivity.
  - rewrite Hb; apply Hh.
Qed.

End Returns.

Section ReliableSession.

Variable dev : device.
Hypothesis Hdev : reliable dev.
Variable ss : ChatPhone.session.

(** The argument of [tap], [long_press] and [tap_video] raises nothing but
    [IndexError] and [ValueError]. *)
Lemma int_arg_outcome (reply : str) (log : list (event ChatPhone.message)) :
  (exists k, int_arg reply log = (Ret k, log))
  \/ (exists e, int_arg reply log = (Raise e, log)
                /\ index_or_value_error e = true).
Proof.
  unfold int_arg; destruct (nth_error _ _) as [word|].
  - destruct (int word) as [k|].
    + left; exists k; reflexivity.
    + right; exists ValueError; split; reflexivity.
  - right; exists IndexError; split; reflexivity.
Qed.

Lemma do_open_app_returns (current_app reply : str) :
  returns (ChatPhone.do_open_app dev ss current_app reply).
Proof.
  unfold ChatPhone.do_open_app.
  destruct (ChatPhone.find_app_package _ _) as [[|c package]|];
    try destruct (str_in _ _);
    first [apply returns_print
          | apply returns_try_any; intros e; apply returns_print].
Qed.

Lemma do_tap_returns (reply : str) : returns (ChatPhone.do_tap dev reply).
Proof.
  apply returns_try_caught; [|intros e; apply returns_print].
  intros log; unfold bind.
  destruct (int_arg_outcome reply log) as [(k & ->)|(e & -> & He)];
    [|exact He].
  rewrite (invoke_reliable _ _ Hdev); exact I.
Qed.

Lemma do_swipe_returns (reply_lower : str) :
  returns (ChatPhone.do_swipe dev ss reply_lower).
Proof.
  unfold ChatPhone.do_swipe.
  repeat match goal with
         | |- context [if ?c then _ else _] => destruct c
         end;
    first [apply returns_print
          | apply returns_bind;
            [apply returns_invoke; assumption
            |intros _; apply returns_print]].
Qed.

Lemma do_long_press_returns (elements : list UiElement.t) (reply : str) :
  returns (ChatPhone.do_long_press dev ss elements reply).
Proof.
  apply returns_try_caught; [|intros e; apply returns_print].
  intros log; unfold bind at 1.
  destruct (int_arg_outcome reply log) as [(k & ->)|(e & -> & He)];
    [|exact He].
  destruct (k <? _)%Z; [|exact I].
  unfold getitem.
  destruct (_ || _)%bool; [reflexivity|].
  destruct (nth_error _ _); [|reflexivity].
  unfold bind; rewrite (invoke_reliable _ _ Hdev); exact I.
Qed.

Lemma do_search_returns (elements : list UiElement.t) (reply : str) :
  returns (ChatPhone.do_search dev elements reply).
Proof.
  unfold ChatPhone.do_search.
  destruct (after_space reply); [apply returns_print|].
  apply returns_bind; [apply returns_print|intros _].
  apply returns_try_any; intros e; apply returns_print.
Qed.

Lemma do_tap_video_returns (elements : list UiElement.t) (reply : str) :
  returns (ChatPhone.do_tap_video dev elements reply).
Proof.
  apply returns_try_caught; [|intros e; apply returns_print].
  intros log; unfold bind at 1.
  destruct (int_arg_outcome reply log) as [(k & ->)|(e & -> & He)];
    [|exact He].
  unfold bind; rewrite (tap_video_scan_nth Hdev).
  destruct (if (0 <? k)%Z then _ else _); exact I.
Qed.

Lemma do_select_tab_returns (elements : list UiElement.t) (reply : str) :
  returns (ChatPhone.do_select_tab dev elements reply).
Proof.
  unfold ChatPhone.do_select_tab.
  destruct (after_space reply); [apply returns_print|].
  intros log; unfold bind; rewrite (select_tab_scan_find Hdev).
  destruct (find _ _); eexists; eexists; reflexivity.
Qed.

Lemma do_open_comments_returns (elements : list UiElement.t) :
  returns (ChatPhone.do_open_comments dev elements).
Proof.
  intros log; unfold ChatPhone.do_open_comments, bind.
  rewrite (tap_first_find Hdev).
  destruct (find _ _); [eexists; eexists; reflexivity|].
  rewrite (tap_first_find Hdev).
  destruct (find _ _); eexists; eexists; reflexivity.
Qed.

Lemma do_close_comments_returns (elements : list UiElement.t) :
  returns (ChatPhone.do_close_comments dev elements).
Proof.
  intros log; unfold ChatPhone.do_close_comments, bind.
  rewrite (tap_first_find Hdev).
  destruct (find _ _); [eexists; eexists; reflexivity|].
  rewrite (invoke_reliable _ _ Hdev); eexists; eexists; reflexivity.
Qed.

(** No reply makes [dispatch] raise on such a device: every fault of the
    reply itself (a missing or malformed number, an index out of range) is
    handled inside its branch. *)
Lemma dispatch_returns (state : Snapshot.t) (reply : str) :
  returns (ChatPhone.dispatch dev ss state reply).
Proof.
  unfold ChatPhone.dispatch.
  destruct (ChatPhone.is_action reply); [|apply returns_print].
  apply returns_bind; [apply returns_print|intros _].
  repeat match goal with
         | |- returns (if ?c then _ else _) => destruct c
         end;
    first [ apply do_open_app_returns
          | apply do_tap_returns
          | apply do_swipe_returns
          | apply do_long_press_returns
          | apply do_search_returns
          | apply do_tap_video_returns
          | apply do_select_tab_returns
          | apply do_open_comments_returns
          | apply do_close_comments_returns
          | apply returns_ret
          | apply returns_bind;
            [apply returns_invoke; assumption
            |intros _; apply returns_print] ].
Qed.

End ReliableSession.

(** On a device that never raises, no sequence of user lines and model
    answers (a text, no text, or a failed call) makes the loop raise: the
    session always returns, and the last line it prints is the goodbye of
    [quit] or of the end of input. *)
Theorem reliable_session_ends_with_bye
    (dev : device) (ss : ChatPhone.session)
    (inputs : list (str * ChatPhone.answer)) :
  reliable dev ->
  forall (vision_mode : bool) (log : list (event ChatPhone.message)),
  exists log',
    ChatPhone.main_loop dev ss vision_mode inputs log
    = (Ret tt, log' ++ [Print ChatPhone.Bye]).
Proof.
  intros Hdev; induction inputs as [|[line response] rest IH];
    intros vision_mode log.
  - exists log; reflexivity.
  - cbn [ChatPhone.main_loop].
    destruct (strip line) as [|c goal]; [apply IH|].
    destruct (eqb _ _); [exists log; reflexivity|].
    destruct (eqb _ _); [unfold bind, print; apply IH|].
    destruct (eqb _ _); [unfold bind, print; apply IH|].
    unfold bind at 1; rewrite (fetch_state_reliable _ Hdev).
    unfold bind at 1.
    assert (Hshot : exists log1,
               (if vision_mode then invoke dev take_screenshot else ret tt)
                 (log ++ [Call get_state]) = (Ret tt, log1)).
    { destruct vision_mode;
        [rewrite (invoke_reliable _ _ Hdev)|]; eexists; reflexivity. }
    destruct Hshot as (log1 & ->).
    destruct response as [|t|].
    + unfold bind, print; apply IH.
    + unfold bind at 1.
      destruct (dispatch_returns Hdev ss (state_at dev (calls_of log))
                                 (first_line (strip t)) log1)
        as ([] & log2 & ->).
      unfold bind, print; apply IH.
    + unfold bind, print; apply IH.
Qed.

Lemma reliable_session_ends_with_bye_witness :
  exists log',
    ChatPhone.main_loop (scripted [two_buttons]) (default_session []) true
      [(u "hold the last one", ChatPhone.Text (u "long_press 7"));
       (u "  ", ChatPhone.NoText);
       (u "tap it", ChatPhone.Text (u "tap"));
       (u "hello", ChatPhone.ApiError);
       (u "QUIT", ChatPhone.NoText);
       (u "tap it", ChatPhone.Text (u "tap 1"))] []
    = (Ret tt, log' ++ [Print ChatPhone.Bye]).
Proof.
  apply (@reliable_session_ends_with_bye
           (scripted [two_buttons]) (default_session [])).
  apply scripted_reliable.
Defined.

(** ** The harness *)

Lemma startswith_str_in (s p : str) :
  startswith s p = true -> str_in p s = true.
Proof. intros H; destruct s; simpl; rewrite H; reflexivity. Qed.

(** The harness looks for [swipe] anywhere in a reply that none of the
    earlier tests took, so a sentence that merely mentions swiping is
    executed.  It knows two directions only, on its fixed 1080 x 2400
    screen: with [up] it swipes from (540, 2000) to (540, 400), with [down]
    and no [up] the reverse; with neither (a swipe to the left or right
    included) it makes no device call and prints nothing. *)
Theorem harness_swipe_knows_up_and_down
    (dev : device) (state : Snapshot.t) (reply : str)
    (log : list (event TestCommand.message)) :
  reliable dev ->
  startswith (lower reply) (u "open_app") = false ->
  startswith (lower reply) (u "tap") = false ->
  lower reply <> u "back" ->
  lower reply <> u "home" ->
  str_in (u "swipe") (lower reply) = true ->
  (str_in (u "up") (lower reply) = true ->
   TestCommand.dispatch dev state reply log
   = (Ret tt, log ++ [Call (swipe 540 2000 540 400 300);
                      Print TestCommand.SwipedUp]))
  /\ (str_in (u "up") (lower reply) = false ->
      str_in (u "down") (lower reply) = true ->
      TestCommand.dispatch dev state reply log
      = (Ret tt, log ++ [Call (swipe 540 400 540 2000 300);
                         Print TestCommand.SwipedDown]))
  /\ (str_in (u "up") (lower reply) = false ->
      str_in (u "down") (lower reply) = false ->
      TestCommand.dispatch dev state reply log = (Ret tt, log)).
Proof.
  intros Hdev Hopen Htap Hback Hhome Hswipe.
  assert (Eback : eqb (lower reply) (u "back") = false)
    by (apply not_true_is_false; intros E; apply eqb_eq in E; contradiction).
  assert (Ehome : eqb (lower reply) (u "home") = false)
    by (apply not_true_is_false; intros E; apply eqb_eq in E; contradiction).
  unfold TestCommand.dispatch.
  rewrite Hopen, Htap, Eback, Ehome, Hswipe.
  change (TestCommand.SCREEN_WIDTH / 2)%Z with 540%Z.
  change (TestCommand.SCREEN_HEIGHT / 2)%Z with 1200%Z.
  change (TestCommand.SCREEN_HEIGHT / 3)%Z with 800%Z.
  change (1200 + 800)%Z with 2000%Z; change (1200 - 800)%Z with 400%Z.
  repeat split.
  - intros ->; unfold bind, print; rewrite (invoke_reliable _ _ Hdev).
    flatten_log; reflexivity.
  - intros -> ->; unfold bind, print; rewrite (invoke_reliable _ _ Hdev).
    flatten_log; reflexivity.
  - intros -> ->; reflexivity.
Qed.

Lemma harness_swipe_knows_up_and_down_witness :
  TestCommand.dispatch (scripted []) feed_screen
                       (u "You could swipe up to see more.") []
  = (Ret tt, [Call (swipe 540 2000 540 400 300); Print TestCommand.SwipedUp])
  /\ TestCommand.dispatch (scripted []) feed_screen (u "swipe left") []
     = (Ret tt, []).
Proof.
  split.
  - apply (proj1 (@harness_swipe_knows_up_and_down
                    (scripted []) feed_screen
                    (u "You could swipe up to see more.") []
                    (scripted_reliable _) eq_refl eq_refl
                    ltac:(discriminate) ltac:(discriminate) eq_refl)).
    reflexivity.
  - apply (proj2 (proj2 (@harness_swipe_knows_up_and_down
                           (scripted []) feed_screen (u "swipe left") []
                           (scripted_reliable _) eq_refl eq_refl
                           ltac:(discriminate) ltac:(discriminate) eq_refl)));
      reflexivity.
Defined.

(** Every package of the harness registry is a non-empty string. *)
Lemma harness_packages_are_named (app_name package : str) :
  TestCommand.find_app_package app_name = Some package -> package <> [].
Proof.
  unfold TestCommand.find_app_package.
  assert (Hall : forall name pkg,
             In (name, pkg) TestCommand.APP_PACKAGES -> pkg <> []).
  { intros name pkg Hin; vm_compute in Hin.
    repeat (destruct Hin as [[= <- <-] | Hin]; [discriminate|]).
    destruct Hin. }
  destruct (dict_get _ _) as [pkg|] eqn:E.
  - intros [= <-]; apply dict_get_In in E; eapply Hall; eassumption.
  - destruct (find _ _) as [[name pkg]|] eqn:F; [|discriminate].
    intros [= <-]; apply find_some in F as [F _]; eapply Hall; eassumption.
Qed.

(** In the harness [open_app] has no already-open test and no literal
    fallback: a resolved package is launched whatever the current app is,
    and an unresolved name is reported with no device call. *)
Theorem harness_open_app_always_launches
    (dev : device) (state : Snapshot.t) (reply : str)
    (log : list (event TestCommand.message)) :
  reliable dev ->
  startswith (lower reply) (u "open_app") = true ->
  let app_name := after_space reply in
  TestCommand.dispatch dev state reply log
  = (Ret tt,
     log ++ match TestCommand.find_app_package app_name with
            | Some package =>
                [Print (TestCommand.Opening app_name package);
                 Call (start_app package);
                 Print TestCommand.DoneResult]
            | None => [Print (TestCommand.AppNotFound app_name)]
            end).
Proof.
  intros Hdev Hkw app_name.
  unfold TestCommand.dispatch; rewrite Hkw; fold app_name.
  destruct (TestCommand.find_app_package app_name) as [package|] eqn:E.
  - pose proof (harness_packages_are_named _ E) as Hne.
    destruct package as [|c package]; [contradiction Hne; reflexivity|].
    unfold bind, print; rewrite (invoke_reliable _ _ Hdev).
    flatten_log; reflexivity.
  - reflexivity.
Qed.

Lemma harness_open_app_always_launches_witness :
  TestCommand.dispatch (scripted []) feed_screen (u "open_app TikTok") []
  = (Ret tt,
     [Print (TestCommand.Opening (u "TikTok") (u "com.ss.android.ugc.trill"));
      Call (start_app (u "com.ss.android.ugc.trill"));
      Print TestCommand.DoneResult]).
Proof.
  apply (@harness_open_app_always_launches
           (scripted []) feed_screen (u "open_app TikTok") []).
  - apply scripted_reliable.
  - reflexivity.
Defined.

Lemma harness_resolve_exact_key_witness :
  TestCommand.find_app_package (u "settings") = Some (u "com.android.settings").
Proof.
  apply (@harness_resolve_exact_key (u "settings") (u "com.android.settings")).
  in_literals.
Defined.

(** ** Stripping and splitting *)

(** Turn boolean tests on code points into arithmetic. *)
Ltac code_point_arith :=
  repeat rewrite ?andb_true_iff, ?orb_true_iff, ?andb_false_iff,
    ?orb_false_iff, ?negb_true_iff, ?negb_false_iff,
    ?N.leb_le, ?N.leb_gt, ?N.eqb_eq, ?N.eqb_neq in *;
  lia.

Lemma forallb_impl {A : Type} (p q : A -> bool) (l : list A) :
  (forall x, p x = true -> q x = true) ->
  forallb p l = true -> forallb q l = true.
Proof.
  intros H; rewrite !forallb_forall; intros Hp x Hx; apply H, Hp, Hx.
Qed.

Lemma digit_is_not_space (c : N) : is_digit c = true -> isspace c = false.
Proof. unfold is_digit, isspace; intros H; code_point_arith. Qed.

Lemma strip_is_rstrip_lstrip (s : str) : strip s = rstrip (lstrip s).
Proof. reflexivity. Qed.

Lemma rstrip_snoc (s : str) (c : N) :
  rstrip (s ++ [c]) = if isspace c then rstrip s else s ++ [c].
Proof.
  unfold rstrip; rewrite rev_app_distr; cbn [rev app lstrip].
  destruct (isspace c); [reflexivity|].
  cbn [rev]; rewrite rev_involutive; reflexivity.
Qed.

Lemma rstrip_app_blank (a b : str) :
  blank b = true -> rstrip (a ++ b) = rstrip a.
Proof.
  induction b as [|c b IH] using rev_ind; intros Hb.
  - rewrite app_nil_r; reflexivity.
  - unfold blank in Hb; rewrite forallb_app in Hb.
    apply andb_true_iff in Hb as [Hb Hc]; cbn in Hc.
    rewrite andb_true_r in Hc.
    rewrite app_assoc, rstrip_snoc, Hc; apply IH; assumption.
Qed.

(** A string that ends on a digit is left alone by [rstrip], and one that
    starts with a digit by [lstrip]. *)
Lemma rstrip_digits_end (a b : str) :
  b <> [] -> all_digits b = true -> rstrip (a ++ b) = a ++ b.
Proof.
  intros Hne Hb; destruct (exists_last Hne) as (b' & d & ->).
  unfold all_digits in Hb; rewrite forallb_app in Hb.
  apply andb_true_iff in Hb as [_ Hd]; cbn in Hd; rewrite andb_true_r in Hd.
  rewrite app_assoc, rstrip_snoc, (digit_is_not_space _ Hd); reflexivity.
Qed.

Lemma lstrip_digits_start (a s : str) :
  a <> [] -> all_digits a = true -> lstrip (a ++ s) = a ++ s.
Proof.
  destruct a as [|d a]; [contradiction|]; intros _ Ha.
  cbn in Ha; apply andb_true_iff in Ha as [Hd _].
  cbn [app lstrip]; rewrite (digit_is_not_space _ Hd); reflexivity.
Qed.

(** [split]: code points that differ from the first one of the separator
    are read into the current piece. *)
Lemma split_from_pass (c0 : N) (sep a : str) :
  forallb (fun d => negb (d =? c0)%N) a = true ->
  forall (s cur : str),
  split_from (c0 :: sep) (a ++ s) cur 0
  = split_from (c0 :: sep) s (rev a ++ cur) 0.
Proof.
  induction a as [|d a IH]; intros Ha s cur; [reflexivity|].
  cbn in Ha; apply andb_true_iff in Ha as [Hd Ha].
  cbn [app split_from startswith].
  apply negb_true_iff in Hd; rewrite Hd; cbn [andb].
  rewrite (IH Ha); cbn [rev]; rewrite <- app_assoc; reflexivity.
Qed.

Lemma split_from_skip (sep p : str) :
  forall (s cur : str),
  split_from sep (p ++ s) cur (List.length p) = split_from sep s cur 0.
Proof.
  induction p as [|c p IH]; intros s cur; [destruct s; reflexivity|].
  cbn [app List.length split_from]; apply IH.
Qed.

(** At an occurrence of the separator the current piece ends. *)
Lemma split_from_hit (c0 : N) (sep s cur : str) :
  split_from (c0 :: sep) ((c0 :: sep) ++ s) cur 0
  = rev cur :: split_from (c0 :: sep) s [] 0.
Proof.
  cbn [app split_from].
  assert (H : startswith (c0 :: sep ++ s) (c0 :: sep) = true)
    by (apply startswith_prefix; exists s; reflexivity).
  rewrite H; cbn [List.length]; rewrite Nat.sub_succ, Nat.sub_0_r.
  rewrite split_from_skip; reflexivity.
Qed.

Lemma split_from_rest (c0 : N) (sep a cur : str) :
  forallb (fun d => negb (d =? c0)%N) a = true ->
  split_from (c0 :: sep) a cur 0 = [rev cur ++ a].
Proof.
  intros Ha; rewrite <- (app_nil_r a) at 1.
  rewrite split_from_pass by assumption; cbn [split_from].
  rewrite rev_app_distr, rev_involutive; reflexivity.
Qed.

Lemma digits_avoid (c0 : N) (a : str) :
  is_digit c0 = false -> all_digits a = true ->
  forallb (fun d => negb (d =? c0)%N) a = true.
Proof.
  intros Hc; apply forallb_impl; intros d Hd.
  apply negb_true_iff, N.eqb_neq; intros ->; congruence.
Qed.

Lemma blank_avoids (c0 : N) (a : str) :
  isspace c0 = false -> blank a = true ->
  forallb (fun d => negb (d =? c0)%N) a = true.
Proof.
  intros Hc; apply forallb_impl; intros d Hd.
  apply negb_true_iff, N.eqb_neq; intros ->; congruence.
Qed.

(** ** Start-up *)

(** What follows the marker of a one-line [wm size] output, once
    stripped and split at [x]. *)
Lemma size_line_pieces (a b tail : str) :
  a <> [] -> b <> [] ->
  all_digits a = true -> all_digits b = true -> blank tail = true ->
  split (u "x") (strip (u " " ++ a ++ u "x" ++ b ++ tail)) = [a; b].
Proof.
  intros Ha Hb Da Db Ht.
  rewrite strip_is_rstrip_lstrip.
  change (u " " ++ a ++ u "x" ++ b ++ tail)
    with (32%N :: a ++ u "x" ++ b ++ tail).
  cbn [lstrip]; change (isspace 32) with true; cbv iota.
  rewrite lstrip_digits_start by assumption.
  rewrite !app_assoc, rstrip_app_blank by assumption.
  rewrite rstrip_digits_end by assumption.
  rewrite <- app_assoc; unfold split.
  change (u "x") with [120%N].
  rewrite split_from_pass by (apply digits_avoid; [reflexivity|assumption]).
  rewrite split_from_hit, split_from_rest
    by (apply digits_avoid; [reflexivity|assumption]).
  rewrite app_nil_r, rev_involutive; reflexivity.
Qed.

(** What follows the last marker when the output starts with the marker
    and has no capital P after it. *)
Lemma size_marker_once (rest : str) :
  forallb (fun d => negb (d =? 0x50)%N) rest = true ->
  str_in (u "Physical size:") (u "Physical size:" ++ rest) = true
  /\ last (split (u "Physical size:") (u "Physical size:" ++ rest)) [] = rest.
Proof.
  intros Hrest; split.
  - apply startswith_str_in, startswith_prefix; exists rest; reflexivity.
  - unfold split.
    change (u "Physical size:") with (0x50%N :: u "hysical size:").
    rewrite split_from_hit, split_from_rest by assumption; reflexivity.
Qed.

(** When [wm size] prints one [Physical size: WxH] line, with [W] and [H]
    written in decimal digits, both scripts take [W] and [H] as the screen
    size; chat-phone.py stores them, keeps the installed set, and prints the
    size. *)
Theorem wm_size_is_read
    (a b tail : str) (width height : Z) (ss : ChatPhone.session) :
  a <> [] -> b <> [] ->
  all_digits a = true -> all_digits b = true -> blank tail = true ->
  int a = Some width -> int b = Some height ->
  let size_output := u "Physical size: " ++ a ++ u "x" ++ b ++ tail in
  query_screen_size (Ret size_output) ss
  = ({| ChatPhone.SCREEN_WIDTH := width;
        ChatPhone.SCREEN_HEIGHT := height;
        ChatPhone.INSTALLED_PACKAGES := ChatPhone.INSTALLED_PACKAGES ss |},
     [ScreenSize width height])
  /\ features_screen_size size_output = Ret (width, height).
Proof.
  intros Ha Hb Da Db Ht Hw Hh size_output.
  assert (Hparse : parse_size size_output = Some (Ret (width, height))).
  { unfold parse_size, size_output.
    change (u "Physical size: " ++ a ++ u "x" ++ b ++ tail)
      with (u "Physical size:" ++ (u " " ++ a ++ u "x" ++ b ++ tail)).
    destruct (@size_marker_once (u " " ++ a ++ u "x" ++ b ++ tail))
      as [Hin Hlast].
    { change (u " ") with [32%N]; change (u "x") with [120%N].
      cbn [app forallb]; repeat (rewrite forallb_app; cbn [app forallb]).
      rewrite (digits_avoid 0x50 a), (digits_avoid 0x50 b),
        (blank_avoids 0x50 tail) by (reflexivity || assumption).
      reflexivity. }
    rewrite Hin, Hlast, size_line_pieces by assumption.
    cbn [map]; rewrite Hw, Hh; reflexivity. }
  unfold query_screen_size, features_screen_size; rewrite Hparse.
  split; reflexivity.
Qed.

Lemma wm_size_is_read_witness :
  query_screen_size (Ret (u "Physical size: 720x1280
")) initial_session
  = ({| ChatPhone.SCREEN_WIDTH := 720;
        ChatPhone.SCREEN_HEIGHT := 1280;
        ChatPhone.INSTALLED_PACKAGES := [] |},
     [ScreenSize 720 1280])
  /\ features_screen_size (u "Physical size: 720x1280
") = Ret (720, 1280)%Z.
Proof.
  apply (@wm_size_is_read (u "720") (u "1280") [10%N] 720%Z 1280%Z
                          initial_session);
    solve [discriminate | reflexivity].
Defined.

(** When the device runs at an overridden resolution, [wm size] prints an
    [Override size:] line after the physical one.  What follows the marker
    then splits at [x] into three pieces, the unpacking raises
    [ValueError], and neither size is read: chat-phone.py swallows the
    exception, keeps the sizes it had and prints nothing, while
    test-features.py lets the exception out. *)
Theorem override_size_defeats_the_parse
    (a b a' b' tail : str) (ss : ChatPhone.session) :
  a <> [] -> b' <> [] ->
  all_digits a = true -> all_digits b = true ->
  all_digits a' = true -> all_digits b' = true -> blank tail = true ->
  let size_output :=
    u "Physical size: " ++ a ++ u "x" ++ b
    ++ [10%N] ++ u "Override size: " ++ a' ++ u "x" ++ b' ++ tail in
  query_screen_size (Ret size_output) ss = (ss, [])
  /\ features_screen_size size_output = Raise ValueError.
Proof.
  intros Ha Hb' Da Db Da' Db' Ht size_output.
  set (mid := [10%N] ++ u "Override size: ").
  assert (Hparse : parse_size size_output = Some (Raise ValueError)).
  { unfold parse_size, size_output.
    change (u "Physical size: " ++ a ++ u "x" ++ b ++ [10%N]
            ++ u "Override size: " ++ a' ++ u "x" ++ b' ++ tail)
      with (u "Physical size:"
            ++ (32%N :: a ++ [120%N] ++ b ++ mid ++ a' ++ [120%N] ++ b' ++ tail)).
    destruct (@size_marker_once
                (32%N :: a ++ [120%N] ++ b ++ mid ++ a' ++ [120%N] ++ b' ++ tail))
      as [Hin Hlast].
    { cbn [app forallb]; repeat (rewrite forallb_app; cbn [app forallb]).
      rewrite (digits_avoid 0x50 a), (digits_avoid 0x50 b),
        (digits_avoid 0x50 a'), (digits_avoid 0x50 b'),
        (blank_avoids 0x50 tail) by (reflexivity || assumption).
      reflexivity. }
    rewrite Hin, Hlast, strip_is_rstrip_lstrip.
    cbn [lstrip]; change (isspace 32) with true; cbv iota.
    rewrite lstrip_digits_start by assumption.
    rewrite !app_assoc, rstrip_app_blank by assumption.
    rewrite rstrip_digits_end by assumption.
    repeat rewrite <- app_assoc; unfold split.
    change (u "x") with [120%N].
    rewrite split_from_pass by (apply digits_avoid; [reflexivity|assumption]).
    rewrite split_from_hit.
    rewrite (app_assoc b), (app_assoc (b ++ mid)).
    rewrite split_from_pass.
    2:{ rewrite !forallb_app.
        rewrite (digits_avoid 120 b), (digits_avoid 120 a')
          by (reflexivity || assumption).
        reflexivity. }
    rewrite split_from_hit, split_from_rest
      by (apply digits_avoid; [reflexivity|assumption]).
    cbn [map].
    repeat match goal with
           | |- context [match int ?t with _ => _ end] => destruct (int t)
           end; reflexivity. }
  unfold query_screen_size, features_screen_size; rewrite Hparse.
  split; reflexivity.
Qed.

Lemma override_size_defeats_the_parse_witness :
  query_screen_size
    (Ret (u "Physical size: 1080x2400" ++ [10%N] ++ u "Override size: 720x1280"
          ++ [10%N]))
    initial_session
  = (initial_session, [])
  /\ features_screen_size
       (u "Physical size: 1080x2400" ++ [10%N] ++ u "Override size: 720x1280"
        ++ [10%N])
     = Raise ValueError.
Proof.
  apply (@override_size_defeats_the_parse
           (u "1080") (u "2400") (u "720") (u "1280") [10%N] initial_session);
    solve [discriminate | reflexivity].
Defined.

(** After [load_installed_packages] the installed set holds exactly the
    packages listed, each once.  When the listing raises, the set stays
    empty, and the resolver then works on the registry alone: every
    registry key resolves to its package. *)
Theorem installed_set_after_loading (ss : ChatPhone.session) :
  (forall packages,
      NoDup (ChatPhone.INSTALLED_PACKAGES
               (load_installed_packages (Ret packages) ss))
      /\ forall p,
           In p (ChatPhone.INSTALLED_PACKAGES
                   (load_installed_packages (Ret packages) ss))
           <-> In p packages)
  /\ (forall shell e key pkg,
        In (key, pkg) ChatPhone.APP_PACKAGES ->
        ChatPhone.find_app_package
          (ChatPhone.INSTALLED_PACKAGES (fst (startup shell (Raise e)))) key
        = Some pkg).
Proof.
  split.
  - intros packages; cbn; split; [apply NoDup_nodup|].
    intros p; apply nodup_In.
  - intros shell e key pkg Hin.
    assert (Hempty : ChatPhone.INSTALLED_PACKAGES
                       (fst (startup shell (Raise e))) = []).
    { unfold startup, query_screen_size.
      destruct shell as [size_output|e'];
        [destruct (parse_size size_output) as [[[w h]|]|]|]; reflexivity. }
    rewrite Hempty; destruct (registry_key_exact Hin) as [Hnorm Hget].
    unfold ChatPhone.find_app_package; rewrite Hnorm, Hget; reflexivity.
Qed.

(** ** Case and padding in the resolver *)

Lemma all_below_spec (p : N -> bool) (n : nat) :
  all_below p n = true -> forall c, (c < N.of_nat n)%N -> p c = true.
Proof.
  induction n as [|k IH]; intros H c Hc; [lia|].
  cbn [all_below] in H; apply andb_true_iff in H as [Hk H].
  destruct (N.eq_dec c (N.of_nat k)) as [->|Hne]; [assumption|].
  apply IH; [assumption | lia].
Qed.

Lemma in_upto (c first : N) (n : nat) :
  (first <= c < first + N.of_nat n)%N -> In c (upto first n).
Proof.
  revert first; induction n as [|k IH]; intros first H; [lia|].
  cbn [upto]; destruct (N.eq_dec first c) as [->|Hne]; [left; reflexivity|].
  right; apply IH; lia.
Qed.

Lemma covers_run_points (c : N) (r : N * N) :
  covers c r = true -> In c (run_points r).
Proof.
  unfold covers, run_points; intros H.
  apply andb_true_iff in H as [H1 H2].
  apply N.leb_le in H1, H2; apply in_upto; lia.
Qed.

(** A code point is its own lower case or lies in a run of the tables. *)
Lemma lower_cp_cases (c : N) :
  lower_cp c = [c]
  \/ exists r, In r lower_domain /\ covers c r = true.
Proof.
  unfold lower_cp, lower_domain.
  destruct (c <? 0x80)%N.
  { destruct ((0x41 <=? c) && (c <=? 0x5A))%N eqn:E; [right|left; reflexivity].
    exists (0x41, 0x5A)%N; split; [left; reflexivity | exact E]. }
  destruct (c =? 0x130)%N eqn:E.
  { right; exists (0x130, 0x130)%N; split; [right; left; reflexivity|].
    apply N.eqb_eq in E; subst c; reflexivity. }
  destruct (find _ lower_runs) as [[[first last] image]|] eqn:F.
  { apply find_some in F as [Hin Hc]; right; exists (first, last); split.
    - right; right; apply in_or_app; left.
      change (first, last) with (fst (first, last, image)).
      apply in_map; assumption.
    - exact Hc. }
  destruct (existsb _ lower_pairs) eqn:X; [right|left; reflexivity].
  apply existsb_exists in X as (r & Hin & Hc).
  apply andb_true_iff in Hc as [Hc _].
  exists r; split; [right; right; apply in_or_app; right|]; assumption.
Qed.

Lemma lower_cp_closed (c : N) : forallb is_lower_fixed (lower_cp c) = true.
Proof.
  destruct (lower_cp_cases c) as [H|(r & Hin & Hc)].
  - rewrite H; cbn [forallb]; rewrite andb_true_r.
    unfold is_lower_fixed; rewrite H, eqb_refl, andb_true_r.
    apply negb_true_iff, N.eqb_neq; intros ->.
    vm_compute in H; discriminate H.
  - assert (T : lower_tables_closed = true) by (vm_compute; reflexivity).
    unfold lower_tables_closed in T; rewrite forallb_forall in T.
    specialize (T r Hin); rewrite forallb_forall in T.
    apply T, covers_run_points, Hc.
Qed.

(** Code points that [lower] leaves alone are left alone together. *)
Lemma lower_from_fixed (s : str) :
  forallb is_lower_fixed s = true ->
  forall after_letter, lower_from after_letter s = s.
Proof.
  induction s as [|c s IH]; intros H after_letter; [reflexivity|].
  cbn [forallb] in H; apply andb_true_iff in H as [Hc Hs].
  unfold is_lower_fixed in Hc; apply andb_true_iff in Hc as [Hsigma Hc].
  apply negb_true_iff in Hsigma; apply eqb_eq in Hc.
  cbn [lower_from]; rewrite Hsigma, Hc, (IH Hs); reflexivity.
Qed.

Lemma lower_from_closed (s : str) :
  forall after_letter,
  forallb is_lower_fixed (lower_from after_letter s) = true.
Proof.
  induction s as [|c s IH]; intros after_letter; [reflexivity|].
  cbn [lower_from]; rewrite forallb_app, IH, andb_true_r.
  destruct (c =? 0x3A3)%N; [|apply lower_cp_closed].
  destruct (after_letter && no_letter_follows s); vm_compute; reflexivity.
Qed.

(** [lower] is idempotent. *)
Lemma lower_lower (s : str) : lower (lower s) = lower s.
Proof. unfold lower; apply lower_from_fixed, lower_from_closed. Qed.

Lemma space_is_caseless (c : N) : isspace c = true -> is_caseless c = true.
Proof.
  intros Hc.
  assert (H : (c < N.of_nat (N.to_nat 0x3001))%N)
    by (unfold isspace in Hc; code_point_arith).
  apply (@all_below_spec (fun c => if isspace c then is_caseless c else true)) in H;
    [|vm_compute; reflexivity].
  rewrite Hc in H; exact H.
Qed.

Lemma blank_is_caseless (s : str) :
  blank s = true -> forallb is_caseless s = true.
Proof. apply forallb_impl, space_is_caseless. Qed.

Lemma caseless_is_fixed (s : str) :
  forallb is_caseless s = true -> forallb is_lower_fixed s = true.
Proof.
  apply forallb_impl; intros c H; unfold is_caseless in H.
  apply andb_true_iff in H as [H _]; apply andb_true_iff in H as [H _].
  exact H.
Qed.

Lemma caseless_spec (c : N) :
  is_caseless c = true ->
  (c =? 0x3A3)%N = false /\ lower_cp c = [c]
  /\ is_cased c = false /\ is_case_ignorable c = false.
Proof.
  unfold is_caseless, is_lower_fixed; intros H.
  apply andb_true_iff in H as [H Hi]; apply andb_true_iff in H as [H Hc].
  apply andb_true_iff in H as [Hs Hl].
  apply negb_true_iff in Hs, Hc, Hi; apply eqb_eq in Hl; auto.
Qed.

(** White space in front of a string is its own lower case and leaves the
    lower case of the string as it is. *)
Lemma lower_blank_app (a s : str) :
  blank a = true -> lower (a ++ s) = a ++ lower s.
Proof.
  intros Ha; apply blank_is_caseless in Ha; unfold lower.
  induction a as [|c a IH]; [reflexivity|].
  cbn [forallb] in Ha; apply andb_true_iff in Ha as [Hc Ha].
  destruct (caseless_spec _ Hc) as (Hs & Hl & Hcased & Hi).
  cbn [app lower_from]; rewrite Hs, Hl, Hi, Hcased, (IH Ha); reflexivity.
Qed.

Lemma no_letter_follows_blank (s b : str) :
  blank b = true -> no_letter_follows (s ++ b) = no_letter_follows s.
Proof.
  intros Hb; induction s as [|c s IH].
  - destruct b as [|w b]; [reflexivity|].
    cbn in Hb; apply andb_true_iff in Hb as [Hw _].
    destruct (caseless_spec _ (space_is_caseless _ Hw)) as (_ & _ & Hc & Hi).
    cbn [app no_letter_follows]; rewrite Hi, Hc; reflexivity.
  - cbn [app no_letter_follows]; rewrite IH; reflexivity.
Qed.

(** The same for white space behind a string. *)
Lemma lower_app_blank (s b : str) :
  blank b = true -> lower (s ++ b) = lower s ++ b.
Proof.
  intros Hb; unfold lower; generalize false.
  induction s as [|c s IH]; intros after_letter.
  - cbn [app lower_from].
    apply lower_from_fixed, caseless_is_fixed, blank_is_caseless, Hb.
  - cbn [app lower_from].
    rewrite no_letter_follows_blank, IH by assumption.
    rewrite app_assoc; reflexivity.
Qed.

Lemma lstrip_app_blank (a s : str) :
  blank a = true -> lstrip (a ++ s) = lstrip s.
Proof.
  induction a as [|c a IH]; [reflexivity|]; intros H.
  cbn in H; apply andb_true_iff in H as [Hc Ha].
  cbn [app lstrip]; rewrite Hc; apply IH; assumption.
Qed.

Lemma lstrip_blank (a : str) : blank a = true -> lstrip a = [].
Proof.
  intros H; rewrite <- (app_nil_r a), lstrip_app_blank by assumption.
  reflexivity.
Qed.

(** [lstrip] either empties a string, which then was blank, or leaves a
    string that starts with something else than white space. *)
Lemma lstrip_cases (s : str) :
  (lstrip s = [] /\ blank s = true)
  \/ exists c t, lstrip s = c :: t /\ isspace c = false.
Proof.
  induction s as [|c s IH]; [left; split; reflexivity|].
  cbn [lstrip blank forallb]; destruct (isspace c) eqn:E.
  - destruct IH as [[H1 H2]|(d & t & H1 & H2)].
    + left; split; assumption.
    + right; exists d, t; split; assumption.
  - right; exists c, s; split; [reflexivity | assumption].
Qed.

Lemma strip_padding (a s b : str) :
  blank a = true -> blank b = true -> strip (a ++ s ++ b) = strip s.
Proof.
  intros Ha Hb; rewrite !strip_is_rstrip_lstrip.
  rewrite lstrip_app_blank by assumption.
  destruct (lstrip_cases s) as [[H1 H2]|(c & t & H1 & H2)].
  - rewrite H1, lstrip_blank; [reflexivity|].
    unfold blank; rewrite forallb_app; apply andb_true_iff; split; assumption.
  - assert (H : lstrip (s ++ b) = lstrip s ++ b).
    { clear Ha; induction s as [|d s IH]; [discriminate|].
      cbn [app lstrip] in *; destruct (isspace d); [apply IH; assumption|].
      reflexivity. }
    rewrite H; apply rstrip_app_blank; assumption.
Qed.

(** The resolver does not see the case of the query nor the white space
    around it: a query gives the same answer padded with white space and
    lower-cased. *)
Theorem resolver_ignores_case_and_padding
    (installed : list str) (app_name before after : str) :
  blank before = true -> blank after = true ->
  ChatPhone.find_app_package installed (before ++ app_name ++ after)
  = ChatPhone.find_app_package installed app_name
  /\ ChatPhone.find_app_package installed (lower app_name)
     = ChatPhone.find_app_package installed app_name.
Proof.
  intros Hb Ha; unfold ChatPhone.find_app_package; split.
  - rewrite lower_blank_app, lower_app_blank by assumption.
    rewrite strip_padding by assumption; reflexivity.
  - rewrite lower_lower; reflexivity.
Qed.

Lemma resolver_ignores_case_and_padding_witness :
  ChatPhone.find_app_package [] (u "  " ++ u "TikTok" ++ u " ")
  = ChatPhone.find_app_package [] (u "TikTok")
  /\ ChatPhone.find_app_package [] (lower (u "TikTok"))
     = ChatPhone.find_app_package [] (u "TikTok").
Proof.
  apply (@resolver_ignores_case_and_padding [] (u "TikTok") (u "  ") (u " "));
    reflexivity.
Defined.

(** ** Long press and the first line of the answer *)

(** [long_press k] with [0 <= k < len(elements)] presses the element at
    position [k] of the snapshot, counted from 0, whatever [index] that
    element carries: one swipe of 1500 ms from the element's coordinates to
    the same point, where a coordinate the element lacks is that of the
    screen centre. *)
Theorem long_press_presses_by_position
    (dev : device) (ss : ChatPhone.session) (state : Snapshot.t)
    (reply word : str) (k : Z) (log : list (event ChatPhone.message)) :
  reliable dev ->
  startswith (lower reply) (u "long_press") = true ->
  nth_error (split_ws reply) 1 = Some word ->
  int word = Some k ->
  (0 <= k < Z.of_nat (List.length (Snapshot.elements state)))%Z ->
  exists elem,
    nth_error (Snapshot.elements state) (Z.to_nat k) = Some elem
    /\ let x := get (UiElement.x elem) (ChatPhone.SCREEN_WIDTH ss / 2)%Z in
       let y := get (UiElement.y elem) (ChatPhone.SCREEN_HEIGHT ss / 2)%Z in
       ChatPhone.dispatch dev ss state reply log
       = (Ret tt, log ++ [Print (ChatPhone.Action reply);
                          Call (swipe x y x y 1500);
                          Print (ChatPhone.LongPressed k)]).
Proof.
  intros Hdev Hkw Hword Hint Hk.
  rewrite (long_press_runs_its_branch dev ss state reply log Hkw).
  unfold ChatPhone.do_long_press, try_except, int_arg.
  rewrite Hword, Hint; unfold bind, ret.
  assert (Hlt : (k <? Z.of_nat (List.length (Snapshot.elements state)))%Z = true)
    by (apply Z.ltb_lt; lia).
  rewrite Hlt.
  destruct (@getitem_position _ (Snapshot.elements state) k)
    as (elem & Hnth & Hget); [lia|].
  rewrite Z.mod_small in Hnth by lia.
  exists elem; split; [assumption|].
  rewrite Hget; cbv zeta; unfold print.
  rewrite invoke_reliable by assumption.
  flatten_log; reflexivity.
Qed.

Lemma long_press_presses_by_position_witness :
  ChatPhone.dispatch (scripted []) (default_session []) two_buttons
                     (u "long_press 1") []
  = (Ret tt,
     [Print (ChatPhone.Action (u "long_press 1"));
      Call (swipe 300 400 300 400 1500);
      Print (ChatPhone.LongPressed 1)]).
Proof.
  assert (Hk : (0 <= 1 < Z.of_nat (List.length (Snapshot.elements two_buttons)))%Z)
    by (split; [discriminate | reflexivity]).
  destruct (@long_press_presses_by_position
              (scripted []) (default_session []) two_buttons
              (u "long_press 1") (u "1") 1%Z []
              (scripted_reliable _) eq_refl eq_refl eq_refl Hk)
    as (elem & Hnth & E).
  injection Hnth as <-; exact E.
Defined.

Lemma lstrip_length (s : str) : (List.length (lstrip s) <= List.length s)%nat.
Proof.
  induction s as [|c s IH]; [reflexivity|].
  cbn [lstrip]; destruct (isspace c); cbn [List.length]; lia.
Qed.

Lemma rstrip_length (s : str) : (List.length (rstrip s) <= List.length s)%nat.
Proof.
  unfold rstrip; rewrite length_rev.
  etransitivity; [apply lstrip_length|]; rewrite length_rev; reflexivity.
Qed.

(** A non-empty string that [strip] leaves alone starts with something
    else than white space, and [rstrip] leaves it alone too. *)
Lemma stripped_shape (line : str) :
  strip line = line -> line <> [] ->
  (exists c t, line = c :: t /\ isspace c = false) /\ rstrip line = line.
Proof.
  intros Hs Hne; rewrite strip_is_rstrip_lstrip in Hs.
  destruct line as [|c t]; [contradiction|].
  destruct (isspace c) eqn:E.
  - exfalso; cbn [lstrip] in Hs; rewrite E in Hs.
    pose proof (rstrip_length (lstrip t)) as H1.
    pose proof (lstrip_length t) as H2.
    rewrite Hs in H1; cbn [List.length] in H1; lia.
  - cbn [lstrip] in Hs; rewrite E in Hs.
    split; [exists c, t; split; [reflexivity | assumption] | assumption].
Qed.

Lemma rstrip_app_nonblank (a b : str) :
  blank b = false -> rstrip (a ++ b) = a ++ rstrip b.
Proof.
  induction b as [|c b IH] using rev_ind; intros Hb; [discriminate|].
  rewrite app_assoc, !rstrip_snoc.
  destruct (isspace c) eqn:E; [|rewrite app_assoc; reflexivity].
  apply IH; unfold blank in *; rewrite forallb_app in Hb.
  cbn in Hb; rewrite E, andb_true_r in Hb; assumption.
Qed.

Lemma first_line_app (line rest : str) :
  ~ In 10%N line -> first_line (line ++ 10%N :: rest) = line.
Proof.
  induction line as [|c line IH]; intros H; [reflexivity|].
  cbn [app first_line].
  destruct (c =? 10)%N eqn:E;
    [apply N.eqb_eq in E; subst; exfalso; apply H; left; reflexivity|].
  rewrite IH; [reflexivity | intros Hin; apply H; right; assumption].
Qed.

Lemma first_line_whole (line : str) :
  ~ In 10%N line -> first_line line = line.
Proof.
  induction line as [|c line IH]; intros H; [reflexivity|].
  cbn [first_line].
  destruct (c =? 10)%N eqn:E;
    [apply N.eqb_eq in E; subst; exfalso; apply H; left; reflexivity|].
  rewrite IH; [reflexivity | intros Hin; apply H; right; assumption].
Qed.

(** The reply taken from an answer whose first line is [line]. *)
Lemma reply_is_the_first_line (line more : str) :
  strip line = line -> line <> [] -> ~ In 10%N line ->
  first_line (strip (line ++ 10%N :: more)) = line.
Proof.
  intros Hs Hne Hnl.
  destruct (stripped_shape Hs Hne) as [(c & t & -> & Hc) Hr].
  rewrite strip_is_rstrip_lstrip.
  cbn [app lstrip]; rewrite Hc.
  change (c :: t ++ 10%N :: more) with ((c :: t) ++ 10%N :: more).
  destruct (blank (10%N :: more)) eqn:Hb.
  - rewrite rstrip_app_blank, Hr by assumption.
    apply first_line_whole; assumption.
  - rewrite rstrip_app_nonblank by assumption.
    change (10%N :: more) with ([10%N] ++ more).
    rewrite (@rstrip_app_nonblank [10%N] more) by exact Hb.
    apply first_line_app; assumption.
Qed.

(** Only the first line of the model's answer counts: whatever lines
    follow it, the session and the harness run exactly as on the first
    line alone. *)
Theorem only_the_first_line_is_dispatched
    (dev : device) (ss : ChatPhone.session) (vision_mode : bool)
    (goal line more : str) (rest : list (str * ChatPhone.answer))
    (log : list (event ChatPhone.message))
    (harness_log : list (event TestCommand.message)) :
  strip line = line -> line <> [] -> ~ In 10%N line ->
  ChatPhone.main_loop dev ss vision_mode
    ((goal, ChatPhone.Text (line ++ 10%N :: more)) :: rest) log
  = ChatPhone.main_loop dev ss vision_mode
      ((goal, ChatPhone.Text line) :: rest) log
  /\ TestCommand.main dev (ChatPhone.Text (line ++ 10%N :: more)) harness_log
     = TestCommand.main dev (ChatPhone.Text line) harness_log.
Proof.
  intros Hs Hne Hnl.
  pose proof (reply_is_the_first_line more Hs Hne Hnl) as H1.
  assert (H2 : first_line (strip line) = line)
    by (rewrite Hs; apply first_line_whole; assumption).
  split.
  - cbn [ChatPhone.main_loop]; rewrite H1, H2; reflexivity.
  - unfold TestCommand.main; rewrite H1, H2; reflexivity.
Qed.

Lemma only_the_first_line_is_dispatched_witness :
  ChatPhone.main_loop (scripted [feed_screen]) (default_session []) false
    [(u "go back",
      ChatPhone.Text (u "back" ++ 10%N :: u "I pressed the back button."))] []
  = ChatPhone.main_loop (scripted [feed_screen]) (default_session []) false
      [(u "go back", ChatPhone.Text (u "back"))] [].
Proof.
  apply (@only_the_first_line_is_dispatched
           (scripted [feed_screen]) (default_session []) false
           (u "go back") (u "back") (u "I pressed the back button.") [] [] []).
  - reflexivity.
  - discriminate.
  - intros H; vm_compute in H; intuition discriminate.
Defined.

(** C8.  What is shown of an answer that is no command is its first line,
    not its full text.  When the first line of the stripped answer starts,
    lower-cased, with none of the action keywords, the executor makes no
    device call and prints that line as it is; and on a device that does
    not raise, the turn of the session consists of the snapshot taken
    before the model is asked (and the screenshot, in vision mode), that
    line, and a blank line, whatever lines follow it in the answer. *)
Theorem unrecognized_answer_shows_its_first_line
    (dev : device) (ss : ChatPhone.session) (state : Snapshot.t)
    (vision_mode : bool) (line text : str)
    (rest : list (str * ChatPhone.answer))
    (log : list (event ChatPhone.message)) :
  (forall kw, In kw ChatPhone.action_keywords ->
              startswith (lower (first_line (strip text))) kw = false) ->
  (ChatPhone.dispatch dev ss state (first_line (strip text)) log
   = (Ret tt,
      log ++ [Print (ChatPhone.Conversation (first_line (strip text)))])
   /\ calls_of (snd (ChatPhone.dispatch dev ss state
                       (first_line (strip text)) log))
      = calls_of log)
  /\ (reliable dev -> is_request line = true ->
      ChatPhone.main_loop dev ss vision_mode
        ((line, ChatPhone.Text text) :: rest) log
      = ChatPhone.main_loop dev ss vision_mode rest
          (log ++ Call get_state
               :: (if vision_mode then [Call take_screenshot] else [])
               ++ [Print (ChatPhone.Conversation (first_line (strip text)));
                   Print ChatPhone.Blank])).
Proof.
  intros Hkw; split.
  - apply unrecognized_reply_is_conversation; assumption.
  - intros Hdev Hreq; unfold is_request in Hreq.
    cbn [ChatPhone.main_loop].
    destruct (strip line) as [|c goal]; [discriminate Hreq|].
    cbn [eqb negb andb] in Hreq.
    apply andb_true_iff in Hreq as [Hreq Hoff].
    apply andb_true_iff in Hreq as [Hquit Hon].
    apply negb_true_iff in Hquit, Hon, Hoff; rewrite Hquit, Hon, Hoff.
    unfold bind at 1; rewrite (fetch_state_reliable _ Hdev).
    unfold bind at 1.
    assert (Hshot :
      (if vision_mode then invoke dev take_screenshot else ret tt)
        (log ++ [Call get_state])
      = (Ret tt,
         log ++ Call get_state
             :: (if vision_mode then [Call take_screenshot] else [])
             : list (event ChatPhone.message))).
    { destruct vision_mode.
      - rewrite (invoke_reliable _ _ Hdev), <- app_assoc; reflexivity.
      - reflexivity. }
    rewrite Hshot; unfold bind at 1.
    destruct (@unrecognized_reply_is_conversation
                dev ss (state_at dev (calls_of log))
                (first_line (strip text))
                (log ++ Call get_state
                     :: (if vision_mode then [Call take_screenshot] else []))
                Hkw) as [Hrun _].
    rewrite Hrun; unfold bind at 1, print at 1.
    f_equal; repeat rewrite <- app_assoc; cbn [app].
    repeat rewrite <- app_assoc; reflexivity.
Qed.

Lemma unrecognized_answer_shows_its_first_line_witness :
  ChatPhone.main_loop (scripted [feed_screen]) (default_session []) false
    [(u "hello", ChatPhone.Text two_line_answer)] []
  = ChatPhone.main_loop (scripted [feed_screen]) (default_session []) false []
      [Call get_state;
       Print (ChatPhone.Conversation (u "Hello there."));
       Print ChatPhone.Blank].
Proof.
  refine (proj2 (@unrecognized_answer_shows_its_first_line
                   (scripted [feed_screen]) (default_session []) feed_screen
                   false (u "hello") two_line_answer [] [] _)
                (scripted_reliable _) eq_refl).
  intros kw Hin; vm_compute in Hin.
  repeat (destruct Hin as [<- | Hin]; [reflexivity|]); destruct Hin.
Defined.

(** The claim as it is worded fails on an answer of two lines: its first
    line is no command, and what the session prints is that line, which is
    not the full text of the answer. *)
Lemma unrecognized_reply_counterexample :
  ChatPhone.is_action (first_line (strip two_line_answer)) = false
  /\ snd (ChatPhone.main_loop (scripted [feed_screen]) (default_session [])
            false [(u "hello", ChatPhone.Text two_line_answer)] [])
     = [Call get_state;
        Print (ChatPhone.Conversation (u "Hello there."));
        Print ChatPhone.Blank;
        Print ChatPhone.Bye]
  /\ u "Hello there." <> two_line_answer.
Proof.
  split; [vm_compute; reflexivity|].
  split; [vm_compute; reflexivity|].
  intros E; vm_compute in E; discriminate E.
Qed.

(** ** How much a turn asks of the device *)

Section Emits.

Variable msg : Type.

Lemma within_nil (n : nat) : within n [].
Proof. split; [cbn; lia | intros []]. Qed.

Lemma within_le (n n' : nat) (calls : list call) :
  (n <= n')%nat -> within n calls -> within n' calls.
Proof. intros Hle [H1 H2]; split; [lia | assumption]. Qed.

Lemma within_app (n1 n2 : nat) (c1 c2 : list call) :
  within n1 c1 -> within n2 c2 -> within (n1 + n2) (c1 ++ c2).
Proof.
  intros [H1 H2] [H3 H4]; split.
  - rewrite length_app; lia.
  - intros H; apply in_app_or in H as [H|H]; contradiction.
Qed.

Lemma emits_le {A : Type} (n n' : nat) (m : M msg A) :
  (n <= n')%nat -> emits n m -> emits n' m.
Proof.
  intros Hle H log; destruct (H log) as (evs & E & W).
  exists evs; split; [assumption | eapply within_le; eassumption].
Qed.

Lemma emits_ret {A : Type} (n : nat) (a : A) : emits n (@ret msg A a).
Proof.
  intros log; exists []; split; [symmetry; apply app_nil_r|].
  apply within_le with (n := 0%nat); [lia | apply within_nil].
Qed.

Lemma emits_raise {A : Type} (n : nat) (e : exn) : emits n (@raise msg A e).
Proof.
  intros log; exists []; split; [symmetry; apply app_nil_r|].
  apply within_le with (n := 0%nat); [lia | apply within_nil].
Qed.

Lemma emits_print (n : nat) (m : msg) : emits n (print m).
Proof.
  intros log; exists [Print m]; split; [reflexivity|].
  apply within_le with (n := 0%nat); [lia | apply within_nil].
Qed.

Lemma emits_sleep (n : nat) (seconds : Z) : emits n (@sleep msg seconds).
Proof.
  intros log; exists [Sleep seconds]; split; [reflexivity|].
  apply within_le with (n := 0%nat); [lia | apply within_nil].
Qed.

Lemma emits_int_arg (n : nat) (reply : str) : emits n (@int_arg msg reply).
Proof.
  unfold int_arg; destruct (nth_error _ _) as [word|];
    [destruct (int word)|]; first [apply emits_ret | apply emits_raise].
Qed.

Lemma emits_invoke (n : nat) (dev : device) (c : call) :
  c <> take_screenshot -> emits (S n) (@invoke msg dev c).
Proof.
  intros Hc log; exists [Call c]; split.
  - unfold invoke; destruct (raises dev _ _); reflexivity.
  - split; [cbn; lia | intros [H|[]]; congruence].
Qed.

Lemma emits_fetch (n : nat) (dev : device) : emits (S n) (@fetch_state msg dev).
Proof.
  intros log; exists [Call get_state]; split.
  - unfold fetch_state; destruct (raises dev _ _); reflexivity.
  - split; [cbn; lia | intros [H|[]]; discriminate].
Qed.

Lemma emits_bind {A B : Type} (n1 n2 : nat) (m : M msg A) (k : A -> M msg B) :
  emits n1 m -> (forall a, emits n2 (k a)) -> emits (n1 + n2) (bind m k).
Proof.
  intros Hm Hk log; destruct (Hm log) as (e1 & E1 & W1); unfold bind.
  destruct (m log) as [[a|e] log1]; cbn [snd] in E1; subst log1.
  - destruct (Hk a (log ++ e1)) as (e2 & E2 & W2).
    exists (e1 ++ e2); rewrite E2, app_assoc; split; [reflexivity|].
    rewrite calls_of_app; apply within_app; assumption.
  - exists e1; split; [reflexivity|].
    apply within_le with (n := n1); [lia | assumption].
Qed.

Lemma emits_try {A : Type} (n1 n2 : nat) (body : M msg A)
    (caught : exn -> bool) (handler : exn -> M msg A) :
  emits n1 body -> (forall e, emits n2 (handler e)) ->
  emits (n1 + n2) (try_except body caught handler).
Proof.
  intros Hb Hh log; destruct (Hb log) as (e1 & E1 & W1); unfold try_except.
  destruct (body log) as [[a|e] log1]; cbn [snd] in E1; subst log1.
  - exists e1; split; [reflexivity|].
    apply within_le with (n := n1); [lia | assumption].
  - destruct (caught e).
    + destruct (Hh e (log ++ e1)) as (e2 & E2 & W2).
      exists (e1 ++ e2); rewrite E2, app_assoc; split; [reflexivity|].
      rewrite calls_of_app; apply within_app; assumption.
    + exists e1; split; [reflexivity|].
      apply within_le with (n := n1); [lia | assumption].
Qed.

(** Something that makes no call, then the rest. *)
Lemma emits_then {A B : Type} (n : nat) (m : M msg A) (k : A -> M msg B) :
  emits 0 m -> (forall a, emits n (k a)) -> emits n (bind m k).
Proof.
  intros Hm Hk; change (emits (0 + n) (bind m k)).
  apply emits_bind; assumption.
Qed.

(** One call, then the rest. *)
Lemma emits_call_then {A B : Type} (n : nat) (m : M msg A)
    (k : A -> M msg B) :
  emits 1 m -> (forall a, emits n (k a)) -> emits (S n) (bind m k).
Proof.
  intros Hm Hk; change (emits (1 + n) (bind m k)).
  apply emits_bind; assumption.
Qed.

(** A scan, then what follows its answer: after a yes nothing more is
    asked of the device. *)
Lemma emits_scan_then {B : Type} (n : nat) (m : M msg bool)
    (k : bool -> M msg B) :
  scans m -> emits (S n) (k false) -> emits 0 (k true) ->
  emits (S n) (bind m k).
Proof.
  intros Hm Hf Ht log; unfold bind; destruct (Hm log) as [E|[Hne (e1 & E1 & W1)]].
  - rewrite E; apply Hf.
  - destruct (m log) as [[[|]|e] log1]; cbn [fst snd] in *; subst.
    + destruct (Ht (log ++ e1)) as (e2 & E2 & W2).
      exists (e1 ++ e2); rewrite E2, app_assoc; split; [reflexivity|].
      rewrite calls_of_app.
      apply within_le with (n := (1 + 0)%nat); [lia|].
      apply within_app; assumption.
    + contradiction Hne; reflexivity.
    + exists e1; split; [reflexivity|].
      apply within_le with (n := 1%nat); [lia | assumption].
Qed.

Lemma scans_emits (m : M msg bool) : scans m -> emits 1 m.
Proof.
  intros Hm log; destruct (Hm log) as [E|[_ H]]; [|assumption].
  exists []; rewrite E; split; [symmetry; apply app_nil_r | apply within_nil].
Qed.

(** One step of a scan: a tap, then a continuation that makes no call
    and does not answer no. *)
Lemma scans_tap (dev : device) (index : Z) (k : M msg bool) :
  emits 0 k -> (forall log, fst (k log) <> Ret false) ->
  scans (bind (invoke dev (tap index)) (fun _ => k)).
Proof.
  intros Hk Hyes log; right; split.
  - unfold bind, invoke; destruct (raises dev _ _); [discriminate|].
    apply Hyes.
  - apply emits_call_then; [apply emits_invoke; discriminate|].
    intros _; assumption.
Qed.

End Emits.

Section TurnBounds.

Variable dev : device.
Variable ss : ChatPhone.session.

Lemma tap_first_scans (wanted : str -> bool) (done : ChatPhone.message)
    (elements : list UiElement.t) :
  scans (ChatPhone.tap_first dev wanted done elements).
Proof.
  induction elements as [|e rest IH]; [intros log; left; reflexivity|].
  cbn [ChatPhone.tap_first]; destruct (wanted _); [|apply IH].
  apply scans_tap.
  - apply emits_then; [apply emits_print | intros _; apply emits_ret].
  - intros log; discriminate.
Qed.

Lemma search_suggestion_scans (keyword : str) (elements : list UiElement.t) :
  scans (ChatPhone.search_suggestion dev keyword elements).
Proof.
  induction elements as [|e rest IH]; [intros log; left; reflexivity|].
  cbn [ChatPhone.search_suggestion].
  match goal with
  | |- context [if ?c then _ else _] => destruct c
  end; [|apply IH].
  apply scans_tap.
  - apply emits_then; [apply emits_print | intros _; apply emits_ret].
  - intros log; discriminate.
Qed.

Lemma select_tab_scan_scans (tab_name : str) (elements : list UiElement.t) :
  scans (ChatPhone.select_tab_scan dev tab_name elements).
Proof.
  induction elements as [|e rest IH]; [intros log; left; reflexivity|].
  cbn [ChatPhone.select_tab_scan].
  match goal with
  | |- context [if ?c then _ else _] => destruct c
  end; [|apply IH].
  apply scans_tap.
  - apply emits_then; [apply emits_print | intros _; apply emits_ret].
  - intros log; discriminate.
Qed.

Lemma search_open_emits (elements : list UiElement.t) :
  emits 1 (ChatPhone.search_open dev elements).
Proof.
  induction elements as [|e rest IH]; [apply emits_ret|].
  cbn [ChatPhone.search_open].
  match goal with
  | |- context [if ?c then _ else _] => destruct c
  end; [|apply IH].
  apply emits_call_then; [apply emits_invoke; discriminate | intros _].
  apply emits_then; [apply emits_print | intros _].
  apply emits_then; [apply emits_sleep | intros _; apply emits_ret].
Qed.

Lemma search_submit_emits (elements : list UiElement.t) :
  emits 1 (ChatPhone.search_submit dev elements).
Proof.
  induction elements as [|e rest IH]; [apply emits_ret|].
  cbn [ChatPhone.search_submit].
  match goal with
  | |- context [if ?c then _ else _] => destruct c
  end; [|apply IH].
  apply emits_call_then; [apply emits_invoke; discriminate | intros _].
  apply emits_print.
Qed.

Lemma search_type_emits (keyword : str) (elements : list UiElement.t) :
  emits 3 (ChatPhone.search_type dev keyword elements).
Proof.
  induction elements as [|e rest IH]; [apply emits_ret|].
  cbn [ChatPhone.search_type].
  match goal with
  | |- context [if ?c then _ else _] => destruct c
  end; [|apply IH].
  apply emits_call_then; [apply emits_invoke; discriminate | intros _].
  apply emits_then; [apply emits_print | intros _].
  apply emits_then; [apply emits_sleep | intros _].
  apply emits_call_then; [apply emits_fetch | intros state].
  apply emits_scan_then;
    [apply search_suggestion_scans | apply search_submit_emits | apply emits_ret].
Qed.

Lemma tap_video_scan_emits (video_num : Z) (elements : list UiElement.t) :
  forall video_count,
  emits 1 (ChatPhone.tap_video_scan dev video_num video_count elements).
Proof.
  induction elements as [|e rest IH]; intros video_count; [apply emits_ret|].
  cbn [ChatPhone.tap_video_scan].
  destruct (_ && _); [|apply IH].
  destruct (_ =? _)%Z; [|apply IH].
  apply emits_call_then; [apply emits_invoke; discriminate | intros _].
  apply emits_then; [apply emits_print | intros _; apply emits_ret].
Qed.

Lemma do_open_app_emits (current_app reply : str) :
  emits 1 (ChatPhone.do_open_app dev ss current_app reply).
Proof.
  unfold ChatPhone.do_open_app.
  destruct (ChatPhone.find_app_package _ _) as [[|c package]|];
    try destruct (str_in _ _);
    first [ apply emits_print
          | change 1%nat with (1 + 0)%nat; apply emits_try;
            [apply emits_call_then;
             [apply emits_invoke; discriminate | intros _; apply emits_print]
            |intros e; apply emits_print] ].
Qed.

Lemma do_tap_emits (reply : str) : emits 1 (ChatPhone.do_tap dev reply).
Proof.
  change 1%nat with (1 + 0)%nat; apply emits_try;
    [|intros e; apply emits_print].
  apply emits_then; [apply emits_int_arg | intros index].
  apply emits_call_then; [apply emits_invoke; discriminate | intros _].
  apply emits_print.
Qed.

Lemma do_swipe_emits (reply_lower : str) :
  emits 1 (ChatPhone.do_swipe dev ss reply_lower).
Proof.
  unfold ChatPhone.do_swipe.
  repeat match goal with
         | |- context [if ?c then _ else _] => destruct c
         end;
    first [ apply emits_print
          | apply emits_call_then;
            [apply emits_invoke; discriminate | intros _; apply emits_print] ].
Qed.

Lemma do_long_press_emits (elements : list UiElement.t) (reply : str) :
  emits 1 (ChatPhone.do_long_press dev ss elements reply).
Proof.
  change 1%nat with (1 + 0)%nat; apply emits_try;
    [|intros e; apply emits_print].
  apply emits_then; [apply emits_int_arg | intros index].
  destruct (_ <? _)%Z; [|apply emits_print].
  destruct (getitem _ _); [|apply emits_raise].
  apply emits_call_then; [apply emits_invoke; discriminate | intros _].
  apply emits_print.
Qed.

Lemma do_search_emits (elements : list UiElement.t) (reply : str) :
  emits 5 (ChatPhone.do_search dev elements reply).
Proof.
  unfold ChatPhone.do_search.
  destruct (after_space reply) as [|c keyword]; [apply emits_print|].
  apply emits_then; [apply emits_print | intros _].
  change 5%nat with (5 + 0)%nat; apply emits_try;
    [|intros e; apply emits_print].
  change 5%nat with (1 + 4)%nat; apply emits_bind;
    [apply search_open_emits | intros [|]; [|apply emits_print]].
  apply emits_call_then; [apply emits_fetch | intros state].
  apply search_type_emits.
Qed.

Lemma do_tap_video_emits (elements : list UiElement.t) (reply : str) :
  emits 1 (ChatPhone.do_tap_video dev elements reply).
Proof.
  change 1%nat with (1 + 0)%nat; apply emits_try;
    [|intros e; apply emits_print].
  apply emits_then; [apply emits_int_arg | intros video_num].
  change 1%nat with (1 + 0)%nat; apply emits_bind;
    [apply tap_video_scan_emits | intros [[|] video_count]];
    [apply emits_ret | apply emits_print].
Qed.

Lemma do_select_tab_emits (elements : list UiElement.t) (reply : str) :
  emits 1 (ChatPhone.do_select_tab dev elements reply).
Proof.
  unfold ChatPhone.do_select_tab.
  destruct (after_space reply) as [|c tab_name]; [apply emits_print|].
  apply emits_scan_then;
    [apply select_tab_scan_scans | apply emits_print | apply emits_ret].
Qed.

Lemma do_open_comments_emits (elements : list UiElement.t) :
  emits 1 (ChatPhone.do_open_comments dev elements).
Proof.
  unfold ChatPhone.do_open_comments.
  apply emits_scan_then; [apply tap_first_scans | |].
  - apply emits_scan_then;
      [apply tap_first_scans | apply emits_print | apply emits_ret].
  - apply emits_then; [apply emits_ret | intros [|]];
      [apply emits_ret | apply emits_print].
Qed.

Lemma do_close_comments_emits (elements : list UiElement.t) :
  emits 1 (ChatPhone.do_close_comments dev elements).
Proof.
  unfold ChatPhone.do_close_comments.
  apply emits_scan_then; [apply tap_first_scans | | apply emits_ret].
  apply emits_call_then; [apply emits_invoke; discriminate | intros _].
  apply emits_print.
Qed.

(** The bound of a whole turn, on any device. *)
Lemma dispatch_emits (state : Snapshot.t) (reply : str) :
  emits (if startswith (lower reply) (u "search") then 5 else 1)
        (ChatPhone.dispatch dev ss state reply).
Proof.
  unfold ChatPhone.dispatch.
  destruct (ChatPhone.is_action reply); [|apply emits_print].
  apply emits_then; [apply emits_print | intros _].
  destruct (startswith (lower reply) (u "search")) eqn:Hsearch.
  - repeat match goal with
           | |- emits _ (if ?c then _ else _) => destruct c
           end;
      first [ apply do_search_emits
            | apply emits_le with (n := 1%nat); [lia|];
              first [ apply do_open_app_emits
                    | apply do_tap_emits
                    | apply do_swipe_emits
                    | apply do_long_press_emits
                    | apply do_tap_video_emits
                    | apply do_select_tab_emits
                    | apply do_open_comments_emits
                    | apply do_close_comments_emits
                    | apply emits_ret
                    | apply emits_call_then;
                      [apply emits_invoke; discriminate
                      |intros _; apply emits_print] ] ].
  - repeat match goal with
           | |- emits _ (if ?c then _ else _) => destruct c
           end;
      first [ apply do_open_app_emits
            | apply do_tap_emits
            | apply do_swipe_emits
            | apply do_long_press_emits
            | apply do_tap_video_emits
            | apply do_select_tab_emits
            | apply do_open_comments_emits
            | apply do_close_comments_emits
            | apply emits_ret
            | apply emits_call_then;
              [apply emits_invoke; discriminate
              |intros _; apply emits_print] ].
Qed.

End TurnBounds.

(** On any device, working or not, one reply makes the turn ask little:
    at most five calls when the reply starts with [search] (a tap, a
    snapshot, the typing, a snapshot, a tap), at most one call otherwise,
    and never a screenshot; the events of the turn are appended to the log,
    which is otherwise left as it was. *)
Theorem turn_call_budget
    (dev : device) (ss : ChatPhone.session) (state : Snapshot.t)
    (reply : str) (log : list (event ChatPhone.message)) :
  exists evs,
    snd (ChatPhone.dispatch dev ss state reply log) = log ++ evs
    /\ (List.length (calls_of evs)
        <= if startswith (lower reply) (u "search") then 5 else 1)%nat
    /\ ~ In take_screenshot (calls_of evs).
Proof.
  destruct (dispatch_emits dev ss state reply log) as (evs & E & Hn & Hs).
  exists evs; repeat split; assumption.
Qed.

Lemma main_loop_emits
    (dev : device) (ss : ChatPhone.session)
    (inputs : list (str * ChatPhone.answer)) :
  (forall line response,
      In (line, response) inputs -> lower (strip line) <> u "vision on") ->
  emits (6 * List.length inputs) (ChatPhone.main_loop dev ss false inputs).
Proof.
  induction inputs as [|[line response] rest IH]; intros Hoff;
    [apply emits_print|].
  assert (Hrest : emits (6 * List.length rest)
                        (ChatPhone.main_loop dev ss false rest))
    by (apply IH; intros l r Hin; apply (Hoff l r); right; assumption).
  assert (Hline : lower (strip line) <> u "vision on")
    by (apply (Hoff line response); left; reflexivity).
  assert (Hle : (6 * List.length rest <= 6 * List.length ((line, response) :: rest))%nat)
    by (cbn [List.length]; lia).
  cbn [ChatPhone.main_loop].
  destruct (strip line) as [|c goal]; [apply (emits_le Hle Hrest)|].
  destruct (eqb _ (u "quit")); [apply emits_print|].
  destruct (eqb (lower (c :: goal)) (u "vision on")) eqn:Eon;
    [apply eqb_eq in Eon; contradiction|].
  destruct (eqb _ (u "vision off")).
  { apply (emits_le Hle); apply emits_then; [apply emits_print|intros _].
    assumption. }
  replace (6 * List.length ((line, response) :: rest))%nat
    with (1 + (5 + 6 * List.length rest))%nat by (cbn [List.length]; lia).
  apply emits_bind; [apply emits_fetch | intros state].
  apply emits_then; [apply emits_ret | intros _].
  destruct response as [|t|].
  - apply emits_then; [apply emits_print | intros _].
    apply emits_then; [apply emits_print | intros _].
    apply emits_le with (n := (6 * List.length rest)%nat); [lia | assumption].
  - apply emits_bind.
    + eapply emits_le; [|apply dispatch_emits].
      destruct (startswith _ _); lia.
    + intros _; apply emits_then; [apply emits_print | intros _; assumption].
  - apply emits_then; [apply emits_print | intros _].
    apply emits_then; [apply emits_print | intros _].
    apply emits_le with (n := (6 * List.length rest)%nat); [lia | assumption].
Qed.

(** A session that starts with vision off, in which the user never types
    [vision on], takes no screenshot, whatever the device does and whatever
    the model answers; and over [k] lines of input it makes at most [6 k]
    device calls (a snapshot and at most five calls per turn). *)
Theorem session_without_vision_takes_no_screenshot
    (dev : device) (ss : ChatPhone.session)
    (inputs : list (str * ChatPhone.answer))
    (log : list (event ChatPhone.message)) :
  (forall line response,
      In (line, response) inputs -> lower (strip line) <> u "vision on") ->
  exists evs,
    snd (ChatPhone.main_loop dev ss false inputs log) = log ++ evs
    /\ (List.length (calls_of evs) <= 6 * List.length inputs)%nat
    /\ ~ In take_screenshot (calls_of evs).
Proof.
  intros Hoff.
  destruct (@main_loop_emits dev ss inputs Hoff log) as (evs & E & Hn & Hs).
  exists evs; repeat split; assumption.
Qed.

Lemma session_without_vision_takes_no_screenshot_witness :
  exists evs,
    snd (ChatPhone.main_loop (raising DeviceError) (default_session []) false
           [(u "find cats", ChatPhone.Text (u "search cats"));
            (u "vision off", ChatPhone.NoText);
            (u "go home", ChatPhone.Text (u "home"))] [])
    = [] ++ evs
    /\ (List.length (calls_of evs) <= 6 * 3)%nat
    /\ ~ In take_screenshot (calls_of evs).
Proof.
  apply (@session_without_vision_takes_no_screenshot
           (raising DeviceError) (default_session [])
           [(u "find cats", ChatPhone.Text (u "search cats"));
            (u "vision off", ChatPhone.NoText);
            (u "go home", ChatPhone.Text (u "home"))] []).
  intros line response Hin; cbn [In] in Hin.
  destruct Hin as [[= <- <-]|[[= <- <-]|[[= <- <-]|[]]]]; discriminate.
Defined.
